(** * A momentum-gainer monitor: the model of [main.py] and its properties

    The program fetches the previous session's closing prices once, then
    reads a stream of per-minute aggregate bars and records every ticker
    whose move, cumulative volume and price clear three fixed thresholds.

    The model follows the Python source line by line.  Python values are
    kept as Python has them: [int] is an unbounded integer ([Z]), [float]
    is an IEEE-754 binary64 number (the executable specification
    [spec_float] with 53 bits of precision), [bool] is an [int], and the
    result of [json.loads] is a tree of such values.  The three module
    level dictionaries are finite maps; exceptions are explicit results;
    [print] and the network calls append to a trace.  The interpreter is
    CPython 3.11 on Linux: an [int] of more than 4300 digits is not
    converted to text, and [strftime] is the C library's. *)

From Stdlib Require Import ZArith Lia Bool List String Ascii.
From Stdlib Require Import Floats.SpecFloat.
From stdpp Require Import base option list gmap strings.

Set Warnings "-register-all".
Local Open Scope Z_scope.

(** ** Exceptions and results *)

(** The exception classes that the modelled code can raise. *)
Inductive exn : Type :=
  | JSONDecodeError
  | AttributeError
  | KeyError (k : string)
  | TypeError
  | ZeroDivisionError
  | OverflowError
  | ValueError
  | UnicodeEncodeError
  | ConnectionClosedError
  | ClientError.

(** [ConnectionClosedError] has a handler of its own in [stream]; every
    class above derives from [Exception]. *)
Definition is_connection_closed_error (e : exn) : bool :=
  match e with ConnectionClosedError => true | _ => false end.

Inductive result (A : Type) : Type :=
  | Ret (a : A)
  | Raise (e : exn).
Arguments Ret {A} a.
Arguments Raise {A} e.

Definition rbind {A B} (r : result A) (k : A -> result B) : result B :=
  match r with
  | Ret a => k a
  | Raise e => Raise e
  end.

Definition raised {A} (r : result A) : bool :=
  match r with Ret _ => false | Raise _ => true end.

(** ** Python numbers *)

Module PyNum.

(** binary64 *)
Definition prec : Z := 53.
Definition emax : Z := 1024.

Definition fadd := SFadd prec emax.
Definition fsub := SFsub prec emax.
Definition fmul := SFmul prec emax.
Definition fdiv := SFdiv prec emax.

(** A Python number: an [int] or a [float]. *)
Inductive num : Type :=
  | PyInt (z : Z)
  | PyFloat (f : spec_float).

(** The integer [z] as an unrounded binary number, and rounded to the
    nearest double (ties to even). *)
Definition sf_of_Z (z : Z) : spec_float :=
  match z with
  | Z0 => S754_zero false
  | Zpos p => S754_finite false p 0
  | Zneg p => S754_finite true p 0
  end.

Definition round_Z (z : Z) : spec_float := binary_normalize prec emax z 0 false.

(** [float(z)] as the arithmetic operators convert an [int] operand:
    [OverflowError] when [z] is too large for a double. *)
Definition float_of_int (z : Z) : result spec_float :=
  match round_Z z with
  | S754_infinity _ => Raise OverflowError
  | f => Ret f
  end.

Definition to_float (a : num) : result spec_float :=
  match a with
  | PyInt z => float_of_int z
  | PyFloat f => Ret f
  end.

Definition is_fzero (f : spec_float) : bool :=
  match f with S754_zero _ => true | _ => false end.

(** Lift a binary64 operation to mixed operands. *)
Definition float_op (op : spec_float -> spec_float -> spec_float)
    (a b : num) : result num :=
  rbind (to_float a) (fun x =>
  rbind (to_float b) (fun y =>
  Ret (PyFloat (op x y)))).

(** [a - b] *)
Definition py_sub (a b : num) : result num :=
  match a, b with
  | PyInt x, PyInt y => Ret (PyInt (x - y))
  | _, _ => float_op fsub a b
  end.

(** [a + b] *)
Definition py_add (a b : num) : result num :=
  match a, b with
  | PyInt x, PyInt y => Ret (PyInt (x + y))
  | _, _ => float_op fadd a b
  end.

(** [a * b] *)
Definition py_mul (a b : num) : result num :=
  match a, b with
  | PyInt x, PyInt y => Ret (PyInt (x * y))
  | _, _ => float_op fmul a b
  end.

(** [a / b]: true division always yields a [float].  Two [int]s give
    the correctly rounded quotient; a zero divisor raises. *)
Definition py_truediv (a b : num) : result num :=
  match a, b with
  | PyInt x, PyInt y =>
      if y =? 0 then Raise ZeroDivisionError
      else match fdiv (sf_of_Z x) (sf_of_Z y) with
           | S754_infinity _ => Raise OverflowError
           | q => Ret (PyFloat q)
           end
  | _, _ =>
      rbind (to_float a) (fun x =>
      rbind (to_float b) (fun y =>
      if is_fzero y then Raise ZeroDivisionError
      else Ret (PyFloat (fdiv x y))))
  end.

(** Comparisons between numbers are exact in Python, also between an
    [int] and a [float]: both sides are read as extended reals. *)
Inductive xreal : Type :=
  | XNaN
  | XInf (neg : bool)
  | XDy (m e : Z).   (* m * 2^e *)

Definition float_val (f : spec_float) : xreal :=
  match f with
  | S754_nan => XNaN
  | S754_infinity s => XInf s
  | S754_zero _ => XDy 0 0
  | S754_finite s m e => XDy (if s then Zneg m else Zpos m) e
  end.

Definition num_val (a : num) : xreal :=
  match a with
  | PyInt z => XDy z 0
  | PyFloat f => float_val f
  end.

Definition dy_compare (m1 e1 m2 e2 : Z) : comparison :=
  let e := Z.min e1 e2 in
  Z.compare (m1 * 2 ^ (e1 - e)) (m2 * 2 ^ (e2 - e)).

Definition x_compare (x y : xreal) : option comparison :=
  match x, y with
  | XNaN, _ | _, XNaN => None
  | XInf s1, XInf s2 =>
      Some (match s1, s2 with
            | true, false => Lt
            | false, true => Gt
            | _, _ => Eq
            end)
  | XInf s, XDy _ _ => Some (if s then Lt else Gt)
  | XDy _ _, XInf s => Some (if s then Gt else Lt)
  | XDy m1 e1, XDy m2 e2 => Some (dy_compare m1 e1 m2 e2)
  end.

Definition py_compare (a b : num) : option comparison :=
  x_compare (num_val a) (num_val b).

(** [a >= b] *)
Definition py_ge (a b : num) : bool :=
  match py_compare a b with
  | Some Gt | Some Eq => true
  | _ => false
  end.

(** [a <= b], [a < b], [a > b], [a == b] *)
Definition py_le (a b : num) : bool :=
  match py_compare a b with
  | Some Lt | Some Eq => true
  | _ => false
  end.

Definition py_lt (a b : num) : bool :=
  match py_compare a b with Some Lt => true | _ => false end.

Definition py_gt (a b : num) : bool :=
  match py_compare a b with Some Gt => true | _ => false end.

Definition py_eq (a b : num) : bool :=
  match py_compare a b with Some Eq => true | _ => false end.

(** The double nearest to the decimal literal [m / 10^k], as
    [json.loads] reads a number written with a fraction. *)
Definition dec (m : Z) (k : nat) : spec_float :=
  fdiv (sf_of_Z m) (sf_of_Z (10 ^ Z.of_nat k)).

End PyNum.
Export PyNum.

(** ** JSON values, as [json.loads] builds them *)

Module Json.

(** [JObj] lists the members of an object in the order of the text;
    the [dict] that [json.loads] builds keeps the last binding of a
    repeated key. *)
Inductive json : Type :=
  | JNull
  | JBool (b : bool)
  | JInt (z : Z)
  | JFloat (f : spec_float)
  | JStr (s : string)
  | JArr (xs : list json)
  | JObj (kvs : list (string * json)).

(** A received text, by what [json.loads] makes of it. *)
Inductive message : Type :=
  | Malformed (raw : string)
  | WellFormed (j : json).

Definition loads (m : message) : result json :=
  match m with
  | Malformed _ => Raise JSONDecodeError
  | WellFormed j => Ret j
  end.

(** [d.get(k)] on the [dict] of an object: the last binding wins. *)
Fixpoint obj_lookup (k : string) (kvs : list (string * json)) : option json :=
  match kvs with
  | [] => None
  | (k', v) :: rest =>
      match obj_lookup k rest with
      | Some w => Some w
      | None => if String.eqb k k' then Some v else None
      end
  end.

(** [x.get(k)]: only a [dict] has the method. *)
Definition py_get (x : json) (k : string) : result (option json) :=
  match x with
  | JObj kvs => Ret (obj_lookup k kvs)
  | _ => Raise AttributeError
  end.

(** [x[k]] with a string [k]: [KeyError] on a [dict] without the key,
    [TypeError] on anything that is not a [dict]. *)
Definition py_getitem (x : json) (k : string) : result json :=
  match x with
  | JObj kvs =>
      match obj_lookup k kvs with
      | Some v => Ret v
      | None => Raise (KeyError k)
      end
  | _ => Raise TypeError
  end.

(** The distinct keys of the [dict], in insertion order. *)
Fixpoint obj_keys (kvs : list (string * json)) : list string :=
  match kvs with
  | [] => []
  | (k, _) :: rest =>
      k :: filter (fun k' => negb (String.eqb k k')) (obj_keys rest)
  end.

Fixpoint str_chars (s : string) : list string :=
  match s with
  | EmptyString => []
  | String c rest => String c EmptyString :: str_chars rest
  end.

(** [for x in v]: a list yields its elements, a [dict] its keys, a
    [str] its characters; nothing else is iterable. *)
Definition py_iter (v : json) : result (list json) :=
  match v with
  | JArr xs => Ret xs
  | JObj kvs => Ret (map JStr (obj_keys kvs))
  | JStr s => Ret (map JStr (str_chars s))
  | _ => Raise TypeError
  end.

(** The number a value is in arithmetic; [True] and [False] are the
    integers 1 and 0. *)
Definition as_num (v : json) : option num :=
  match v with
  | JBool b => Some (PyInt (if b then 1 else 0))
  | JInt z => Some (PyInt z)
  | JFloat f => Some (PyFloat f)
  | _ => None
  end.

(** A binary arithmetic operator on two values: [TypeError] unless
    both are numbers. *)
Definition arith (op : num -> num -> result num) (a b : json) : result num :=
  match as_num a, as_num b with
  | Some x, Some y => op x y
  | _, _ => Raise TypeError
  end.

(** [v == "..."] *)
Definition eq_str (v : option json) (s : string) : bool :=
  match v with
  | Some (JStr t) => String.eqb t s
  | _ => false
  end.

End Json.
Export Json.

(** ** Dictionary keys *)

Module PyKey.

(** What a [dict] distinguishes among hashable JSON values: numbers by
    their value ([1], [1.0] and [True] are one key), strings by their
    text.  A finite number is kept as [m * 2^e] with [m] odd.  The one
    NaN object of the [json] module is a key like any other. *)
Inductive pykey : Type :=
  | KNone
  | KStr (s : string)
  | KNum (m e : Z)
  | KInf (neg : bool)
  | KNaN.

#[global] Instance pykey_eq_dec : EqDecision pykey.
Proof. solve_decision. Defined.

#[global] Instance pykey_countable : Countable pykey.
Proof.
  refine (inj_countable'
    (fun k => match k with
              | KNone => inl (inl ())
              | KNaN => inl (inr ())
              | KStr s => inr (inl s)
              | KNum m e => inr (inr (inl (m, e)))
              | KInf b => inr (inr (inr b))
              end)
    (fun x => match x with
              | inl (inl _) => KNone
              | inl (inr _) => KNaN
              | inr (inl s) => KStr s
              | inr (inr (inl (m, e))) => KNum m e
              | inr (inr (inr b)) => KInf b
              end) _).
  by intros [].
Defined.

Fixpoint pos_norm (p : positive) (e : Z) : positive * Z :=
  match p with
  | xO q => pos_norm q (e + 1)
  | _ => (p, e)
  end.

Definition dy_key (m e : Z) : pykey :=
  match m with
  | Z0 => KNum 0 0
  | Zpos p => let '(q, e') := pos_norm p e in KNum (Zpos q) e'
  | Zneg p => let '(q, e') := pos_norm p e in KNum (Zneg q) e'
  end.

Definition num_key (a : num) : pykey :=
  match num_val a with
  | XNaN => KNaN
  | XInf s => KInf s
  | XDy m e => dy_key m e
  end.

(** [hash(v)] succeeds on every JSON value but a list or a dict. *)
Definition key_of (v : json) : result pykey :=
  match v with
  | JNull => Ret KNone
  | JStr s => Ret (KStr s)
  | JArr _ | JObj _ => Raise TypeError
  | JBool b => Ret (num_key (PyInt (if b then 1 else 0)))
  | JInt z => Ret (num_key (PyInt z))
  | JFloat f => Ret (num_key (PyFloat f))
  end.

End PyKey.
Export PyKey.

(** ** Calendar dates *)

Module PyDate.

(** [datetime.date], with the proleptic Gregorian ordinal arithmetic of
    the standard library: day 1 is 0001-01-01, a Monday. *)
Record date : Type := Date { year : Z; month : Z; day : Z }.

Definition MAXORDINAL : Z := 3652059.   (* date(9999, 12, 31).toordinal() *)

Definition is_leap (y : Z) : bool :=
  (y mod 4 =? 0) && (negb (y mod 100 =? 0) || (y mod 400 =? 0)).

Definition days_before_year (y : Z) : Z :=
  let y := y - 1 in y * 365 + y / 4 - y / 100 + y / 400.

Definition DAYS_IN_MONTH (m : Z) : Z :=
  match m with
  | 2 => 28
  | 4 | 6 | 9 | 11 => 30
  | _ => 31
  end.

Definition DAYS_BEFORE_MONTH (m : Z) : Z :=
  match m with
  | 1 => 0 | 2 => 31 | 3 => 59 | 4 => 90 | 5 => 120 | 6 => 151
  | 7 => 181 | 8 => 212 | 9 => 243 | 10 => 273 | 11 => 304 | _ => 334
  end.

Definition days_in_month (y m : Z) : Z :=
  if (m =? 2) && is_leap y then 29 else DAYS_IN_MONTH m.

Definition days_before_month (y m : Z) : Z :=
  DAYS_BEFORE_MONTH m + (if (2 <? m) && is_leap y then 1 else 0).

Definition ymd2ord (y m d : Z) : Z :=
  days_before_year y + days_before_month y m + d.

Definition DI400Y : Z := 146097.
Definition DI100Y : Z := 36524.
Definition DI4Y : Z := 1461.

(** The month and the day of the day number [n] (from 0) of the year
    [y]: the second half of [_ord2ymd]. *)
Definition month_day (y : Z) (leapyear : bool) (n : Z) : date :=
  let m := Z.shiftr (n + 50) 5 in
  let preceding := DAYS_BEFORE_MONTH m + (if (2 <? m) && leapyear then 1 else 0) in
  if n <? preceding
  then let m := m - 1 in
       let preceding :=
         preceding - (DAYS_IN_MONTH m + (if (m =? 2) && leapyear then 1 else 0)) in
       Date y m (n - preceding + 1)
  else Date y m (n - preceding + 1).

Definition ord2ymd (n : Z) : date :=
  let n := n - 1 in
  let n400 := n / DI400Y in
  let n := n mod DI400Y in
  let y := n400 * 400 + 1 in
  let n100 := n / DI100Y in
  let n := n mod DI100Y in
  let n4 := n / DI4Y in
  let n := n mod DI4Y in
  let n1 := n / 365 in
  let n := n mod 365 in
  let y := y + n100 * 100 + n4 * 4 + n1 in
  if (n1 =? 4) || (n100 =? 4) then Date (y - 1) 12 31
  else
    let leapyear := (n1 =? 3) && (negb (n4 =? 24) || (n100 =? 3)) in
    month_day y leapyear n.

Definition valid_date (d : date) : Prop :=
  1 <= year d <= 9999 /\ 1 <= month d <= 12 /\
  1 <= day d <= days_in_month (year d) (month d).

Definition toordinal (d : date) : Z := ymd2ord (year d) (month d) (day d).
Definition fromordinal (n : Z) : date := ord2ymd n.

(** Monday is 0, Sunday is 6. *)
Definition weekday (d : date) : Z := (toordinal d + 6) mod 7.

(** [d - timedelta(days=k)] *)
Definition sub_days (d : date) (k : Z) : result date :=
  let o := toordinal d - k in
  if (0 <? o) && (o <=? MAXORDINAL) then Ret (fromordinal o)
  else Raise OverflowError.

Definition digit (n : Z) : ascii := ascii_of_nat (48 + Z.to_nat (n mod 10)).

Definition digits2 (n : Z) (rest : string) : string :=
  String (digit (n / 10)) (String (digit n) rest).

Definition digits4 (n : Z) (rest : string) : string :=
  String (digit (n / 1000)) (String (digit (n / 100)) (digits2 n rest)).

(** A year in decimal, as [%Y] writes it: the C library pads nothing,
    so the years below 1000 have fewer than four digits. *)
Definition digits_year (n : Z) (rest : string) : string :=
  if n <? 10 then String (digit n) rest
  else if n <? 100 then digits2 n rest
  else if n <? 1000 then String (digit (n / 100)) (digits2 n rest)
  else digits4 n rest.

(** [d.strftime('%Y-%m-%d')]: month and day have two digits. *)
Definition strftime_Ymd (d : date) : string :=
  digits_year (year d)
    (String "-" (digits2 (month d) (String "-" (digits2 (day d) EmptyString)))).

End PyDate.
Export PyDate.

(** ** The process state and its monad *)

(** A stored alert: [{"price": ..., "pct_change": ..., "volume": ...}]. *)
Record gainer : Type := Gainer { price : num; pct_change : num; volume : num }.

(** What the process shows to the outside, in order: the lines it prints
    and the requests it sends. *)
Inductive output : Type :=
  | PrintFetching
  | HttpGet (url : string)
  | PrintFetchError (status : Z)
  | PrintFetched (n : nat)
  | WsConnect (url : string)
  | WsSend (msg : json)
  | PrintConnected
  | PrintAlert (ticker : json) (pct : num) (close_price : json) (vol : num)
  | PrintConnectionLost (e : exn)
  | PrintUnexpected (e : exn)
  | PrintShutdown.

(** The module's global state: the three dictionaries and the trace;
    and whether [sys.stdout] can encode the first character of the
    alert line, U+1F680: UTF-8 can, ASCII and Latin-1 cannot. *)
Record state : Type := State {
  yesterday_close : gmap pykey json;
  running_volume : gmap pykey num;
  gainers : gmap pykey gainer;
  trace : list output;
  stdout_unicode : bool
}.

(** The state at startup, on a terminal that writes UTF-8. *)
Definition init_state : state := State ∅ ∅ ∅ [] true.

(** A computation reads and writes the globals and returns or raises;
    the writes made before a raise stay. *)
Definition M (A : Type) : Type := state -> result A * state.

#[global] Instance M_ret : MRet M := fun A a s => (Ret a, s).

#[global] Instance M_bind : MBind M := fun A B k m s =>
  match m s with
  | (Ret a, s') => k a s'
  | (Raise e, s') => (Raise e, s')
  end.

Definition lift {A} (r : result A) : M A := fun s => (r, s).

Definition get_state : M state := fun s => (Ret s, s).

Definition emit (o : output) : M unit := fun s =>
  (Ret tt, State (yesterday_close s) (running_volume s) (gainers s) (trace s ++ [o])
             (stdout_unicode s)).

Definition set_yesterday_close (k : pykey) (v : json) : M unit := fun s =>
  (Ret tt, State (<[k := v]> (yesterday_close s)) (running_volume s) (gainers s) (trace s)
             (stdout_unicode s)).

Definition set_running_volume (k : pykey) (v : num) : M unit := fun s =>
  (Ret tt, State (yesterday_close s) (<[k := v]> (running_volume s)) (gainers s) (trace s)
             (stdout_unicode s)).

Definition set_gainers (k : pykey) (g : gainer) : M unit := fun s =>
  (Ret tt, State (yesterday_close s) (running_volume s) (<[k := g]> (gainers s)) (trace s)
             (stdout_unicode s)).

(** [try: m except Exception as e: h e] *)
Definition try_except {A} (m : M A) (h : exn -> M A) : M A := fun s =>
  match m s with
  | (Ret a, s') => (Ret a, s')
  | (Raise e, s') => h e s'
  end.

(** [for x in xs: body x] *)
Fixpoint for_each {A} (xs : list A) (body : A -> M unit) : M unit :=
  match xs with
  | [] => mret tt
  | x :: rest => body x ;; for_each rest body
  end.

(** A value used as a number in arithmetic. *)
Definition number (v : json) : result num :=
  match as_num v with
  | Some n => Ret n
  | None => Raise TypeError
  end.

(** *** Text of numbers *)

(** [str(z)] and [format(z, ",")] of an [int]: the conversion to decimal
    is refused above [sys.int_info.default_max_str_digits] digits. *)
Definition MAX_STR_DIGITS : Z := 4300.

Definition int_str (z : Z) : result unit :=
  if Z.abs z <? 10 ^ MAX_STR_DIGITS then Ret tt else Raise ValueError.

(** [f"{v}"] of a value that is a key or a number: the text of a
    string, of a [float], of a [bool] and of [None] always exists. *)
Definition format_value (v : json) : result unit :=
  match v with
  | JInt z => int_str z
  | _ => Ret tt
  end.

(** [f"{n:.2f}"]: an [int] is converted to a [float] first. *)
Definition format_fixed (n : num) : result unit :=
  rbind (to_float n) (fun _ => Ret tt).

(** [f"{n:,}"] *)
Definition format_grouped (n : num) : result unit :=
  match n with
  | PyInt z => int_str z
  | PyFloat _ => Ret tt
  end.

(** ** The program *)

Definition MIN_PCT_CHANGE : num := PyInt 5.
Definition MIN_VOLUME : num := PyInt 2000000.
Definition MIN_PRICE : num := PyInt 3.

(** [get_last_trading_day], on the date that [date.today()] returns. *)
Definition get_last_trading_day (today : date) : result string :=
  let offset :=
    if weekday today =? 6 then 2
    else if weekday today =? 0 then 3
    else 1 in
  rbind (sub_days today offset) (fun last_day =>
  Ret (strftime_Ymd last_day)).

(** [pct_change = ((close_price - prev_close) / prev_close) * 100] *)
Definition percent_change (close_price prev_close : num) : result num :=
  rbind (py_sub close_price prev_close) (fun d =>
  rbind (py_truediv d prev_close) (fun q =>
  py_mul q (PyInt 100))).

(** The condition of the alert. *)
Definition qualifies (pct vol close_price : num) : bool :=
  py_ge pct MIN_PCT_CHANGE && py_ge vol MIN_VOLUME && py_ge close_price MIN_PRICE.

(** The fields of the alert line, formatted from left to right. *)
Definition alert_text (ticker : json) (pct : num) (close_price : json) (rv : num)
    : result unit :=
  rbind (format_value ticker) (fun _ =>
  rbind (format_fixed pct) (fun _ =>
  rbind (format_value close_price) (fun _ =>
  format_grouped rv))).

(** [print(f"... ALERT: {ticker} is up {pct_change:.2f}% | Price:
    ${close_price} | Volume: {running_volume[ticker]:,}")]: the text is
    built, then written to [sys.stdout]. *)
Definition print_alert (ticker : json) (pct : num) (close_price : json) (rv : num)
    : M unit :=
  lift (alert_text ticker pct close_price rv);;
  s ← get_state;
  if stdout_unicode s then emit (PrintAlert ticker pct close_price rv)
  else lift (Raise UnicodeEncodeError).

(** The body of [if ticker in yesterday_close], where [k] is the key
    that [ticker] hashes to and [prev_close] is [yesterday_close[ticker]]. *)
Definition on_known_ticker (ticker close_price volume : json) (k : pykey)
    (prev_close : json) : M unit :=
  c ← lift (number close_price);
  p ← lift (number prev_close);
  pct ← lift (percent_change c p);
  s ← get_state;
  v ← lift (number volume);
  rv ← lift (py_add (default (PyInt 0) (running_volume s !! k)) v);
  set_running_volume k rv;;
  if qualifies pct rv c then
    set_gainers k (Gainer c pct rv);;
    print_alert ticker pct close_price rv
  else mret tt.

(** The body of [for event in data]. *)
Definition process_event (event : json) : M unit :=
  ev ← lift (py_get event "ev");
  if eq_str ev "AM" then
    ticker ← lift (py_getitem event "T");
    close_price ← lift (py_getitem event "c");
    volume ← lift (py_getitem event "v");
    k ← lift (key_of ticker);
    s ← get_state;
    match yesterday_close s !! k with
    | Some prev_close => on_known_ticker ticker close_price volume k prev_close
    | None => mret tt
    end
  else mret tt.

(** The body of [async for msg in ws]. *)
Definition process_message (msg : message) : M unit :=
  data ← lift (loads msg);
  events ← lift (py_iter data);
  for_each events process_event.

(** How the iteration over the connection ends. *)
Inductive closing : Type :=
  | ClosedOK
  | ClosedError.

(** [async for msg in ws: ...] over the messages received until the
    connection ends. *)
Fixpoint receive (frames : list message) (fin : closing) : M unit :=
  match frames with
  | [] =>
      match fin with
      | ClosedOK => mret tt
      | ClosedError => lift (Raise ConnectionClosedError)
      end
  | msg :: rest => process_message msg ;; receive rest fin
  end.

(** Everything the process reads from outside. *)
Record http_response : Type := Response { status : Z; body : message }.

Record world : Type := World {
  today : date;
  http : result http_response;
  ws_connect : result unit;
  ws_frames : list message;
  ws_closing : closing
}.

Section Program.

(** [from config import POLYGON_WS_URL, POLYGON_API_KEY] *)
Variables POLYGON_WS_URL POLYGON_API_KEY : string.

Definition API_KEY : string := POLYGON_API_KEY.
Definition WS_URL : string := POLYGON_WS_URL.

(** The body of [for stock in data.get("results", [])]:
    [yesterday_close[stock["T"]] = stock["c"]], the right-hand side
    evaluated first. *)
Definition absorb (stock : json) : M unit :=
  c ← lift (py_getitem stock "c");
  t ← lift (py_getitem stock "T");
  k ← lift (key_of t);
  set_yesterday_close k c.

Definition fetch_yesterday_closes (w : world) : M unit :=
  emit PrintFetching;;
  day ← lift (get_last_trading_day (today w));
  let url := ("https://api.polygon.io/v2/aggs/grouped/locale/us/market/stocks/"
                ++ day ++ "?apiKey=" ++ API_KEY)%string in
  emit (HttpGet url);;
  response ← lift (http w);
  if negb (status response =? 200) then
    emit (PrintFetchError (status response))
  else
    data ← lift (loads (body response));
    results ← lift (py_get data "results");
    stocks ← lift (py_iter (default (JArr []) results));
    for_each stocks absorb;;
    s ← get_state;
    emit (PrintFetched (size (yesterday_close s))).

Definition auth_message : json :=
  JObj [("action", JStr "auth"); ("params", JStr API_KEY)]%string.

Definition subscribe_message : json :=
  JObj [("action", JStr "subscribe"); ("params", JStr "AM.*")]%string.

Definition stream (w : world) : M unit :=
  emit (WsConnect WS_URL);;
  lift (ws_connect w);;
  emit (WsSend auth_message);;
  emit (WsSend subscribe_message);;
  emit PrintConnected;;
  try_except (receive (ws_frames w) (ws_closing w))
    (fun e => if is_connection_closed_error e
              then emit (PrintConnectionLost e)
              else emit (PrintUnexpected e)).

Definition main (w : world) : M unit :=
  fetch_yesterday_closes w;;
  s ← get_state;
  if bool_decide (yesterday_close s = ∅) then emit PrintShutdown
  else stream w.

End Program.

(** ** Vocabulary of the statements *)

(** A minute-aggregate event with the three fields that the loop reads. *)
Definition bar (ticker close_price volume : json) : json :=
  JObj [("ev", JStr "AM"); ("T", ticker); ("c", close_price); ("v", volume)].

(** [event] is a minute aggregate carrying these three fields, whatever
    else it carries. *)
Definition is_bar (event ticker close_price volume : json) : Prop :=
  py_get event "ev" = Ret (Some (JStr "AM")) /\
  py_getitem event "T" = Ret ticker /\
  py_getitem event "c" = Ret close_price /\
  py_getitem event "v" = Ret volume.

(** The state after [running_volume[ticker] = V]. *)
Definition record_volume (k : pykey) (V : num) (s : state) : state :=
  State (yesterday_close s) (<[k := V]> (running_volume s)) (gainers s) (trace s)
        (stdout_unicode s).

(** The state after the volume is stored and the alert is written to
    [gainers], before its line is printed. *)
Definition record_gainer (k : pykey) (c pct V : num) (s : state) : state :=
  State (yesterday_close s) (<[k := V]> (running_volume s))
        (<[k := Gainer c pct V]> (gainers s)) (trace s) (stdout_unicode s).

(** The state after the volume is stored, the alert is written to
    [gainers] and its line is printed. *)
Definition record_alert (k : pykey) (ticker close_price : json) (c pct V : num)
    (s : state) : state :=
  State (yesterday_close s) (<[k := V]> (running_volume s))
        (<[k := Gainer c pct V]> (gainers s))
        (trace s ++ [PrintAlert ticker pct close_price V]) (stdout_unicode s).

(** Whether the alert line can be built and written in the state [s],
    and the exception if not: [ValueError] for an [int] with too many
    digits, [UnicodeEncodeError] from a [sys.stdout] that cannot encode
    the line. *)
Definition alert_line (ticker : json) (pct : num) (close_price : json) (V : num)
    (s : state) : result unit :=
  rbind (alert_text ticker pct close_price V) (fun _ =>
  if stdout_unicode s then Ret tt else Raise UnicodeEncodeError).

(** What a bar of a known ticker does once its numbers are computed:
    it stores the volume; when it qualifies it writes the record, and
    then prints the line or raises out of the print. *)
Definition bar_result (k : pykey) (ticker close_price : json) (c pct V : num)
    (s : state) : result unit * state :=
  if qualifies pct V c then
    match alert_line ticker pct close_price V s with
    | Ret _ => (Ret tt, record_alert k ticker close_price c pct V s)
    | Raise e => (Raise e, record_gainer k c pct V s)
    end
  else (Ret tt, record_volume k V s).

(** What one event can do to the state. *)
Inductive step (s : state) : state -> Prop :=
  | step_skip : step s s
  | step_volume k V :
      is_Some (yesterday_close s !! k) ->
      step s (record_volume k V s)
  | step_alert k ticker close_price c pct V :
      key_of ticker = Ret k ->
      is_Some (yesterday_close s !! k) ->
      qualifies pct V c = true ->
      step s (record_alert k ticker close_price c pct V s)
  | step_gainer k c pct V :
      is_Some (yesterday_close s !! k) ->
      qualifies pct V c = true ->
      step s (record_gainer k c pct V s).

(** Any number of events. *)
Inductive steps (s : state) : state -> Prop :=
  | steps_nil : steps s s
  | steps_cons s1 s2 : step s s1 -> steps s1 s2 -> steps s s2.

(** The volumes, in order, of the events of [events] that are minute
    aggregates for the key [k]. *)
Definition volume_for (k : pykey) (event : json) : option json :=
  match py_get event "ev" with
  | Ret ev =>
      if eq_str ev "AM" then
        match py_getitem event "T", py_getitem event "v" with
        | Ret ticker, Ret v =>
            match key_of ticker with
            | Ret k' => if bool_decide (k' = k) then Some v else None
            | Raise _ => None
            end
        | _, _ => None
        end
      else None
  | Raise _ => None
  end.

Definition volumes_for (k : pykey) (events : list json) : list json :=
  omap (volume_for k) events.

(** [acc + v1 + ... + vn], added from the left as the loop does. *)
Fixpoint py_sum (acc : num) (vs : list json) : result num :=
  match vs with
  | [] => Ret acc
  | v :: rest =>
      rbind (number v) (fun n =>
      rbind (py_add acc n) (fun acc' => py_sum acc' rest))
  end.

(** Every stored alert met the three thresholds when it was written, and
    its ticker has a reference price and a running volume. *)
Definition gainers_ok (s : state) : Prop :=
  forall k g, gainers s !! k = Some g ->
    py_ge (pct_change g) (PyInt 5) = true /\
    py_ge (volume g) (PyInt 2000000) = true /\
    py_ge (price g) (PyInt 3) = true /\
    is_Some (yesterday_close s !! k) /\
    is_Some (running_volume s !! k).

(** The alerts printed for the key [k]. *)
Definition is_alert_for (k : pykey) (o : output) : bool :=
  match o with
  | PrintAlert ticker _ _ _ =>
      match key_of ticker with
      | Ret k' => bool_decide (k' = k)
      | Raise _ => false
      end
  | _ => false
  end.

Definition alerts_for (k : pykey) (tr : list output) : list output :=
  List.filter (is_alert_for k) tr.

(** The trace shows no use of the stream. *)
Definition is_stream_output (o : output) : bool :=
  match o with
  | WsConnect _ | WsSend _ | PrintConnected | PrintAlert _ _ _ _
  | PrintConnectionLost _ | PrintUnexpected _ => true
  | _ => false
  end.

(** *** States after one write *)

(** The state after the outputs [outs]. *)
Definition say (outs : list output) (s : state) : state :=
  State (yesterday_close s) (running_volume s) (gainers s) (trace s ++ outs)
        (stdout_unicode s).

(** One reference price stored. *)
Definition record_close (k : pykey) (c : json) (s : state) : state :=
  State (<[k := c]> (yesterday_close s)) (running_volume s) (gainers s) (trace s)
        (stdout_unicode s).

(** *** The trace of a run *)

(** What [stream] has sent and printed when the loop starts. *)
Definition handshake (POLYGON_WS_URL POLYGON_API_KEY : string) : list output :=
  [WsConnect (WS_URL POLYGON_WS_URL);
   WsSend (auth_message POLYGON_API_KEY);
   WsSend subscribe_message;
   PrintConnected].

(** The line that the handlers around the loop print for [e]. *)
Definition handler_line (e : exn) : output :=
  if is_connection_closed_error e then PrintConnectionLost e else PrintUnexpected e.

(** The request that [fetch_yesterday_closes] sends for the day [day]. *)
Definition request_url (POLYGON_API_KEY day : string) : string :=
  ("https://api.polygon.io/v2/aggs/grouped/locale/us/market/stocks/"
     ++ day ++ "?apiKey=" ++ API_KEY POLYGON_API_KEY)%string.

(** *** Exceptions *)

(** No operation of the loop body raises [ConnectionClosedError]: that
    comes from the connection only. *)
Definition raises_no_connection_error {A} (r : result A) : Prop :=
  match r with
  | Ret _ => True
  | Raise e => is_connection_closed_error e = false
  end.

(** An event that is a minute aggregate but lacks one of the fields the
    loop reads. *)
Definition lacks_field (event : json) : Prop :=
  exists kvs, event = JObj kvs /\
    eq_str (obj_lookup "ev" kvs) "AM" = true /\
    (obj_lookup "T" kvs = None \/ obj_lookup "c" kvs = None \/ obj_lookup "v" kvs = None).

(** A message that fails to parse, or one of whose events lacks a field. *)
Definition malformed (msg : message) : Prop :=
  (exists raw, msg = Malformed raw) \/
  (exists events, msg = WellFormed (JArr events) /\ Exists lacks_field events).

(** The exception of a bar whose reference price [p] is zero: the
    division by [p] raises, unless the subtraction before it has: on a
    close that is not a number, or on an [int] too large for the
    [float] that a [float] zero makes of it. *)
Definition zero_reference_fault (close_price : json) (p : num) : exn :=
  match as_num close_price with
  | None => TypeError
  | Some c =>
      match c, p with
      | PyInt _, PyInt _ => ZeroDivisionError
      | _, _ => if raised (to_float c) then OverflowError else ZeroDivisionError
      end
  end.

(** *** Signs of doubles *)

(** [f] has the sign [s] (true: negative), or is NaN. *)
Definition sign_or_nan (s : bool) (f : spec_float) : Prop :=
  match f with
  | S754_nan => True
  | S754_zero s' | S754_infinity s' | S754_finite s' _ _ => s' = s
  end.

(** *** The alert store *)

(** The records that [gainers] holds under the key [k]. *)
Definition records_for (k : pykey) (m : gmap pykey gainer) : list (pykey * gainer) :=
  filter (fun kv => kv.1 = k) (map_to_list m).

(** [event], arriving in the state [s], is a bar of the ticker [k] that
    meets the three thresholds; [rec] is the record it writes. *)
Definition qualifying (s : state) (event : json) (k : pykey) (rec : gainer) : Prop :=
  exists ticker close_price vol prev_close p v,
    is_bar event ticker close_price vol /\
    key_of ticker = Ret k /\
    yesterday_close s !! k = Some prev_close /\
    number close_price = Ret (price rec) /\
    number prev_close = Ret p /\
    number vol = Ret v /\
    percent_change (price rec) p = Ret (pct_change rec) /\
    py_add (default (PyInt 0) (running_volume s !! k)) v = Ret (volume rec) /\
    py_ge (pct_change rec) (PyInt 5) = true /\
    py_ge (volume rec) (PyInt 2000000) = true /\
    py_ge (price rec) (PyInt 3) = true.

(** *** Dates *)

(** The month and day of a day number, checked over the whole year. *)
Definition month_day_ok (leap : bool) (i : nat) : bool :=
  let d := month_day 0 leap (Z.of_nat i) in
  (1 <=? month d) && (month d <=? 12) && (1 <=? day d) &&
  (day d <=? days_in_month (if leap then 4 else 1) (month d)) &&
  (days_before_month (if leap then 4 else 1) (month d) + day d =? Z.of_nat i + 1).

Definition digit_value (c : ascii) : option Z :=
  let n := Z.of_nat (nat_of_ascii c) in
  if (48 <=? n) && (n <=? 57) then Some (n - 48) else None.

(** Read [k] decimal digits. *)
Fixpoint read_digits (k : nat) (acc : Z) (s : string) : option (Z * string) :=
  match k, s with
  | O, _ => Some (acc, s)
  | S k', String c rest =>
      match digit_value c with
      | Some v => read_digits k' (acc * 10 + v) rest
      | None => None
      end
  | S _, EmptyString => None
  end.

(** The date that a string of the form YYYY-MM-DD denotes. *)
Definition parse_Ymd (s : string) : option date :=
  match read_digits 4 0 s with
  | Some (y, String "-" s1) =>
      match read_digits 2 0 s1 with
      | Some (m, String "-" s2) =>
          match read_digits 2 0 s2 with
          | Some (d, EmptyString) => Some (Date y m d)
          | _ => None
          end
      | _ => None
      end
  | _ => None
  end.

(** *** The states and worlds of the scenarios *)

(** The state of the first scenario before any bar. *)
Definition opening_state : state :=
  State {[ KStr "AAPL" := JInt 100; KStr "XYZ" := JInt 2 ]} ∅ ∅ [] true.

(** The state of the first end-to-end scenario after its first bar:
    AAPL closed at 100 yesterday and has traded 1,500,000 so far. *)
Definition aapl_state : state :=
  State {[ KStr "AAPL" := JInt 100 ]} {[ KStr "AAPL" := PyInt 1500000 ]} ∅ [] true.

(** The same state on an output that writes ASCII. *)
Definition ascii_aapl_state : state :=
  State {[ KStr "AAPL" := JInt 100 ]} {[ KStr "AAPL" := PyInt 1500000 ]} ∅ [] false.

(** The state in which "X" closed at 0 yesterday. *)
Definition zero_reference_state : state :=
  State {[ KStr "X" := JInt 0 ]} ∅ ∅ [] true.

(** The state in which "X" closed at -1 yesterday. *)
Definition negative_reference_state : state :=
  State {[ KStr "X" := JInt (-1) ]} ∅ ∅ [] true.

Definition good_message : message :=
  WellFormed (JArr [bar (JStr "AAPL") (JInt 107) (JInt 600000)]).

Definition truncated_message : message :=
  WellFormed (JArr [JObj [("ev", JStr "AM"); ("T", JStr "AAPL"); ("c", JInt 107)]]).

(** The world of the scenarios: the reference prices are what the state
    already holds, and the stream delivers [frames] and closes. *)
Definition world_of (frames : list message) : world :=
  World (Date 2026 11 4) (Raise ClientError) (Ret tt) frames ClosedOK.

(** The world of the first end-to-end scenario: AAPL closed at 100, and
    two bars arrive, 106 with 1,500,000 shares and 107 with 600,000. *)
Definition scenario_world : world :=
  World (Date 2026 11 4)
    (Ret (Response 200 (WellFormed
       (JObj [("results", JArr [JObj [("T", JStr "AAPL"); ("c", JInt 100)];
                                JObj [("T", JStr "XYZ"); ("c", JInt 2)]])]))))
    (Ret tt)
    [WellFormed (JArr [bar (JStr "AAPL") (JInt 106) (JInt 1500000);
                       bar (JStr "XYZ") (JFloat (dec 25 1)) (JInt 5000000)]);
     WellFormed (JArr [bar (JStr "NEW") (JInt 900) (JInt 9000000);
                       bar (JStr "AAPL") (JInt 107) (JInt 600000)])]
    ClosedOK.

(** A reply with status 500 at startup. *)
Definition failing_world : world :=
  World (Date 2026 11 4) (Ret (Response 500 (Malformed "Internal Server Error")))
    (Ret tt) [good_message] ClosedOK.

(** *** Events that are not bars *)

(** [isinstance(v, dict)] *)
Definition is_dict (v : json) : bool :=
  match v with JObj _ => true | _ => false end.

(** An event that the loop passes over: a [dict] whose "ev" is not "AM". *)
Definition ignored (event : json) : Prop :=
  exists kvs, event = JObj kvs /\ eq_str (obj_lookup "ev" kvs) "AM" = false.

(** *** The population phase *)

(** The entry that [yesterday_close[stock["T"]] = stock["c"]] stores,
    when both fields are there and the symbol can be a key. *)
Definition stock_entry (stock : json) : option (pykey * json) :=
  match py_getitem stock "c", py_getitem stock "T" with
  | Ret c, Ret t =>
      match key_of t with
      | Ret k => Some (k, c)
      | Raise _ => None
      end
  | _, _ => None
  end.

(** The dictionary after the entries are stored in order. *)
Definition store_all (entries : list (pykey * json)) (m : gmap pykey json)
    : gmap pykey json :=
  foldl (fun m kc => <[kc.1 := kc.2]> m) m entries.

(** A reply with status 200 and a body that parses to [data]. *)
Definition ok_world (today : date) (data : json) (frames : list message) : world :=
  World today (Ret (Response 200 (WellFormed data))) (Ret tt) frames ClosedOK.

(** The state with [yesterday_close] replaced. *)
Definition with_closes (m : gmap pykey json) (s : state) : state :=
  State m (running_volume s) (gainers s) (trace s) (stdout_unicode s).

(** *** Printed alerts *)

(** [o] is the line of an alert. *)
Definition is_alert (o : output) : bool :=
  match o with PrintAlert _ _ _ _ => true | _ => false end.

(** The record that the alert [o] announces. *)
Definition alert_record (o : output) : option gainer :=
  match o with
  | PrintAlert _ pct close_price vol =>
      match as_num close_price with
      | Some c => Some (Gainer c pct vol)
      | None => None
      end
  | _ => None
  end.

(** [gainers] holds, for every ticker, what the last alert printed for
    it announced, and nothing for a ticker without an alert. *)
Definition mirrors (s : state) : Prop :=
  forall k, gainers s !! k = last (alerts_for k (trace s)) ≫= alert_record.

(** The line that the handler of the loop prints after an alert line
    could not be built or written. *)
Definition print_failed (o : output) : bool :=
  match o with
  | PrintUnexpected ValueError | PrintUnexpected UnicodeEncodeError => true
  | _ => false
  end.

(** The printed alert [o] names values that meet the three thresholds. *)
Definition alert_ok (o : output) : bool :=
  match o with
  | PrintAlert _ pct close_price vol =>
      py_ge pct (PyInt 5) && py_ge vol (PyInt 2000000) &&
      match as_num close_price with
      | Some c => py_ge c (PyInt 3)
      | None => false
      end
  | _ => true
  end.

(** *** Worlds for the stream *)

(** A world in which the reference prices are already in the state and
    the stream delivers [frames] and ends as [fin] says. *)
Definition stream_world (frames : list message) (fin : closing) : world :=
  World (Date 2026 11 4) (Raise ClientError) (Ret tt) frames fin.

(** A world in which the connection cannot be opened. *)
Definition unreachable_world (data : json) : world :=
  World (Date 2026 11 4) (Ret (Response 200 (WellFormed data))) (Raise ClientError)
    [good_message] ClosedOK.

(** *** What a bar writes *)

(** What a returning bar of the ticker [k] writes: the volume, and the
    alert when it qualifies. *)
Definition bar_update (k : pykey) (ticker close_price : json) (c pct V : num)
    (s : state) : state :=
  if qualifies pct V c
  then record_alert k ticker close_price c pct V s
  else record_volume k V s.

(** *** Prices that do not rise *)

(** [f] is not above zero: a zero, a negative number or a NaN. *)
Definition not_positive (f : spec_float) : Prop :=
  match f with
  | S754_nan | S754_zero _ => True
  | S754_infinity s | S754_finite s _ _ => s = true
  end.

(** The number [a] keeps its value when an operator converts it to a
    [float]: an [int] does when the nearest double is the integer itself. *)
Definition exact_as_float (a : num) : Prop :=
  match a with
  | PyInt z => x_compare (float_val (round_Z z)) (XDy z 0) = Some Eq
  | PyFloat _ => True
  end.

(** [close_price - prev_close] rounds no operand before it subtracts:
    two [int]s are subtracted as integers; otherwise an [int] operand is
    converted, and has to be exact as a [float]. *)
Definition subtracts_exactly (c p : num) : Prop :=
  match c, p with
  | PyInt _, PyInt _ => True
  | _, _ => exact_as_float c /\ exact_as_float p
  end.

(** AAPL closed at 100 yesterday; a bar at 99.5 with 9,000,000 shares. *)
Definition falling_bar : json :=
  bar (JStr "AAPL") (JFloat (dec 995 1)) (JInt 9000000).

(** ** Running computations *)

Lemma run_bind {A B} (m : M A) (k : A -> M B) (s : state) :
  (m ≫= k) s =
  match m s with
  | (Ret a, s') => k a s'
  | (Raise e, s') => (Raise e, s')
  end.
Proof. reflexivity. Qed.

Lemma run_lift_ret {A B} (a : A) (k : A -> M B) (s : state) :
  (lift (Ret a) ≫= k) s = k a s.
Proof. reflexivity. Qed.

Lemma run_lift_raise {A B} (e : exn) (k : A -> M B) (s : state) :
  (lift (Raise e) ≫= k) s = (Raise e, s).
Proof. reflexivity. Qed.

Lemma record_alert_say k ticker close_price c pct V s :
  record_alert k ticker close_price c pct V s =
  say [PrintAlert ticker pct close_price V] (record_gainer k c pct V s).
Proof. reflexivity. Qed.

(** The print of the alert line: the line is appended, or the state is
    left as it is and the exception of [alert_line] is raised. *)
Lemma print_alert_run ticker pct close_price V s :
  print_alert ticker pct close_price V s =
  match alert_line ticker pct close_price V s with
  | Ret _ => (Ret tt, say [PrintAlert ticker pct close_price V] s)
  | Raise e => (Raise e, s)
  end.
Proof.
  unfold print_alert, alert_line.
  destruct (alert_text ticker pct close_price V) as [[]|e];
    [rewrite run_lift_ret | by rewrite run_lift_raise].
  cbn [rbind]. rewrite run_bind. cbn [get_state]. by destruct (stdout_unicode s).
Qed.

(** The three ways of [bar_result]. *)
Lemma bar_result_cases k ticker close_price c pct V s r s' :
  bar_result k ticker close_price c pct V s = (r, s') ->
  (qualifies pct V c = false /\ r = Ret tt /\ s' = record_volume k V s) \/
  (qualifies pct V c = true /\ alert_line ticker pct close_price V s = Ret tt /\
   r = Ret tt /\ s' = record_alert k ticker close_price c pct V s) \/
  (qualifies pct V c = true /\
   exists e, alert_line ticker pct close_price V s = Raise e /\
     r = Raise e /\ s' = record_gainer k c pct V s).
Proof.
  unfold bar_result. destruct (qualifies pct V c); [|intros [= <- <-]; by left].
  destruct (alert_line ticker pct close_price V s) as [[]|e]; intros [= <- <-].
  - right; left. done.
  - right; right. split; [done|]. by exists e.
Qed.

(** The known-ticker branch, when every operation before the alert
    returns. *)
Lemma on_known_ticker_returns s ticker close_price volume k prev_close c p pct v V :
  number close_price = Ret c ->
  number prev_close = Ret p ->
  percent_change c p = Ret pct ->
  number volume = Ret v ->
  py_add (default (PyInt 0) (running_volume s !! k)) v = Ret V ->
  on_known_ticker ticker close_price volume k prev_close s =
    bar_result k ticker close_price c pct V s.
Proof.
  intros Hc Hp Hpct Hv HV. unfold on_known_ticker, bar_result.
  rewrite Hc, run_lift_ret, Hp, run_lift_ret, Hpct, run_lift_ret.
  rewrite run_bind. cbn [get_state].
  rewrite Hv, run_lift_ret, HV, run_lift_ret.
  rewrite run_bind. cbn [set_running_volume].
  destruct (qualifies pct V c); [|reflexivity].
  rewrite run_bind. cbn [set_gainers]. rewrite print_alert_run.
  unfold alert_line. cbn [stdout_unicode].
  by destruct (rbind _ _) as [[]|e].
Qed.

(** The known-ticker branch in general: it changes nothing and raises,
    or stores the volume, or stores the volume and the alert, with or
    without the printed line. *)
Lemma on_known_ticker_step s ticker close_price volume k prev_close r s' :
  key_of ticker = Ret k ->
  is_Some (yesterday_close s !! k) ->
  on_known_ticker ticker close_price volume k prev_close s = (r, s') ->
  step s s'.
Proof.
  intros Hkey Hk. unfold on_known_ticker.
  destruct (number close_price) as [c|e]; [rewrite run_lift_ret | rewrite run_lift_raise; intros [= <- <-]; constructor ].
  destruct (number prev_close) as [p|e]; [rewrite run_lift_ret | rewrite run_lift_raise; intros [= <- <-]; constructor ].
  destruct (percent_change c p) as [pct|e]; [rewrite run_lift_ret | rewrite run_lift_raise; intros [= <- <-]; constructor ].
  rewrite run_bind. cbn [get_state].
  destruct (number volume) as [v|e]; [rewrite run_lift_ret | rewrite run_lift_raise; intros [= <- <-]; constructor ].
  destruct (py_add _ v) as [V|e]; [rewrite run_lift_ret | rewrite run_lift_raise; intros [= <- <-]; constructor ].
  rewrite run_bind. cbn [set_running_volume].
  destruct (qualifies pct V c) eqn:Hq; [|intros [= <- <-]; by apply (step_volume s k V)].
  rewrite run_bind. cbn [set_gainers]. rewrite print_alert_run.
  destruct (alert_line _ _ _ _ _) as [[]|e]; intros [= <- <-].
  - by apply (step_alert s k ticker close_price c pct V).
  - by apply (step_gainer s k c pct V).
Qed.

Lemma process_event_bar s event ticker close_price volume k :
  is_bar event ticker close_price volume ->
  key_of ticker = Ret k ->
  process_event event s =
    match yesterday_close s !! k with
    | Some prev_close => on_known_ticker ticker close_price volume k prev_close s
    | None => (Ret tt, s)
    end.
Proof.
  intros (Hev & HT & Hc & Hv) Hk. unfold process_event.
  rewrite Hev, run_lift_ret. cbn [eq_str String.eqb Ascii.eqb Bool.eqb].
  rewrite HT, run_lift_ret, Hc, run_lift_ret, Hv, run_lift_ret, Hk, run_lift_ret.
  rewrite run_bind. cbn [get_state].
  destruct (yesterday_close s !! k); reflexivity.
Qed.

Lemma process_event_step event s r s' :
  process_event event s = (r, s') -> step s s'.
Proof.
  unfold process_event.
  destruct (py_get event "ev") as [ev|e]; [rewrite run_lift_ret | rewrite run_lift_raise; intros [= <- <-]; constructor ].
  destruct (eq_str ev "AM"); [| intros [= <- <-]; constructor ].
  destruct (py_getitem event "T") as [ticker|e]; [rewrite run_lift_ret | rewrite run_lift_raise; intros [= <- <-]; constructor ].
  destruct (py_getitem event "c") as [close_price|e]; [rewrite run_lift_ret | rewrite run_lift_raise; intros [= <- <-]; constructor ].
  destruct (py_getitem event "v") as [volume|e]; [rewrite run_lift_ret | rewrite run_lift_raise; intros [= <- <-]; constructor ].
  destruct (key_of ticker) as [k|e] eqn:Hkey; [rewrite run_lift_ret | rewrite run_lift_raise; intros [= <- <-]; constructor ].
  rewrite run_bind. cbn [get_state].
  destruct (yesterday_close s !! k) as [prev_close|] eqn:Hk.
  - apply on_known_ticker_step; [done | by rewrite Hk].
  - intros [= <- <-]. constructor.
Qed.

Lemma is_bar_bar ticker close_price volume :
  is_bar (bar ticker close_price volume) ticker close_price volume.
Proof. repeat split. Qed.

Lemma steps_one s s' : step s s' -> steps s s'.
Proof. intros H. eapply steps_cons; [exact H | constructor]. Qed.

Lemma steps_trans s1 s2 s3 : steps s1 s2 -> steps s2 s3 -> steps s1 s3.
Proof.
  induction 1 as [|s s1 s2 Hstep _ IH]; [done|].
  intros H3. eapply steps_cons; [exact Hstep | by apply IH].
Qed.

Lemma for_each_cons {A} (x : A) xs body s :
  for_each (x :: xs) body s =
  match body x s with
  | (Ret _, s') => for_each xs body s'
  | (Raise e, s') => (Raise e, s')
  end.
Proof. reflexivity. Qed.

Lemma for_each_app {A} (xs ys : list A) body s :
  for_each (xs ++ ys) body s =
  match for_each xs body s with
  | (Ret _, s') => for_each ys body s'
  | (Raise e, s') => (Raise e, s')
  end.
Proof.
  revert s. induction xs as [|x xs IH]; intros s; [done|].
  rewrite <- app_comm_cons, !for_each_cons.
  destruct (body x s) as [[[]|e] s1]; [apply IH | done].
Qed.

Lemma for_each_steps events s r s' :
  for_each events process_event s = (r, s') -> steps s s'.
Proof.
  revert s. induction events as [|event events IH]; intros s.
  - intros [= <- <-]. constructor.
  - rewrite for_each_cons.
    destruct (process_event event s) as [[[]|e] s1] eqn:Hev.
    + intros Hrest. eapply steps_cons; [by eapply process_event_step | by eapply IH].
    + intros [= <- <-]. apply steps_one. by eapply process_event_step.
Qed.

Lemma process_message_steps msg s r s' :
  process_message msg s = (r, s') -> steps s s'.
Proof.
  unfold process_message.
  destruct (loads msg) as [data|e]; [rewrite run_lift_ret | rewrite run_lift_raise; intros [= <- <-]; constructor ].
  destruct (py_iter data) as [events|e]; [rewrite run_lift_ret | rewrite run_lift_raise; intros [= <- <-]; constructor ].
  apply for_each_steps.
Qed.

Lemma receive_cons msg frames fin s :
  receive (msg :: frames) fin s =
  match process_message msg s with
  | (Ret _, s') => receive frames fin s'
  | (Raise e, s') => (Raise e, s')
  end.
Proof. reflexivity. Qed.

Lemma receive_steps frames fin s r s' :
  receive frames fin s = (r, s') -> steps s s'.
Proof.
  revert s. induction frames as [|msg frames IH]; intros s.
  - destruct fin; intros [= <- <-]; constructor.
  - rewrite receive_cons.
    destruct (process_message msg s) as [[[]|e] s1] eqn:Hmsg.
    + intros Hrest. eapply steps_trans; [by eapply process_message_steps | by eapply IH].
    + intros [= <- <-]. by eapply process_message_steps.
Qed.

(** *** What a step keeps *)

Section Frame.

Context {A : Type} (f : state -> A).
Hypothesis f_step : forall s s', step s s' -> f s' = f s.

Lemma steps_frame s s' : steps s s' -> f s' = f s.
Proof using f_step.
  induction 1 as [|s s1 s2 Hstep _ IH]; [done|].
  rewrite IH. by apply f_step.
Qed.

End Frame.

Section Invariant.

Variable P : state -> Prop.
Hypothesis P_step : forall s s', P s -> step s s' -> P s'.

Lemma steps_invariant s s' : P s -> steps s s' -> P s'.
Proof using P_step.
  intros HP Hsteps. induction Hsteps as [|s s1 s2 Hstep _ IH]; [done|].
  apply IH. by eapply P_step.
Qed.

End Invariant.

Lemma step_yesterday_close s s' :
  step s s' -> yesterday_close s' = yesterday_close s.
Proof. by destruct 1. Qed.

Lemma alerts_for_app k tr1 tr2 :
  alerts_for k (tr1 ++ tr2) = alerts_for k tr1 ++ alerts_for k tr2.
Proof. apply List.filter_app. Qed.

Lemma step_absent_ticker k s s' :
  yesterday_close s !! k = None ->
  step s s' ->
  yesterday_close s' !! k = None /\
  running_volume s' !! k = running_volume s !! k /\
  gainers s' !! k = gainers s !! k /\
  alerts_for k (trace s') = alerts_for k (trace s).
Proof.
  intros Hk [|k' V [x Hk']|k' ticker close_price c pct V Hkey [x Hk'] _
              |k' c pct V [x Hk'] _]; [done| | |];
    unfold record_volume, record_alert, record_gainer;
    cbn [yesterday_close running_volume gainers trace];
    (split; [done|]); assert (k' <> k) as Hne by congruence.
  - split; [|done]. by apply lookup_insert_ne.
  - split; [by apply lookup_insert_ne|]. split; [by apply lookup_insert_ne|].
    rewrite alerts_for_app. cbn. rewrite Hkey, bool_decide_eq_false_2 by done.
    apply app_nil_r.
  - split; [by apply lookup_insert_ne|]. split; [by apply lookup_insert_ne|done].
Qed.


Lemma steps_absent_ticker k s s' :
  yesterday_close s !! k = None ->
  steps s s' ->
  running_volume s' !! k = running_volume s !! k /\
  gainers s' !! k = gainers s !! k /\
  alerts_for k (trace s') = alerts_for k (trace s).
Proof.
  intros Hk Hsteps. induction Hsteps as [|s s1 s2 Hstep _ IH]; [done|].
  destruct (step_absent_ticker k s s1 Hk Hstep) as (Hk1 & Hrv & Hg & Ha).
  destruct (IH Hk1) as (-> & -> & ->). done.
Qed.

(** *** The stream, unfolded *)

Section Runs.

Variables POLYGON_WS_URL POLYGON_API_KEY : string.

Local Abbreviation stream := (stream POLYGON_WS_URL POLYGON_API_KEY).
Local Abbreviation main := (main POLYGON_WS_URL POLYGON_API_KEY).
Local Abbreviation fetch_yesterday_closes := (fetch_yesterday_closes POLYGON_API_KEY).
Local Abbreviation handshake := (handshake POLYGON_WS_URL POLYGON_API_KEY).
Local Abbreviation request_url := (request_url POLYGON_API_KEY).

Lemma say_app outs1 outs2 s : say outs2 (say outs1 s) = say (outs1 ++ outs2) s.
Proof. unfold say. cbn. by rewrite app_assoc. Qed.

Lemma run_emit {B} (o : output) (k : unit -> M B) (s : state) :
  (emit o ≫= k) s = k tt (say [o] s).
Proof. reflexivity. Qed.

Lemma stream_run w s :
  stream w s =
  match ws_connect w with
  | Raise e => (Raise e, say [WsConnect (WS_URL POLYGON_WS_URL)] s)
  | Ret _ =>
      match receive (ws_frames w) (ws_closing w) (say handshake s) with
      | (Ret _, s') => (Ret tt, s')
      | (Raise e, s') => (Ret tt, say [handler_line e] s')
      end
  end.
Proof.
  unfold stream. rewrite run_emit.
  destruct (ws_connect w) as [[]|e]; [rewrite run_lift_ret | by rewrite run_lift_raise].
  rewrite !run_emit, !say_app. cbn [app]. fold handshake.
  unfold try_except.
  destruct (receive _ _ _) as [[[]|e] s']; [done|].
  unfold handler_line. by destruct (is_connection_closed_error e).
Qed.

(** *** The population phase, unfolded *)

Lemma fetch_run w s :
  fetch_yesterday_closes w s =
  match get_last_trading_day (today w) with
  | Raise e => (Raise e, say [PrintFetching] s)
  | Ret day =>
      let s1 := say [PrintFetching; HttpGet (request_url day)] s in
      match http w with
      | Raise e => (Raise e, s1)
      | Ret response =>
          if negb (status response =? 200)
          then (Ret tt, say [PrintFetchError (status response)] s1)
          else
            match loads (body response) with
            | Raise e => (Raise e, s1)
            | Ret data =>
                match py_get data "results" with
                | Raise e => (Raise e, s1)
                | Ret results =>
                    match py_iter (default (JArr []) results) with
                    | Raise e => (Raise e, s1)
                    | Ret stocks =>
                        match for_each stocks absorb s1 with
                        | (Raise e, s2) => (Raise e, s2)
                        | (Ret _, s2) =>
                            (Ret tt, say [PrintFetched (size (yesterday_close s2))] s2)
                        end
                    end
                end
            end
      end
  end.
Proof.
  unfold fetch_yesterday_closes. rewrite run_emit.
  destruct (get_last_trading_day (today w)) as [day|e];
    [rewrite run_lift_ret | by rewrite run_lift_raise].
  rewrite run_emit, say_app. cbn [app]. fold (request_url day).
  destruct (http w) as [response|e];
    [rewrite run_lift_ret | by rewrite run_lift_raise].
  destruct (negb (status response =? 200)); [done|].
  destruct (loads (body response)) as [data|e];
    [rewrite run_lift_ret | by rewrite run_lift_raise].
  destruct (py_get data "results") as [results|e];
    [rewrite run_lift_ret | by rewrite run_lift_raise].
  destruct (py_iter (default (JArr []) results)) as [stocks|e];
    [rewrite run_lift_ret | by rewrite run_lift_raise].
  rewrite run_bind.
  by destruct (for_each stocks absorb _) as [[[]|e] s2].
Qed.

Lemma main_run w s :
  main w s =
  match fetch_yesterday_closes w s with
  | (Raise e, s1) => (Raise e, s1)
  | (Ret _, s1) =>
      if bool_decide (yesterday_close s1 = ∅)
      then (Ret tt, say [PrintShutdown] s1)
      else stream w s1
  end.
Proof.
  unfold main. rewrite run_bind.
  destruct (fetch_yesterday_closes w s) as [[[]|e] s1]; [|done].
  rewrite run_bind. cbn [get_state].
  by destruct (bool_decide (yesterday_close s1 = ∅)).
Qed.

Lemma stream_never_raises_after_connect w s :
  ws_connect w = Ret tt -> fst (stream w s) = Ret tt.
Proof.
  intros Hconn. rewrite stream_run, Hconn.
  by destruct (receive _ _ _) as [[[]|e] s'].
Qed.

End Runs.

(** ** The threshold rule *)

(** C1: for a bar of a ticker with previous close P, bar close C and
    cumulative volume V (the running volume plus the bar's volume), where
    (C - P) / P * 100 evaluates to pct (as it does for every P > 0,
    unless an integer is too large for a [float]: see
    [percent_change_positive_raise]), the alert is written exactly when
    pct >= 5 and V >= 2_000_000 and C >= 3, all three at once; otherwise
    only the volume is stored.  The record is in [gainers] before the
    line is printed: when the line cannot be built or written, the
    exception of the print leaves with the record stored. *)
Theorem gainer_rule_is_conjunction
    s event ticker close_price volume k prev_close c p v d q pct V :
  is_bar event ticker close_price volume ->
  key_of ticker = Ret k ->
  yesterday_close s !! k = Some prev_close ->
  number close_price = Ret c ->
  number prev_close = Ret p ->
  number volume = Ret v ->
  py_sub c p = Ret d ->
  py_truediv d p = Ret q ->
  py_mul q (PyInt 100) = Ret pct ->
  py_add (default (PyInt 0) (running_volume s !! k)) v = Ret V ->
  process_event event s =
    if py_ge pct (PyInt 5) && py_ge V (PyInt 2000000) && py_ge c (PyInt 3)
    then match alert_line ticker pct close_price V s with
         | Ret _ => (Ret tt, record_alert k ticker close_price c pct V s)
         | Raise e => (Raise e, record_gainer k c pct V s)
         end
    else (Ret tt, record_volume k V s).
Proof.
  intros Hbar Hkey Hprev Hc Hp Hv Hd Hq Hpct HV.
  rewrite (process_event_bar s event ticker close_price volume k Hbar Hkey), Hprev.
  apply (on_known_ticker_returns s ticker close_price volume k prev_close c p pct v V);
    try done.
  unfold percent_change. by rewrite Hd; cbn [rbind]; rewrite Hq.
Qed.

(** The second bar of the first scenario: 107 against 100 with 600,000
    more shares is an alert at 2,100,000. *)
Lemma gainer_rule_is_conjunction_witness :
  process_event (bar (JStr "AAPL") (JInt 107) (JInt 600000)) aapl_state =
    (Ret tt,
     record_alert (KStr "AAPL") (JStr "AAPL") (JInt 107) (PyInt 107)
       (PyFloat (fmul (dec 7 2) (round_Z 100))) (PyInt 2100000) aapl_state).
Proof.
  etrans.
  - eapply (gainer_rule_is_conjunction aapl_state _ (JStr "AAPL") (JInt 107) (JInt 600000)
              (KStr "AAPL") (JInt 100) (PyInt 107) (PyInt 100) (PyInt 600000)
              (PyInt 7) (PyFloat (dec 7 2)) (PyFloat (fmul (dec 7 2) (round_Z 100)))
              (PyInt 2100000)); first apply is_bar_bar; vm_compute; reflexivity.
  - vm_compute. reflexivity.
Defined.

(** ** Tickers without a reference price *)

(** C4: a bar whose ticker has no entry in [yesterday_close] changes
    nothing at all, whatever its price and volume; and over every
    sequence of received messages the ticker's running volume, its
    entry in [gainers] and the alerts printed for it stay as they were. *)
Theorem unknown_ticker_is_skipped s k :
  yesterday_close s !! k = None ->
  (forall event ticker close_price volume,
     is_bar event ticker close_price volume ->
     key_of ticker = Ret k ->
     process_event event s = (Ret tt, s)) /\
  (forall frames fin r s',
     receive frames fin s = (r, s') ->
     running_volume s' !! k = running_volume s !! k /\
     gainers s' !! k = gainers s !! k /\
     alerts_for k (trace s') = alerts_for k (trace s)).
Proof.
  intros Hk. split.
  - intros event ticker close_price volume Hbar Hkey.
    by rewrite (process_event_bar s event ticker close_price volume k Hbar Hkey), Hk.
  - intros frames fin r s' Hrun.
    eapply steps_absent_ticker; [done | by eapply receive_steps].
Qed.

(** The third scenario: a huge bar for "NEW", which has no reference
    price, leaves the state of the first scenario as it is. *)
Lemma unknown_ticker_is_skipped_witness :
  yesterday_close aapl_state !! KStr "NEW" = None /\
  process_event (bar (JStr "NEW") (JInt 500) (JInt 50000000)) aapl_state
    = (Ret tt, aapl_state).
Proof.
  split; [reflexivity|].
  apply (proj1 (unknown_ticker_is_skipped aapl_state (KStr "NEW") eq_refl)
           _ (JStr "NEW") (JInt 500) (JInt 50000000)).
  - apply is_bar_bar.
  - reflexivity.
Defined.

(** ** The reference prices are read only *)

(** C9: the streaming phase leaves [yesterday_close] as the population
    phase left it, whatever messages arrive and however the stream ends. *)
Theorem stream_keeps_yesterday_close POLYGON_WS_URL POLYGON_API_KEY w s :
  yesterday_close (snd (stream POLYGON_WS_URL POLYGON_API_KEY w s)) = yesterday_close s
  /\ (forall frames fin, yesterday_close (snd (receive frames fin s)) = yesterday_close s)
  /\ (forall msg, yesterday_close (snd (process_message msg s)) = yesterday_close s)
  /\ (forall event, yesterday_close (snd (process_event event s)) = yesterday_close s).
Proof.
  assert (forall frames fin s0,
            yesterday_close (snd (receive frames fin s0)) = yesterday_close s0) as Hrecv.
  { intros frames fin s0. destruct (receive frames fin s0) as [r s'] eqn:Hrun.
    apply (steps_frame yesterday_close step_yesterday_close).
    by eapply receive_steps. }
  repeat split.
  - rewrite stream_run. destruct (ws_connect w) as [[]|e]; [|done].
    specialize (Hrecv (ws_frames w) (ws_closing w) (say (handshake POLYGON_WS_URL POLYGON_API_KEY) s)).
    destruct (receive _ _ _) as [[[]|e] s']; exact Hrecv.
  - intros frames fin. apply Hrecv.
  - intros msg. destruct (process_message msg s) as [r s'] eqn:Hrun.
    apply (steps_frame yesterday_close step_yesterday_close).
    by eapply process_message_steps.
  - intros event. destruct (process_event event s) as [r s'] eqn:Hrun.
    apply step_yesterday_close. by eapply process_event_step.
Qed.

(** ** Errors inside the loop *)

Lemma rbind_no_connection_error {A B} (r : result A) (k : A -> result B) :
  raises_no_connection_error r ->
  (forall a, raises_no_connection_error (k a)) ->
  raises_no_connection_error (rbind r k).
Proof. destruct r; cbn; auto. Qed.

Lemma float_of_int_no_connection_error z :
  raises_no_connection_error (float_of_int z).
Proof. unfold float_of_int. by destruct (round_Z z). Qed.

Lemma to_float_no_connection_error a : raises_no_connection_error (to_float a).
Proof. destruct a; [apply float_of_int_no_connection_error | done]. Qed.

Lemma float_op_no_connection_error op a b :
  raises_no_connection_error (float_op op a b).
Proof.
  unfold float_op.
  apply rbind_no_connection_error; [apply to_float_no_connection_error|]; intros x.
  apply rbind_no_connection_error; [apply to_float_no_connection_error|]; done.
Qed.

Lemma py_sub_no_connection_error a b : raises_no_connection_error (py_sub a b).
Proof. destruct a, b; first done; apply float_op_no_connection_error. Qed.

Lemma py_add_no_connection_error a b : raises_no_connection_error (py_add a b).
Proof. destruct a, b; first done; apply float_op_no_connection_error. Qed.

Lemma py_mul_no_connection_error a b : raises_no_connection_error (py_mul a b).
Proof. destruct a, b; first done; apply float_op_no_connection_error. Qed.

Lemma py_truediv_no_connection_error a b :
  raises_no_connection_error (py_truediv a b).
Proof.
  destruct a as [x|x], b as [y|y]; unfold py_truediv.
  - destruct (y =? 0); [done|]. by destruct (fdiv _ _).
  - apply rbind_no_connection_error; [apply to_float_no_connection_error|]; intros fx.
    cbn. by destruct (is_fzero y).
  - cbn [to_float rbind].
    apply rbind_no_connection_error; [apply float_of_int_no_connection_error|]; intros fy.
    by destruct (is_fzero fy).
  - cbn. by destruct (is_fzero y).
Qed.

Lemma percent_change_no_connection_error c p :
  raises_no_connection_error (percent_change c p).
Proof.
  unfold percent_change.
  apply rbind_no_connection_error; [apply py_sub_no_connection_error|]; intros d.
  apply rbind_no_connection_error; [apply py_truediv_no_connection_error|]; intros q.
  apply py_mul_no_connection_error.
Qed.

Lemma number_no_connection_error v : raises_no_connection_error (number v).
Proof. unfold number. by destruct (as_num v). Qed.

Lemma key_of_no_connection_error v : raises_no_connection_error (key_of v).
Proof. by destruct v. Qed.

Lemma py_get_no_connection_error v f : raises_no_connection_error (py_get v f).
Proof. by destruct v. Qed.

Lemma py_getitem_no_connection_error v f :
  raises_no_connection_error (py_getitem v f).
Proof. destruct v; try done. cbn. by destruct (obj_lookup f kvs). Qed.

Lemma py_iter_no_connection_error v : raises_no_connection_error (py_iter v).
Proof. by destruct v. Qed.

Lemma loads_no_connection_error msg : raises_no_connection_error (loads msg).
Proof. by destruct msg. Qed.

(** Peel one [lift r ≫= k] off a computation whose exceptions are
    being classified. *)
Ltac peel_lift H :=
  match goal with
  | |- context [ (lift ?r ≫= _) _ ] =>
      let Hr := fresh "Hr" in
      pose proof H as Hr;
      destruct r as [?|?];
      [ rewrite run_lift_ret; clear Hr
      | rewrite run_lift_raise; intros [= <- <-]; exact Hr ]
  end.

Lemma int_str_no_connection_error z : raises_no_connection_error (int_str z).
Proof. unfold int_str. by destruct (_ <? _). Qed.

Lemma alert_line_no_connection_error ticker pct close_price V s :
  raises_no_connection_error (alert_line ticker pct close_price V s).
Proof.
  unfold alert_line, alert_text.
  apply rbind_no_connection_error; [|intros _; by destruct (stdout_unicode s)].
  apply rbind_no_connection_error;
    [destruct ticker; try done; apply int_str_no_connection_error|intros _].
  apply rbind_no_connection_error; [|intros _].
  { unfold format_fixed.
    apply rbind_no_connection_error; [apply to_float_no_connection_error|done]. }
  apply rbind_no_connection_error;
    [destruct close_price; try done; apply int_str_no_connection_error|intros _].
  destruct V; [apply int_str_no_connection_error|done].
Qed.

Lemma on_known_ticker_no_connection_error ticker close_price volume k prev_close s e s' :
  on_known_ticker ticker close_price volume k prev_close s = (Raise e, s') ->
  is_connection_closed_error e = false.
Proof.
  unfold on_known_ticker.
  peel_lift (number_no_connection_error close_price).
  peel_lift (number_no_connection_error prev_close).
  match goal with |- context [percent_change ?c ?p] =>
    peel_lift (percent_change_no_connection_error c p) end.
  rewrite run_bind. cbn [get_state].
  peel_lift (number_no_connection_error volume).
  match goal with |- context [py_add ?a ?b] =>
    peel_lift (py_add_no_connection_error a b) end.
  rewrite run_bind. cbn [set_running_volume].
  destruct (qualifies _ _ _); [|done].
  rewrite run_bind. cbn [set_gainers]. rewrite print_alert_run.
  match goal with |- context [alert_line ?t ?pct ?cp ?V ?s0] =>
    pose proof (alert_line_no_connection_error t pct cp V s0) as Hline;
    destruct (alert_line t pct cp V s0) as [[]|e0] end; [done|].
  by intros [= <- <-].
Qed.

Lemma process_event_no_connection_error event s e s' :
  process_event event s = (Raise e, s') ->
  is_connection_closed_error e = false.
Proof.
  unfold process_event.
  peel_lift (py_get_no_connection_error event "ev").
  destruct (eq_str _ "AM"); [|done].
  peel_lift (py_getitem_no_connection_error event "T").
  peel_lift (py_getitem_no_connection_error event "c").
  peel_lift (py_getitem_no_connection_error event "v").
  match goal with |- context [key_of ?t] =>
    peel_lift (key_of_no_connection_error t) end.
  rewrite run_bind. cbn [get_state].
  destruct (yesterday_close s !! _); [|done].
  apply on_known_ticker_no_connection_error.
Qed.

Lemma for_each_no_connection_error events s e s' :
  for_each events process_event s = (Raise e, s') ->
  is_connection_closed_error e = false.
Proof.
  revert s. induction events as [|event events IH]; intros s; [done|].
  rewrite for_each_cons.
  destruct (process_event event s) as [[[]|e1] s1] eqn:Hev.
  - apply IH.
  - intros [= <- <-]. by eapply process_event_no_connection_error.
Qed.

Lemma process_message_no_connection_error msg s e s' :
  process_message msg s = (Raise e, s') ->
  is_connection_closed_error e = false.
Proof.
  unfold process_message.
  peel_lift (loads_no_connection_error msg).
  match goal with |- context [py_iter ?d] =>
    peel_lift (py_iter_no_connection_error d) end.
  apply for_each_no_connection_error.
Qed.

Lemma lacks_field_raises event s :
  lacks_field event ->
  exists f, process_event event s = (Raise (KeyError f), s).
Proof.
  intros (kvs & -> & Hev & Hmiss). unfold process_event.
  cbn [py_get]. rewrite run_lift_ret, Hev. cbn [py_getitem].
  destruct (obj_lookup "T" kvs) as [ticker|] eqn:HT;
    [rewrite run_lift_ret | by eexists; rewrite run_lift_raise].
  destruct (obj_lookup "c" kvs) as [close_price|] eqn:Hc;
    [rewrite run_lift_ret | by eexists; rewrite run_lift_raise].
  destruct (obj_lookup "v" kvs) as [volume|] eqn:Hv;
    [rewrite run_lift_ret | by eexists; rewrite run_lift_raise].
  by destruct Hmiss as [?|[?|?]].
Qed.

Lemma for_each_raises events s :
  Exists lacks_field events ->
  exists e s', for_each events process_event s = (Raise e, s').
Proof.
  intros Hex. revert s. induction Hex as [event events Hbad|event events _ IH]; intros s.
  - destruct (lacks_field_raises event s Hbad) as [f Hf].
    exists (KeyError f), s. by rewrite for_each_cons, Hf.
  - rewrite for_each_cons.
    destruct (process_event event s) as [[[]|e] s1]; [apply IH | by eauto].
Qed.

Lemma malformed_raises msg s :
  malformed msg ->
  exists e s', process_message msg s = (Raise e, s') /\
    (forall raw, msg = Malformed raw -> e = JSONDecodeError /\ s' = s).
Proof.
  intros [[raw ->]|(events & -> & Hex)].
  - exists JSONDecodeError, s. by split.
  - destruct (for_each_raises events s Hex) as (e & s' & Hrun).
    exists e, s'. split; [|done].
    unfold process_message. cbn [loads py_iter]. by rewrite !run_lift_ret.
Qed.

Lemma receive_app pre rest fin s :
  receive (pre ++ rest) fin s =
  match receive pre ClosedOK s with
  | (Ret _, s1) => receive rest fin s1
  | (Raise e, s1) => (Raise e, s1)
  end.
Proof.
  revert s. induction pre as [|msg pre IH]; intros s; [done|].
  rewrite <- app_comm_cons, !receive_cons.
  destruct (process_message msg s) as [[[]|e] s1]; [apply IH | done].
Qed.

(** C3, as the code has it: a message that fails to parse, or an event
    of which lacks a field, raises inside the loop; the handler around
    the whole loop catches the exception and prints it; [stream] returns
    normally, and no later message is processed: the final state is the
    one that the failing message left, plus the printed line. *)
Theorem malformed_message_ends_the_stream
    POLYGON_WS_URL POLYGON_API_KEY w s pre bad rest s1 :
  ws_connect w = Ret tt ->
  ws_frames w = pre ++ bad :: rest ->
  receive pre ClosedOK (say (handshake POLYGON_WS_URL POLYGON_API_KEY) s) = (Ret tt, s1) ->
  malformed bad ->
  exists e s2,
    process_message bad s1 = (Raise e, s2) /\
    (forall raw, bad = Malformed raw -> e = JSONDecodeError /\ s2 = s1) /\
    stream POLYGON_WS_URL POLYGON_API_KEY w s = (Ret tt, say [PrintUnexpected e] s2).
Proof.
  intros Hconn Hframes Hpre Hbad.
  destruct (malformed_raises bad s1 Hbad) as (e & s2 & Hrun & Hraw).
  exists e, s2. split; [done|]. split; [done|].
  rewrite stream_run, Hconn, Hframes, receive_app, Hpre, receive_cons, Hrun.
  unfold handler_line.
  by rewrite (process_message_no_connection_error bad s1 e s2 Hrun).
Qed.

Lemma malformed_message_ends_the_stream_witness :
  exists e s2,
    process_message (Malformed "oops") (say (handshake "wss://feed" "key") aapl_state)
      = (Raise e, s2) /\
    (forall raw, Malformed "oops" = Malformed raw ->
       e = JSONDecodeError /\ s2 = say (handshake "wss://feed" "key") aapl_state) /\
    stream "wss://feed" "key" (world_of [Malformed "oops"; good_message]) aapl_state
      = (Ret tt, say [PrintUnexpected e] s2).
Proof.
  apply (malformed_message_ends_the_stream "wss://feed" "key"
           (world_of [Malformed "oops"; good_message]) aapl_state
           [] (Malformed "oops") [good_message]).
  - reflexivity.
  - reflexivity.
  - reflexivity.
  - left. by exists "oops"%string.
Defined.

(** C3 as stated fails: after a message that does not parse, and after
    one whose event lacks the field "v", the loop does not go on to the
    next message.  That message alone raises an alert; behind either
    bad message it is never processed, and [gainers] stays empty. *)
Lemma malformed_message_stops_the_loop :
  receive [good_message] ClosedOK aapl_state =
    (Ret tt, record_alert (KStr "AAPL") (JStr "AAPL") (JInt 107) (PyInt 107)
               (PyFloat (fmul (dec 7 2) (round_Z 100))) (PyInt 2100000) aapl_state) /\
  receive [Malformed "oops"; good_message] ClosedOK aapl_state =
    (Raise JSONDecodeError, aapl_state) /\
  receive [truncated_message; good_message] ClosedOK aapl_state =
    (Raise (KeyError "v"), aapl_state) /\
  stream "wss://feed" "key" (world_of [Malformed "oops"; good_message]) aapl_state =
    (Ret tt, say (handshake "wss://feed" "key" ++ [PrintUnexpected JSONDecodeError]) aapl_state) /\
  stream "wss://feed" "key" (world_of [truncated_message; good_message]) aapl_state =
    (Ret tt, say (handshake "wss://feed" "key" ++ [PrintUnexpected (KeyError "v")]) aapl_state).
Proof. repeat split; vm_compute; reflexivity. Qed.

(** ** Signs of binary64 results *)

Lemma binary_round_aux_sign s m e l :
  sign_or_nan s (binary_round_aux prec emax s m e l).
Proof.
  unfold binary_round_aux.
  destruct (shr_fexp prec emax m e l) as [mrs' e'].
  destruct (shr_fexp prec emax _ e' loc_Exact) as [mrs'' e''].
  destruct (shr_m mrs''); [done| |done].
  by destruct (e'' <=? emax - prec).
Qed.

Lemma binary_round_sign s m e : sign_or_nan s (binary_round prec emax s m e).
Proof.
  unfold binary_round. destruct (shl_align _ _ _) as [mz ez].
  apply binary_round_aux_sign.
Qed.

Lemma round_Z_positive z : 0 < z -> sign_or_nan false (round_Z z).
Proof. destruct z; [done| |done]; intros _; apply binary_round_sign. Qed.

Lemma round_Z_negative z : z < 0 -> sign_or_nan true (round_Z z).
Proof. destruct z; [done|done|]; intros _; apply binary_round_sign. Qed.

Lemma sf_of_Z_positive z : 0 < z -> sign_or_nan false (sf_of_Z z).
Proof. by destruct z. Qed.

Lemma sf_of_Z_negative z : z < 0 -> sign_or_nan true (sf_of_Z z).
Proof. by destruct z. Qed.

(** A non-negative number minus a non-positive one is non-negative. *)
Lemma fsub_sign x y :
  sign_or_nan false x -> sign_or_nan true y -> sign_or_nan false (fsub x y).
Proof.
  destruct x as [sx|sx| |sx mx ex], y as [sy|sy| |sy my ey]; cbn;
    intros Hx Hy; subst; try done.
  apply binary_round_sign.
Qed.

Lemma fdiv_sign sx sy x y :
  sign_or_nan sx x -> sign_or_nan sy y -> sign_or_nan (xorb sx sy) (fdiv x y).
Proof.
  destruct x as [s1|s1| |s1 mx ex], y as [s2|s2| |s2 my ey]; cbn;
    intros Hx Hy; subst; try done.
  destruct (SFdiv_core_binary prec emax (Z.pos mx) ex (Z.pos my) ey) as [[mz ez] lz].
  apply binary_round_aux_sign.
Qed.

Lemma fmul_sign sx sy x y :
  sign_or_nan sx x -> sign_or_nan sy y -> sign_or_nan (xorb sx sy) (fmul x y).
Proof.
  destruct x as [s1|s1| |s1 mx ex], y as [s2|s2| |s2 my ey]; cbn;
    intros Hx Hy; subst; try done.
  apply binary_round_aux_sign.
Qed.

Lemma dy_compare_neg_pos m1 e1 m2 e2 :
  m1 <= 0 -> 0 < m2 -> dy_compare m1 e1 m2 e2 = Lt.
Proof.
  intros H1 H2. unfold dy_compare. apply Z.compare_lt_iff.
  assert (0 < 2 ^ (e1 - Z.min e1 e2)) by (apply Z.pow_pos_nonneg; lia).
  assert (0 < 2 ^ (e2 - Z.min e1 e2)) by (apply Z.pow_pos_nonneg; lia).
  nia.
Qed.

Lemma dy_compare_pos_zero m e : 0 < m -> dy_compare m e 0 0 = Gt.
Proof.
  intros H. unfold dy_compare. apply Z.compare_gt_iff.
  assert (0 < 2 ^ (e - Z.min e 0)) by (apply Z.pow_pos_nonneg; lia).
  nia.
Qed.

Lemma dy_compare_neg_zero m e : m < 0 -> dy_compare m e 0 0 = Lt.
Proof.
  intros H. unfold dy_compare. apply Z.compare_lt_iff.
  assert (0 < 2 ^ (e - Z.min e 0)) by (apply Z.pow_pos_nonneg; lia).
  nia.
Qed.

(** Negative numbers, negative zero and NaN are not [>=] a positive
    integer. *)
Lemma py_ge_sign f z :
  sign_or_nan true f -> 0 < z -> py_ge (PyFloat f) (PyInt z) = false.
Proof.
  intros Hf Hz. unfold py_ge, py_compare. destruct f as [s|s| |s m e]; cbn in *; subst.
  - by rewrite dy_compare_neg_pos by lia.
  - done.
  - done.
  - by rewrite dy_compare_neg_pos by lia.
Qed.

(** *** Rounding a nonzero integer gives a nonzero double *)

Lemma shr_1_digits mrs :
  Zdigits2 (shr_m (shr_1 mrs)) = Z.max 0 (Zdigits2 (shr_m mrs) - 1).
Proof. destruct mrs as [[|[p|p|]|[p|p|]] r t]; cbn; lia. Qed.

Lemma iter_shr_1_digits p mrs :
  Zdigits2 (shr_m (SpecFloat.iter_pos shr_1 p mrs)) = Z.max 0 (Zdigits2 (shr_m mrs) - Z.pos p).
Proof.
  revert mrs. induction p as [p IH|p IH|]; intros mrs; cbn [SpecFloat.iter_pos].
  - rewrite !IH, shr_1_digits. lia.
  - rewrite !IH. lia.
  - apply shr_1_digits.
Qed.

Lemma shr_1_nonneg mrs : 0 <= shr_m mrs -> 0 <= shr_m (shr_1 mrs).
Proof. destruct mrs as [[|[p|p|]|[p|p|]] r t]; cbn; lia. Qed.

Lemma iter_shr_1_nonneg p mrs :
  0 <= shr_m mrs -> 0 <= shr_m (SpecFloat.iter_pos shr_1 p mrs).
Proof.
  revert mrs. induction p as [p IH|p IH|]; intros mrs H; cbn [SpecFloat.iter_pos].
  - by apply IH, IH, shr_1_nonneg.
  - by apply IH, IH.
  - by apply shr_1_nonneg.
Qed.

Lemma shr_record_of_loc_m m l : shr_m (shr_record_of_loc m l) = m.
Proof. by destruct l as [|[]]. Qed.

(** Above the underflow threshold, the shift to the working exponent
    keeps the position of the leading bit. *)
Lemma shr_fexp_digits m e l :
  0 < m ->
  emin prec emax < Zdigits2 m + e ->
  0 <= shr_m (fst (shr_fexp prec emax m e l)) /\
  0 < Zdigits2 (shr_m (fst (shr_fexp prec emax m e l))) /\
  Zdigits2 (shr_m (fst (shr_fexp prec emax m e l))) + snd (shr_fexp prec emax m e l)
    = Zdigits2 m + e.
Proof.
  intros Hm He. unfold shr_fexp, shr.
  assert (0 < Zdigits2 m) as Hd by (destruct m; cbn; lia).
  destruct (fexp prec emax (Zdigits2 m + e) - e) as [|n|n] eqn:Hn;
    cbn [fst snd]; rewrite ?shr_record_of_loc_m; try lia.
  assert (Z.pos n < Zdigits2 m) as Hlt.
  { unfold fexp, emin, prec, emax in *. lia. }
  split; [apply iter_shr_1_nonneg; rewrite shr_record_of_loc_m; lia|].
  rewrite iter_shr_1_digits, shr_record_of_loc_m. lia.
Qed.

Lemma digits2_pos_succ p :
  (digits2_pos p <= digits2_pos (Pos.succ p))%positive.
Proof.
  induction p as [p IH|p IH|];
    [ change (Pos.succ p~1) with (Pos.succ p)~0%positive
    | change (Pos.succ p~0) with p~1%positive
    | change (Pos.succ 1) with 2%positive ];
    cbn [digits2_pos]; lia.
Qed.

Lemma round_nearest_even_digits m l :
  0 <= m -> 0 <= round_nearest_even m l /\ Zdigits2 m <= Zdigits2 (round_nearest_even m l).
Proof.
  intros Hm.
  assert (Zdigits2 m <= Zdigits2 (m + 1)) as Hsucc.
  { destruct m as [|p|p]; [by cbv| |lia].
    replace (Z.pos p + 1) with (Z.pos (Pos.succ p)) by lia.
    cbn [Zdigits2]. pose proof (digits2_pos_succ p). lia. }
  destruct l as [|[]]; cbn; try (split; lia).
  destruct (Z.even m); split; lia.
Qed.

Lemma Zdigits2_zero z : 0 < Zdigits2 z -> z <> 0.
Proof. by destruct z. Qed.

Lemma binary_round_aux_nonzero s m e l :
  0 < m ->
  emin prec emax < Zdigits2 m + e ->
  is_fzero (binary_round_aux prec emax s m e l) = false.
Proof.
  intros Hm He. unfold binary_round_aux.
  destruct (shr_fexp_digits m e l Hm He) as (Hnn & Hpos & Hsum).
  destruct (shr_fexp prec emax m e l) as [mrs' e']. cbn [fst snd] in *.
  destruct (round_nearest_even_digits (shr_m mrs') (loc_of_shr_record mrs') Hnn)
    as [Hnn2 Hd2].
  set (m2 := round_nearest_even (shr_m mrs') (loc_of_shr_record mrs')) in *.
  assert (0 < m2) as Hm2.
  { assert (m2 <> 0) by (apply Zdigits2_zero; lia). lia. }
  destruct (shr_fexp_digits m2 e' loc_Exact Hm2 ltac:(lia)) as (_ & Hpos3 & _).
  destruct (shr_fexp prec emax m2 e' loc_Exact) as [mrs'' e'']. cbn [fst snd] in *.
  destruct (shr_m mrs'') as [|p|p]; [by cbn in Hpos3| |done].
  by destruct (e'' <=? emax - prec).
Qed.

Lemma digits2_pos_iter_xO m k :
  digits2_pos (Pos.iter xO m k) = (digits2_pos m + k)%positive.
Proof.
  induction k as [|k IH] using Pos.peano_ind.
  - cbn. lia.
  - rewrite Pos.iter_succ. cbn. rewrite IH. lia.
Qed.

Lemma binary_round_nonzero s m e :
  emin prec emax < Z.pos (digits2_pos m) + e ->
  is_fzero (binary_round prec emax s m e) = false.
Proof.
  intros He. unfold binary_round, shl_align.
  destruct (fexp prec emax (Z.pos (digits2_pos m) + e) - e) as [|k|k] eqn:Hk.
  - by apply binary_round_aux_nonzero.
  - by apply binary_round_aux_nonzero.
  - apply binary_round_aux_nonzero; [lia|].
    cbn [Zdigits2]. rewrite digits2_pos_iter_xO. lia.
Qed.

Lemma round_Z_nonzero z : z <> 0 -> is_fzero (round_Z z) = false.
Proof.
  destruct z as [|p|p]; [done| |]; intros _; apply binary_round_nonzero;
    unfold emin, prec, emax; lia.
Qed.

(** ** A reference price that is not positive *)

Lemma dy_compare_int z1 z2 : dy_compare z1 0 z2 0 = (z1 ?= z2).
Proof.
  unfold dy_compare. replace (0 - Z.min 0 0) with 0 by lia.
  by rewrite Z.pow_0_r, !Z.mul_1_r.
Qed.

Lemma py_eq_zero p :
  py_eq p (PyInt 0) = true ->
  p = PyInt 0 \/ exists s, p = PyFloat (S754_zero s).
Proof.
  unfold py_eq, py_compare. destruct p as [z|[s|s| |s m e]]; cbn.
  - rewrite dy_compare_int. destruct (Z.compare_spec z 0); try done. left. by subst.
  - eauto.
  - by destruct s.
  - done.
  - destruct s; [by rewrite dy_compare_neg_zero by lia
                 | by rewrite dy_compare_pos_zero by lia].
Qed.

Lemma py_lt_zero_int z : py_lt (PyInt z) (PyInt 0) = true -> z < 0.
Proof.
  unfold py_lt, py_compare. cbn. rewrite dy_compare_int.
  by destruct (Z.compare_spec z 0).
Qed.

Lemma py_lt_zero_float f :
  py_lt (PyFloat f) (PyInt 0) = true ->
  sign_or_nan true f /\ is_fzero f = false.
Proof.
  unfold py_lt, py_compare. destruct f as [s|s| |s m e]; cbn; try done.
  - by destruct s.
  - destruct s; [done | by rewrite dy_compare_pos_zero by lia].
Qed.

Lemma py_ge_three_int z : py_ge (PyInt z) (PyInt 3) = true -> 3 <= z.
Proof.
  unfold py_ge, py_compare. cbn. rewrite dy_compare_int.
  destruct (Z.compare_spec z 3); try done; lia.
Qed.

Lemma py_ge_three_float f :
  py_ge (PyFloat f) (PyInt 3) = true -> sign_or_nan false f.
Proof.
  unfold py_ge, py_compare. destruct f as [s|s| |s m e]; cbn; try done.
  - by destruct s.
  - destruct s; [by rewrite dy_compare_neg_pos by lia | done].
Qed.

Lemma py_le_zero p :
  py_le p (PyInt 0) = true ->
  py_lt p (PyInt 0) = true \/ py_eq p (PyInt 0) = true.
Proof. unfold py_le, py_lt, py_eq. destruct (py_compare _ _) as [[]|]; auto. Qed.

Lemma float_of_int_ret z f : float_of_int z = Ret f -> f = round_Z z.
Proof. unfold float_of_int. destruct (round_Z z); congruence. Qed.

Lemma float_of_int_raise z e : float_of_int z = Raise e -> e = OverflowError.
Proof. unfold float_of_int. destruct (round_Z z); congruence. Qed.

Lemma to_float_raise a e : to_float a = Raise e -> e = OverflowError.
Proof. destruct a; [apply float_of_int_raise | done]. Qed.

(** The double that a number at least 3 converts to is positive. *)
Lemma to_float_ge_three c f :
  py_ge c (PyInt 3) = true -> to_float c = Ret f -> sign_or_nan false f.
Proof.
  destruct c as [z|g]; cbn [to_float].
  - intros Hz%py_ge_three_int ->%float_of_int_ret.
    apply round_Z_positive. lia.
  - intros Hg%py_ge_three_float [= <-]. done.
Qed.

(** The double that a negative number converts to is negative, and not
    a zero. *)
Lemma to_float_negative p f :
  py_lt p (PyInt 0) = true -> to_float p = Ret f ->
  sign_or_nan true f /\ is_fzero f = false.
Proof.
  destruct p as [z|g]; cbn [to_float].
  - intros Hz%py_lt_zero_int ->%float_of_int_ret. split.
    + apply round_Z_negative. lia.
    + apply round_Z_nonzero. lia.
  - intros Hg%py_lt_zero_float [= <-]. done.
Qed.

Lemma float_of_int_100 : float_of_int 100 = Ret (round_Z 100).
Proof. reflexivity. Qed.

Lemma round_Z_100_sign : sign_or_nan false (round_Z 100).
Proof. reflexivity. Qed.

Lemma times_100 q : py_mul (PyFloat q) (PyInt 100) = Ret (PyFloat (fmul q (round_Z 100))).
Proof. reflexivity. Qed.

(** The quotient of two numbers, at least one of them a [float]. *)
Lemma py_truediv_float a b :
  (forall x y, a = PyInt x -> b = PyInt y -> False) ->
  py_truediv a b =
  rbind (to_float a) (fun x =>
  rbind (to_float b) (fun y =>
  if is_fzero y then Raise ZeroDivisionError else Ret (PyFloat (fdiv x y)))).
Proof. destruct a, b; intros H; try done. by destruct (H z z0). Qed.

Lemma py_sub_float a b :
  (forall x y, a = PyInt x -> b = PyInt y -> False) ->
  py_sub a b = float_op fsub a b.
Proof. destruct a, b; intros H; try done. by destruct (H z z0). Qed.

(** With a negative previous close and a close of 3 or more, the
    percent change is negative (or NaN). *)
Lemma percent_change_negative c p pct :
  py_ge c (PyInt 3) = true ->
  py_lt p (PyInt 0) = true ->
  percent_change c p = Ret pct ->
  exists f, pct = PyFloat f /\ sign_or_nan true f.
Proof.
  intros Hc Hp. unfold percent_change.
  destruct c as [x|fc], p as [y|fp].
  - (* two integers: an exact difference, a rounded quotient *)
    apply py_ge_three_int in Hc. apply py_lt_zero_int in Hp.
    cbn [py_sub rbind py_truediv].
    destruct (Z.eqb_spec y 0) as [|_]; [lia|].
    pose proof (fdiv_sign false true (sf_of_Z (x - y)) (sf_of_Z y)
                  (sf_of_Z_positive (x - y) ltac:(lia)) (sf_of_Z_negative y ltac:(lia))) as Hq.
    destruct (fdiv _ _) as [s|s| |s m e] eqn:Hdiv; cbn [rbind]; try done;
      rewrite times_100; intros [= <-]; eexists; (split; [done|]);
      exact (fmul_sign true false _ _ Hq round_Z_100_sign).
  - rewrite py_sub_float by (intros ????; discriminate).
    unfold float_op.
    destruct (to_float (PyInt x)) as [fx|] eqn:Hx; [|done].
    pose proof (to_float_ge_three _ _ Hc Hx) as Hfx.
    destruct (to_float_negative _ _ Hp eq_refl) as [Hfp Hnz].
    cbn [rbind to_float py_truediv]. rewrite Hnz; cbn [rbind]; rewrite times_100.
    intros [= <-]. eexists; split; [done|].
    refine (fmul_sign true false _ _ _ round_Z_100_sign).
    refine (fdiv_sign false true _ _ _ _); [|done]. by apply fsub_sign.
  - rewrite py_sub_float by (intros ????; discriminate).
    unfold float_op. cbn [to_float rbind].
    destruct (float_of_int y) as [fy|] eqn:Hy; [|done].
    pose proof (to_float_ge_three (PyFloat fc) fc Hc eq_refl) as Hfc.
    destruct (to_float_negative (PyInt y) fy Hp Hy) as [Hfy Hnz].
    cbn [rbind py_truediv to_float]. rewrite Hy. cbn [rbind]. rewrite Hnz; cbn [rbind]; rewrite times_100.
    intros [= <-]. eexists; split; [done|].
    refine (fmul_sign true false _ _ _ round_Z_100_sign).
    refine (fdiv_sign false true _ _ _ _); [|done]. by apply fsub_sign.
  - pose proof (to_float_ge_three (PyFloat fc) fc Hc eq_refl) as Hfc.
    destruct (to_float_negative (PyFloat fp) fp Hp eq_refl) as [Hfp Hnz].
    cbn [py_sub float_op to_float rbind py_truediv]. rewrite Hnz; cbn [rbind]; rewrite times_100.
    intros [= <-]. eexists; split; [done|].
    refine (fmul_sign true false _ _ _ round_Z_100_sign).
    refine (fdiv_sign false true _ _ _ _); [|done]. by apply fsub_sign.
Qed.

Lemma float_op_raise op a b e : float_op op a b = Raise e -> e = OverflowError.
Proof.
  unfold float_op.
  destruct (to_float a) as [x|e1] eqn:Ha; cbn [rbind];
    [|intros [= <-]; by eapply to_float_raise].
  destruct (to_float b) as [y|e2] eqn:Hb; cbn [rbind];
    [done | intros [= <-]; by eapply to_float_raise].
Qed.

Lemma py_sub_raise a b e : py_sub a b = Raise e -> e = OverflowError.
Proof. destruct a, b; first done; apply float_op_raise. Qed.

Lemma py_add_raise a b e : py_add a b = Raise e -> e = OverflowError.
Proof. destruct a, b; first done; apply float_op_raise. Qed.

Lemma number_raise v e : number v = Raise e -> e = TypeError.
Proof. unfold number. destruct (as_num v); congruence. Qed.

Lemma py_mul_raise a b e : py_mul a b = Raise e -> e = OverflowError.
Proof. destruct a, b; first done; apply float_op_raise. Qed.

(** Dividing by a negative number raises no [ZeroDivisionError]. *)
Lemma py_truediv_negative d p e :
  py_lt p (PyInt 0) = true -> py_truediv d p = Raise e -> e = OverflowError.
Proof.
  intros Hp. destruct d as [x|fd], p as [y|fp]; unfold py_truediv.
  - apply py_lt_zero_int in Hp.
    destruct (Z.eqb_spec y 0) as [|_]; [lia|].
    destruct (fdiv _ _); congruence.
  - destruct (to_float (PyInt x)) as [fx|e1] eqn:Hx; cbn [rbind];
      [|intros [= <-]; by eapply to_float_raise].
    destruct (to_float_negative _ _ Hp eq_refl) as [_ Hnz].
    cbn [to_float rbind]. by rewrite Hnz.
  - cbn [to_float rbind].
    destruct (float_of_int y) as [fy|e1] eqn:Hy; cbn [rbind];
      [|intros [= <-]; by eapply float_of_int_raise].
    destruct (to_float_negative (PyInt y) fy Hp Hy) as [_ Hnz]. by rewrite Hnz.
  - destruct (to_float_negative _ _ Hp eq_refl) as [_ Hnz].
    cbn [to_float rbind]. by rewrite Hnz.
Qed.

Lemma percent_change_negative_raise c p e :
  py_lt p (PyInt 0) = true ->
  percent_change c p = Raise e -> e = OverflowError.
Proof.
  intros Hp. unfold percent_change.
  destruct (py_sub c p) as [d|e1] eqn:Hd; cbn [rbind];
    [|intros [= <-]; by eapply py_sub_raise].
  destruct (py_truediv d p) as [q|e1] eqn:Hq; cbn [rbind];
    [|intros [= <-]; by eapply py_truediv_negative].
  apply py_mul_raise.
Qed.

(** The same for every previous close that is not equal to zero, in
    particular for every positive one: the expression evaluates, or an
    integer is too large for a [float]. *)
Lemma py_eq_zero_false_int y : py_eq (PyInt y) (PyInt 0) = false -> y <> 0.
Proof. intros H ->. by vm_compute in H. Qed.

Lemma py_eq_zero_false_float f :
  py_eq (PyFloat f) (PyInt 0) = false -> is_fzero f = false.
Proof. by destruct f. Qed.

Lemma py_truediv_nonzero d p e :
  py_eq p (PyInt 0) = false -> py_truediv d p = Raise e -> e = OverflowError.
Proof.
  intros Hp. destruct d as [x|fd], p as [y|fp]; unfold py_truediv.
  - apply py_eq_zero_false_int in Hp.
    destruct (Z.eqb_spec y 0) as [|_]; [done|].
    destruct (fdiv _ _); congruence.
  - destruct (to_float (PyInt x)) as [fx|e1] eqn:Hx; cbn [rbind];
      [|intros [= <-]; by eapply to_float_raise].
    cbn [to_float rbind]. by rewrite (py_eq_zero_false_float fp Hp).
  - cbn [to_float rbind].
    destruct (float_of_int y) as [fy|e1] eqn:Hy; cbn [rbind];
      [|intros [= <-]; by eapply float_of_int_raise].
    apply float_of_int_ret in Hy as ->.
    by rewrite (round_Z_nonzero y (py_eq_zero_false_int y Hp)).
  - cbn [to_float rbind]. by rewrite (py_eq_zero_false_float fp Hp).
Qed.

Lemma percent_change_nonzero_raise c p e :
  py_eq p (PyInt 0) = false ->
  percent_change c p = Raise e -> e = OverflowError.
Proof.
  intros Hp. unfold percent_change.
  destruct (py_sub c p) as [d|e1] eqn:Hd; cbn [rbind];
    [|intros [= <-]; by eapply py_sub_raise].
  destruct (py_truediv d p) as [q|e1] eqn:Hq; cbn [rbind];
    [|intros [= <-]; by eapply py_truediv_nonzero].
  apply py_mul_raise.
Qed.

Lemma percent_change_positive_raise c p e :
  py_gt p (PyInt 0) = true ->
  percent_change c p = Raise e -> e = OverflowError.
Proof.
  intros Hp. apply percent_change_nonzero_raise.
  unfold py_gt, py_eq in *. by destruct (py_compare p (PyInt 0)) as [[]|].
Qed.

(** With a previous close of zero the division raises, unless the
    close is an integer too large to be converted for the subtraction. *)
Lemma percent_change_zero c p :
  py_eq p (PyInt 0) = true ->
  percent_change c p =
    Raise (if raised (to_float c) then OverflowError else ZeroDivisionError)
  \/ exists x, c = PyInt x /\ p = PyInt 0 /\
       percent_change c p = Raise ZeroDivisionError.
Proof.
  intros [->|[s ->]]%py_eq_zero; destruct c as [x|fc].
  - right. by exists x.
  - left. reflexivity.
  - left. unfold percent_change, py_sub, float_op. cbn [to_float].
    destruct (float_of_int x) as [fx|e] eqn:Hx; [reflexivity|].
    by rewrite (float_of_int_raise _ _ Hx).
  - left. reflexivity.
Qed.

(** A previous close that is not positive never qualifies. *)
Lemma nonpositive_never_qualifies c p pct V :
  py_le p (PyInt 0) = true ->
  percent_change c p = Ret pct ->
  qualifies pct V c = false.
Proof.
  intros [Hneg|Hzero]%py_le_zero Hpct.
  - unfold qualifies. destruct (py_ge c MIN_PRICE) eqn:Hc; [|by rewrite andb_false_r].
    destruct (percent_change_negative c p pct Hc Hneg Hpct) as (f & -> & Hf).
    unfold MIN_PCT_CHANGE. by rewrite py_ge_sign.
  - destruct (percent_change_zero c p Hzero) as [H|(x & _ & _ & H)]; congruence.
Qed.

(** The known-ticker branch for a previous close that is not positive:
    it raises, or stores the volume and nothing else. *)
Lemma on_known_ticker_nonpositive s ticker close_price volume k prev_close p :
  number prev_close = Ret p ->
  py_le p (PyInt 0) = true ->
  on_known_ticker ticker close_price volume k prev_close s =
    match number close_price with
    | Raise e => (Raise e, s)
    | Ret c =>
        match percent_change c p with
        | Raise e => (Raise e, s)
        | Ret pct =>
            match number volume with
            | Raise e => (Raise e, s)
            | Ret v =>
                match py_add (default (PyInt 0) (running_volume s !! k)) v with
                | Raise e => (Raise e, s)
                | Ret V => (Ret tt, record_volume k V s)
                end
            end
        end
    end.
Proof.
  intros Hp Hle. unfold on_known_ticker.
  destruct (number close_price) as [c|e];
    [rewrite run_lift_ret | by rewrite run_lift_raise].
  rewrite Hp, run_lift_ret.
  destruct (percent_change c p) as [pct|e] eqn:Hpct;
    [rewrite run_lift_ret | by rewrite run_lift_raise].
  rewrite run_bind. cbn [get_state].
  destruct (number volume) as [v|e];
    [rewrite run_lift_ret | by rewrite run_lift_raise].
  destruct (py_add _ v) as [V|e];
    [rewrite run_lift_ret | by rewrite run_lift_raise].
  rewrite run_bind. cbn [set_running_volume].
  by rewrite (nonpositive_never_qualifies c p pct V Hle Hpct).
Qed.

Lemma percent_change_zero_fault close_price c p :
  py_eq p (PyInt 0) = true ->
  number close_price = Ret c ->
  percent_change c p = Raise (zero_reference_fault close_price p).
Proof.
  intros Hzero Hc. unfold zero_reference_fault.
  unfold number in Hc. destruct (as_num close_price) as [c'|]; [|done].
  injection Hc as ->.
  apply py_eq_zero in Hzero as [->|[s ->]]; destruct c as [x|fc]; try reflexivity.
  unfold percent_change, py_sub, float_op. cbn [to_float].
  destruct (float_of_int x) as [fx|e] eqn:Hx; [reflexivity|].
  by rewrite (float_of_int_raise _ _ Hx).
Qed.

(** A message that raises ends the stream: the handler around the loop
    prints the exception, and the messages behind are not read. *)
Lemma stream_stops POLYGON_WS_URL POLYGON_API_KEY w s pre bad rest s1 e s2 :
  ws_connect w = Ret tt ->
  ws_frames w = pre ++ bad :: rest ->
  receive pre ClosedOK (say (handshake POLYGON_WS_URL POLYGON_API_KEY) s) = (Ret tt, s1) ->
  process_message bad s1 = (Raise e, s2) ->
  stream POLYGON_WS_URL POLYGON_API_KEY w s = (Ret tt, say [PrintUnexpected e] s2).
Proof.
  intros Hconn Hframes Hpre Hrun.
  rewrite stream_run, Hconn, Hframes, receive_app, Hpre, receive_cons, Hrun.
  unfold handler_line.
  by rewrite (process_message_no_connection_error bad s1 e s2 Hrun).
Qed.

(** C2, as the code has it.  For a bar whose ticker has a previous
    close P <= 0: no alert is written or printed, whatever the close and
    the volume; for P < 0 no [ZeroDivisionError] is raised; for P = 0
    the bar always raises and leaves the state as it was:
    [ZeroDivisionError] from the division whenever the close is a number
    that a [float] can hold (and always between two [int]s), the
    exception of the subtraction otherwise; wherever the bar arrives in
    the stream, the handler around the loop prints the exception,
    [stream] returns, and what comes behind the bar is not processed. *)
Theorem nonpositive_reference_never_alerts
    s event ticker close_price volume k prev_close p :
  is_bar event ticker close_price volume ->
  key_of ticker = Ret k ->
  yesterday_close s !! k = Some prev_close ->
  number prev_close = Ret p ->
  py_le p (PyInt 0) = true ->
  gainers (snd (process_event event s)) = gainers s /\
  trace (snd (process_event event s)) = trace s /\
  (py_lt p (PyInt 0) = true ->
   fst (process_event event s) <> Raise ZeroDivisionError) /\
  (py_eq p (PyInt 0) = true ->
   process_event event s = (Raise (zero_reference_fault close_price p), s) /\
   (forall c, number close_price = Ret c -> raised (to_float c) = false ->
      zero_reference_fault close_price p = ZeroDivisionError) /\
   (forall POLYGON_WS_URL POLYGON_API_KEY w s0 pre before after rest s1,
      ws_connect w = Ret tt ->
      ws_frames w = pre ++ WellFormed (JArr (before ++ event :: after)) :: rest ->
      receive pre ClosedOK (say (handshake POLYGON_WS_URL POLYGON_API_KEY) s0)
        = (Ret tt, s1) ->
      for_each before process_event s1 = (Ret tt, s) ->
      stream POLYGON_WS_URL POLYGON_API_KEY w s0 =
        (Ret tt, say [PrintUnexpected (zero_reference_fault close_price p)] s))).
Proof.
  intros Hbar Hkey Hprev Hp Hle.
  assert (py_eq p (PyInt 0) = true ->
          process_event event s = (Raise (zero_reference_fault close_price p), s))
    as Hfault.
  { intros Hz.
    rewrite (process_event_bar s event ticker close_price volume k Hbar Hkey), Hprev.
    rewrite (on_known_ticker_nonpositive s ticker close_price volume k prev_close p Hp Hle).
    destruct (number close_price) as [c|e] eqn:Hc.
    - by rewrite (percent_change_zero_fault close_price c p Hz Hc).
    - unfold zero_reference_fault. unfold number in Hc.
      destruct (as_num close_price); congruence. }
  split; [|split; [|split]].
  - rewrite (process_event_bar s event ticker close_price volume k Hbar Hkey), Hprev.
    rewrite (on_known_ticker_nonpositive s ticker close_price volume k prev_close p Hp Hle).
    destruct (number close_price) as [c|e]; [|done].
    destruct (percent_change c p) as [pct|e]; [|done].
    destruct (number volume) as [v|e]; [|done].
    by destruct (py_add _ v) as [V|e].
  - rewrite (process_event_bar s event ticker close_price volume k Hbar Hkey), Hprev.
    rewrite (on_known_ticker_nonpositive s ticker close_price volume k prev_close p Hp Hle).
    destruct (number close_price) as [c|e]; [|done].
    destruct (percent_change c p) as [pct|e]; [|done].
    destruct (number volume) as [v|e]; [|done].
    by destruct (py_add _ v) as [V|e].
  - intros Hneg.
    rewrite (process_event_bar s event ticker close_price volume k Hbar Hkey), Hprev.
    rewrite (on_known_ticker_nonpositive s ticker close_price volume k prev_close p Hp Hle).
    destruct (number close_price) as [c|e] eqn:Hc;
      [|rewrite (number_raise _ _ Hc); done].
    destruct (percent_change c p) as [pct|e] eqn:Hpct;
      [|rewrite (percent_change_negative_raise c p _ Hneg Hpct); done].
    destruct (number volume) as [v|e] eqn:Hv;
      [|rewrite (number_raise _ _ Hv); done].
    destruct (py_add _ v) as [V|e] eqn:HV; [done|].
    by rewrite (py_add_raise _ _ _ HV).
  - intros Hz. split; [by apply Hfault|]. split.
    + intros c Hc Hconv. unfold zero_reference_fault.
      unfold number in Hc. destruct (as_num close_price) as [c'|]; [|done].
      injection Hc as ->. rewrite Hconv. by destruct c, p.
    + intros POLYGON_WS_URL POLYGON_API_KEY w s0 pre before after rest s1
        Hconn Hframes Hpre Hbefore.
      apply (stream_stops POLYGON_WS_URL POLYGON_API_KEY w s0 pre
               (WellFormed (JArr (before ++ event :: after))) rest s1); try done.
      unfold process_message. cbn [loads]. rewrite run_lift_ret.
      cbn [py_iter]. rewrite run_lift_ret.
      by rewrite for_each_app, Hbefore, for_each_cons, (Hfault Hz).
Qed.

(** A previous close of -1: a bar at 5 with 3,000,000 shares stores the
    volume and nothing else. *)
Lemma nonpositive_reference_never_alerts_witness :
  gainers (snd (process_event (bar (JStr "X") (JInt 5) (JInt 3000000))
                  negative_reference_state)) = ∅ /\
  fst (process_event (bar (JStr "X") (JInt 5) (JInt 3000000))
         negative_reference_state) <> Raise ZeroDivisionError.
Proof.
  pose proof (nonpositive_reference_never_alerts negative_reference_state
                (bar (JStr "X") (JInt 5) (JInt 3000000))
                (JStr "X") (JInt 5) (JInt 3000000) (KStr "X") (JInt (-1)) (PyInt (-1))
                (is_bar_bar _ _ _) eq_refl eq_refl eq_refl eq_refl)
    as (Hg & _ & Hneg & _).
  split; [exact Hg | exact (Hneg eq_refl)].
Defined.

(** C2 as stated fails at P = 0: the division is reached and raises
    [ZeroDivisionError], for an integer and for a float zero; in the
    stream this ends the loop, and the good message behind the bar is
    not processed. *)
Lemma zero_reference_raises_division_fault :
  py_le (PyInt 0) (PyInt 0) = true /\
  process_event (bar (JStr "X") (JInt 5) (JInt 3000000)) zero_reference_state
    = (Raise ZeroDivisionError, zero_reference_state) /\
  percent_change (PyInt 5) (PyInt 0) = Raise ZeroDivisionError /\
  percent_change (PyFloat (dec 55 1)) (PyFloat (S754_zero false))
    = Raise ZeroDivisionError /\
  stream "wss://feed" "key"
    (world_of [WellFormed (JArr [bar (JStr "X") (JInt 5) (JInt 3000000)]); good_message])
    zero_reference_state
    = (Ret tt, say (handshake "wss://feed" "key" ++ [PrintUnexpected ZeroDivisionError])
                 zero_reference_state).
Proof. repeat split; vm_compute; reflexivity. Qed.

(** ** The invariant of the alert store *)

Lemma qualifies_true pct V c :
  qualifies pct V c = true ->
  py_ge pct (PyInt 5) = true /\ py_ge V (PyInt 2000000) = true /\
  py_ge c (PyInt 3) = true.
Proof. unfold qualifies. by intros [[??]%andb_true_iff ?]%andb_true_iff. Qed.

Lemma step_gainers_ok s s' : gainers_ok s -> step s s' -> gainers_ok s'.
Proof.
  assert (forall k c pct V, is_Some (yesterday_close s !! k) ->
            qualifies pct V c = true -> gainers_ok s ->
            gainers_ok (record_gainer k c pct V s)) as Hgainer.
  { intros k c pct V Hk Hq Hok k' g.
    unfold record_gainer. cbn [gainers yesterday_close running_volume].
    destruct (decide (k = k')) as [->|Hne].
    - rewrite !lookup_insert_eq. intros [= <-]. cbn [pct_change volume price].
      destruct (qualifies_true _ _ _ Hq) as (? & ? & ?). by repeat split.
    - rewrite !lookup_insert_ne by done. apply Hok. }
  intros Hok [|k V Hk|k ticker close_price c pct V Hkey Hk Hq|k c pct V Hk Hq]; [done| | |].
  - intros k' g Hg. destruct (Hok k' g Hg) as (? & ? & ? & ? & Hrv).
    repeat split; try done. cbn.
    destruct (decide (k = k')) as [->|Hne];
      [by rewrite lookup_insert_eq | by rewrite lookup_insert_ne].
  - rewrite record_alert_say. by apply Hgainer.
  - by apply Hgainer.
Qed.

Lemma say_gainers_ok outs s : gainers_ok s -> gainers_ok (say outs s).
Proof. done. Qed.

Lemma absorb_run stock s r s' :
  absorb stock s = (r, s') -> s' = s \/ exists k c, s' = record_close k c s.
Proof.
  unfold absorb.
  destruct (py_getitem stock "c") as [c|e];
    [rewrite run_lift_ret | rewrite run_lift_raise; intros [= <- <-]; by left].
  destruct (py_getitem stock "T") as [t|e];
    [rewrite run_lift_ret | rewrite run_lift_raise; intros [= <- <-]; by left].
  destruct (key_of t) as [k|e];
    [rewrite run_lift_ret | rewrite run_lift_raise; intros [= <- <-]; by left].
  intros [= <- <-]. right. by exists k, c.
Qed.

Lemma record_close_gainers_ok k c s : gainers_ok s -> gainers_ok (record_close k c s).
Proof.
  intros Hok k' g Hg. destruct (Hok k' g Hg) as (? & ? & ? & Hyc & ?).
  repeat split; try done. cbn.
  destruct (decide (k = k')) as [->|Hne];
    [by rewrite lookup_insert_eq | by rewrite lookup_insert_ne].
Qed.

(** The population phase keeps a state property that storing a
    reference price and printing keep. *)
Section Population.

Variable P : state -> Prop.
Hypothesis P_close : forall k c s, P s -> P (record_close k c s).
Hypothesis P_say : forall outs s, P s -> P (say outs s).
Variable POLYGON_API_KEY : string.

Lemma for_each_absorb_keeps stocks s r s' :
  P s -> for_each stocks absorb s = (r, s') -> P s'.
Proof using P_close.
  revert s. induction stocks as [|stock stocks IH]; intros s HP.
  - by intros [= <- <-].
  - rewrite for_each_cons.
    destruct (absorb stock s) as [[[]|e] s1] eqn:Hstock;
      destruct (absorb_run _ _ _ _ Hstock) as [->|(k & c & ->)].
    + by apply IH.
    + apply IH. by apply P_close.
    + by intros [= <- <-].
    + intros [= <- <-]. by apply P_close.
Qed.

Lemma fetch_keeps w s :
  P s -> P (snd (fetch_yesterday_closes POLYGON_API_KEY w s)).
Proof using P_close P_say.
  intros HP. rewrite fetch_run.
  destruct (get_last_trading_day (today w)) as [day|e]; [|by apply P_say].
  cbn zeta.
  destruct (http w) as [response|e]; [|by apply P_say].
  destruct (negb (status response =? 200)); [by apply P_say, P_say|].
  destruct (loads (body response)) as [data|e]; [|by apply P_say].
  destruct (py_get data "results") as [results|e]; [|by apply P_say].
  destruct (py_iter (default (JArr []) results)) as [stocks|e]; [|by apply P_say].
  destruct (for_each stocks absorb _) as [[[]|e] s2] eqn:Hrun.
  - apply P_say. eapply for_each_absorb_keeps; [|exact Hrun]. by apply P_say.
  - eapply for_each_absorb_keeps; [|exact Hrun]. by apply P_say.
Qed.

End Population.

(** C10: every record in [gainers] met the three thresholds when it was
    written and its ticker is a key of [yesterday_close] and of
    [running_volume]; each step of the pipeline (an event, a message,
    the receive loop, the stream, the population phase, the whole run)
    keeps this, whether it returns or raises. *)
Theorem alerts_meet_thresholds POLYGON_WS_URL POLYGON_API_KEY w s :
  gainers_ok s ->
  (forall event, gainers_ok (snd (process_event event s))) /\
  (forall msg, gainers_ok (snd (process_message msg s))) /\
  (forall frames fin, gainers_ok (snd (receive frames fin s))) /\
  gainers_ok (snd (stream POLYGON_WS_URL POLYGON_API_KEY w s)) /\
  gainers_ok (snd (fetch_yesterday_closes POLYGON_API_KEY w s)) /\
  gainers_ok (snd (main POLYGON_WS_URL POLYGON_API_KEY w s)).
Proof.
  intros Hok.
  assert (forall frames fin s0, gainers_ok s0 ->
            gainers_ok (snd (receive frames fin s0))) as Hrecv.
  { intros frames fin s0 H0. destruct (receive frames fin s0) as [r s'] eqn:Hrun.
    eapply (steps_invariant gainers_ok step_gainers_ok); [exact H0|].
    by eapply receive_steps. }
  assert (forall s0, gainers_ok s0 ->
            gainers_ok (snd (stream POLYGON_WS_URL POLYGON_API_KEY w s0))) as Hstream.
  { intros s0 H0. rewrite stream_run. destruct (ws_connect w) as [[]|e]; [|done].
    specialize (Hrecv (ws_frames w) (ws_closing w)
                  (say (handshake POLYGON_WS_URL POLYGON_API_KEY) s0)
                  (say_gainers_ok _ _ H0)).
    destruct (receive _ _ _) as [[[]|e] s']; exact Hrecv. }
  pose proof (fetch_keeps gainers_ok record_close_gainers_ok say_gainers_ok
                POLYGON_API_KEY w s Hok) as Hfetch.
  split; [|split; [|split; [|split; [|split]]]].
  - intros event. destruct (process_event event s) as [r s'] eqn:Hrun.
    eapply step_gainers_ok; [exact Hok | by eapply process_event_step].
  - intros msg. destruct (process_message msg s) as [r s'] eqn:Hrun.
    eapply (steps_invariant gainers_ok step_gainers_ok); [exact Hok|].
    by eapply process_message_steps.
  - intros frames fin. by apply Hrecv.
  - by apply Hstream.
  - exact Hfetch.
  - rewrite main_run.
    destruct (fetch_yesterday_closes POLYGON_API_KEY w s) as [[[]|e] s1]; [|done].
    cbn [snd] in Hfetch.
    destruct (bool_decide (yesterday_close s1 = ∅)); [done | by apply Hstream].
Qed.

(** The whole first scenario, from the empty state: one alert is stored,
    and it meets the thresholds. *)
Lemma alerts_meet_thresholds_witness :
  gainers_ok init_state /\
  gainers (snd (main "wss://feed" "key" scenario_world init_state)) !! KStr "AAPL"
    = Some (Gainer (PyInt 107) (PyFloat (fmul (dec 7 2) (round_Z 100))) (PyInt 2100000)) /\
  gainers_ok (snd (main "wss://feed" "key" scenario_world init_state)).
Proof.
  assert (gainers_ok init_state) as Hinit     by (intros k g Hg; unfold init_state in Hg; cbn [gainers] in Hg;
        by rewrite lookup_empty in Hg).
  split; [exact Hinit|]. split; [vm_compute; reflexivity|].
  exact (proj2 (proj2 (proj2 (proj2 (proj2
           (alerts_meet_thresholds "wss://feed" "key" scenario_world init_state Hinit)))))).
Defined.

(** ** Alerts are overwritten *)

Lemma filter_key_absent {A} (l : list (pykey * A)) k :
  k ∉ l.*1 -> filter (fun kv => kv.1 = k) l = [].
Proof.
  induction l as [|[k' y] l IH]; [done|].
  cbn [fmap list_fmap fst]. intros [Hne Hnotin]%not_elem_of_cons.
  rewrite filter_cons_False by (cbn; congruence). by apply IH.
Qed.

Lemma filter_key_unique {A} (l : list (pykey * A)) k x :
  NoDup (l.*1) -> (k, x) ∈ l -> filter (fun kv => kv.1 = k) l = [(k, x)].
Proof.
  induction l as [|[k' y] l IH]; cbn [fmap list_fmap fst].
  - by intros _ ?%elem_of_nil.
  - intros [Hnotin Hnodup]%NoDup_cons [[= <- <-]|Hin]%elem_of_cons.
    + rewrite filter_cons_True by done. f_equal. by apply filter_key_absent.
    + rewrite filter_cons_False; [by apply IH|].
      cbn. intros ->. apply Hnotin, list_elem_of_fmap. by exists (k, x).
Qed.

Lemma records_for_lookup k m g : m !! k = Some g -> records_for k m = [(k, g)].
Proof.
  intros Hk. apply filter_key_unique.
  - apply NoDup_fst_map_to_list.
  - by apply elem_of_map_to_list.
Qed.

(** A qualifying bar writes its record, whether or not its line is
    then printed. *)
Lemma qualifying_run s event k rec :
  qualifying s event k rec ->
  gainers (snd (process_event event s)) = <[k := rec]> (gainers s).
Proof.
  intros (ticker & close_price & vol & prev_close & p & v &
          Hbar & Hkey & Hprev & Hc & Hp & Hv & Hpct & HV & H5 & H2M & H3).
  rewrite (process_event_bar s event ticker close_price vol k Hbar Hkey), Hprev.
  rewrite (on_known_ticker_returns s ticker close_price vol k prev_close
             (price rec) p (pct_change rec) v (volume rec)) by done.
  unfold bar_result, qualifies, MIN_PCT_CHANGE, MIN_VOLUME, MIN_PRICE.
  rewrite H5, H2M, H3. cbn [andb].
  destruct rec as [c pct V]. cbn [price pct_change volume].
  by destruct (alert_line _ _ _ _ _) as [[]|e].
Qed.

(** C6: when a ticker that already has a record in [gainers] qualifies
    again (a first qualifying bar, then any events, then a second
    qualifying bar), [gainers] afterwards holds exactly one record under
    the ticker, the record of the latest qualification; the store has not
    grown, and the other tickers' records are as they were. *)
Theorem latest_alert_overwrites s0 first rec1 between r s2 second rec2 k :
  qualifying s0 first k rec1 ->
  for_each between process_event (snd (process_event first s0)) = (r, s2) ->
  qualifying s2 second k rec2 ->
  gainers (snd (process_event first s0)) !! k = Some rec1 /\
  gainers (snd (process_event second s2)) !! k = Some rec2 /\
  records_for k (gainers (snd (process_event second s2))) = [(k, rec2)] /\
  size (gainers (snd (process_event second s2))) = size (gainers s2) /\
  (forall k', k' <> k ->
     gainers (snd (process_event second s2)) !! k' = gainers s2 !! k').
Proof.
  intros H1 Hbetween H2.
  pose proof (qualifying_run _ _ _ _ H1) as Hrun1.
  pose proof (qualifying_run _ _ _ _ H2) as Hrun2.
  assert (is_Some (gainers s2 !! k)) as [old Hold].
  { apply for_each_steps in Hbetween.
    eapply (steps_invariant (fun s => is_Some (gainers s !! k))); [| |exact Hbetween].
    - intros s s' Hs [|k' V _|k' ticker close_price c pct V _ _ _|k' c pct V _ _];
        [done|done| |]; unfold record_alert, record_gainer; cbn [gainers];
        by apply lookup_insert_is_Some', or_intror.
    - by rewrite Hrun1, lookup_insert_eq. }
  rewrite Hrun1, Hrun2.
  split; [by rewrite lookup_insert_eq|].
  split; [by rewrite lookup_insert_eq|].
  split; [apply records_for_lookup; by rewrite lookup_insert_eq|].
  split; [by eapply map_size_insert_Some|].
  intros k' Hne. by rewrite lookup_insert_ne.
Qed.

(** The first scenario continued: AAPL alerts at 107 and again at 108;
    one record remains, the one written at 108. *)
Lemma latest_alert_overwrites_witness :
  let rec2 := Gainer (PyInt 108) (PyFloat (fmul (dec 8 2) (round_Z 100))) (PyInt 2700000) in
  let s2 := snd (process_event (bar (JStr "AAPL") (JInt 107) (JInt 600000)) aapl_state) in
  let s3 := snd (process_event (bar (JStr "AAPL") (JInt 108) (JInt 600000)) s2) in
  gainers s3 !! KStr "AAPL" = Some rec2 /\
  records_for (KStr "AAPL") (gainers s3) = [(KStr "AAPL", rec2)] /\
  size (gainers s3) = size (gainers s2).
Proof.
  intros rec2 s2 s3.
  assert (qualifying aapl_state (bar (JStr "AAPL") (JInt 107) (JInt 600000)) (KStr "AAPL")
            (Gainer (PyInt 107) (PyFloat (fmul (dec 7 2) (round_Z 100))) (PyInt 2100000)))
    as H1.
  { exists (JStr "AAPL"), (JInt 107), (JInt 600000), (JInt 100), (PyInt 100), (PyInt 600000).
    split; [apply is_bar_bar|]. repeat split; vm_compute; reflexivity. }
  assert (qualifying s2 (bar (JStr "AAPL") (JInt 108) (JInt 600000)) (KStr "AAPL") rec2)
    as H2.
  { exists (JStr "AAPL"), (JInt 108), (JInt 600000), (JInt 100), (PyInt 100), (PyInt 600000).
    split; [apply is_bar_bar|]. repeat split; vm_compute; reflexivity. }
  destruct (latest_alert_overwrites aapl_state _ _ [] (Ret tt) s2 _ rec2 (KStr "AAPL")
              H1 eq_refl H2) as (_ & Hk & Hrec & Hsize & _).
  exact (conj Hk (conj Hrec Hsize)).
Defined.

(** ** The running volume is cumulative *)

(** What [bar_result] leaves of the state, however the print ends. *)
Lemma bar_result_fields k ticker close_price c pct V s r s' :
  bar_result k ticker close_price c pct V s = (r, s') ->
  yesterday_close s' = yesterday_close s /\
  running_volume s' = <[k := V]> (running_volume s) /\
  stdout_unicode s' = stdout_unicode s.
Proof.
  intros [(_ & _ & ->)|[(_ & _ & _ & ->)|(_ & e & _ & _ & ->)]]%bar_result_cases; done.
Qed.

(** The known-ticker branch either raises and changes nothing, or
    every operation before the alert returns. *)
Lemma on_known_ticker_cases s ticker close_price vol k prev_close r s' :
  on_known_ticker ticker close_price vol k prev_close s = (r, s') ->
  (exists e, r = Raise e /\ s' = s) \/
  (exists c p pct v V,
     number close_price = Ret c /\
     number prev_close = Ret p /\
     percent_change c p = Ret pct /\
     number vol = Ret v /\
     py_add (default (PyInt 0) (running_volume s !! k)) v = Ret V /\
     bar_result k ticker close_price c pct V s = (r, s')).
Proof.
  destruct (number close_price) as [c|e] eqn:Hc; cycle 1.
  { unfold on_known_ticker. rewrite Hc, run_lift_raise. intros [= <- <-]. left. eauto. }
  destruct (number prev_close) as [p|e] eqn:Hp; cycle 1.
  { unfold on_known_ticker. rewrite Hc, run_lift_ret, Hp, run_lift_raise.
    intros [= <- <-]. left. eauto. }
  destruct (percent_change c p) as [pct|e] eqn:Hpct; cycle 1.
  { unfold on_known_ticker. rewrite Hc, run_lift_ret, Hp, run_lift_ret, Hpct, run_lift_raise.
    intros [= <- <-]. left. eauto. }
  destruct (number vol) as [v|e] eqn:Hv; cycle 1.
  { unfold on_known_ticker. rewrite Hc, run_lift_ret, Hp, run_lift_ret, Hpct, run_lift_ret.
    rewrite run_bind. cbn [get_state]. rewrite Hv, run_lift_raise.
    intros [= <- <-]. left. eauto. }
  destruct (py_add (default (PyInt 0) (running_volume s !! k)) v) as [V|e] eqn:HV; cycle 1.
  { unfold on_known_ticker. rewrite Hc, run_lift_ret, Hp, run_lift_ret, Hpct, run_lift_ret.
    rewrite run_bind. cbn [get_state]. rewrite Hv, run_lift_ret, HV, run_lift_raise.
    intros [= <- <-]. left. eauto. }
  rewrite (on_known_ticker_returns s ticker close_price vol k prev_close c p pct v V)
    by done.
  intros Hres. right. exists c, p, pct, v, V. by repeat split.
Qed.

(** An event that contributes no volume to [k] leaves [k]'s running
    volume alone. *)
Lemma process_event_other_volume k event s r s' :
  volume_for k event = None ->
  process_event event s = (r, s') ->
  running_volume s' !! k = running_volume s !! k.
Proof.
  unfold volume_for, process_event.
  destruct (py_get event "ev") as [ev|e];
    [rewrite run_lift_ret | rewrite run_lift_raise; by intros _ [= <- <-]].
  destruct (eq_str ev "AM"); [|by intros _ [= <- <-]].
  destruct (py_getitem event "T") as [ticker|e];
    [rewrite run_lift_ret | rewrite run_lift_raise; by intros _ [= <- <-]].
  destruct (py_getitem event "c") as [close_price|e];
    [rewrite run_lift_ret | rewrite run_lift_raise; by intros _ [= <- <-]].
  destruct (py_getitem event "v") as [vol|e];
    [rewrite run_lift_ret | rewrite run_lift_raise; by intros _ [= <- <-]].
  destruct (key_of ticker) as [k'|e] eqn:Hkey;
    [rewrite run_lift_ret | rewrite run_lift_raise; by intros _ [= <- <-]].
  case_bool_decide as Hk; [done|]. intros _.
  rewrite run_bind. cbn [get_state].
  destruct (yesterday_close s !! k') as [prev_close|] eqn:Hprev; [|by intros [= <- <-]].
  intros [(e & _ & ->)|(c & p & pct & v & V & _ & _ & _ & _ & _ & Hres)]%on_known_ticker_cases;
    [done|].
  destruct (bar_result_fields _ _ _ _ _ _ _ _ _ Hres) as (_ & -> & _).
  by rewrite lookup_insert_ne.
Qed.

(** An event that contributes the volume [vol] to [k], when it is
    processed without an exception, adds [vol] to [k]'s running volume. *)
Lemma process_event_adds_volume k event vol prev_close s s' :
  volume_for k event = Some vol ->
  yesterday_close s !! k = Some prev_close ->
  process_event event s = (Ret tt, s') ->
  exists v V, number vol = Ret v /\
    py_add (default (PyInt 0) (running_volume s !! k)) v = Ret V /\
    running_volume s' !! k = Some V.
Proof.
  unfold volume_for, process_event.
  destruct (py_get event "ev") as [ev|e]; [rewrite run_lift_ret | done].
  destruct (eq_str ev "AM"); [|done].
  destruct (py_getitem event "T") as [ticker|e]; [rewrite run_lift_ret | done].
  destruct (py_getitem event "v") as [vol'|e] eqn:Hvol; [|done].
  destruct (key_of ticker) as [k'|e] eqn:Hkey; [|done].
  case_bool_decide as Hk; [subst k'|done]. intros [= ->] Hprev.
  destruct (py_getitem event "c") as [close_price|e];
    [rewrite run_lift_ret | by rewrite run_lift_raise].
  rewrite !run_lift_ret, run_bind. cbn [get_state]. rewrite Hprev.
  intros [(e & [=] & _)|(c & p & pct & v & V & _ & _ & _ & Hv & HV & Hres)]%on_known_ticker_cases.
  exists v, V. split; [done|]. split; [done|].
  destruct (bar_result_fields _ _ _ _ _ _ _ _ _ Hres) as (_ & -> & _).
  by rewrite lookup_insert_eq.
Qed.

Lemma volumes_for_cons k event events :
  volumes_for k (event :: events) =
  match volume_for k event with
  | Some v => v :: volumes_for k events
  | None => volumes_for k events
  end.
Proof. reflexivity. Qed.

Lemma volumes_for_app k events1 events2 :
  volumes_for k (events1 ++ events2) = volumes_for k events1 ++ volumes_for k events2.
Proof. apply omap_app. Qed.

Lemma py_sum_app acc vs ws :
  py_sum acc (vs ++ ws) = rbind (py_sum acc vs) (fun acc' => py_sum acc' ws).
Proof.
  revert acc. induction vs as [|v vs IH]; intros acc; [done|].
  cbn [app py_sum]. destruct (number v) as [n|e]; [|done]. cbn [rbind].
  destruct (py_add acc n) as [acc'|e]; [|done]. cbn [rbind]. apply IH.
Qed.

(** Integer volumes add up exactly. *)
Lemma py_sum_ints acc zs :
  py_sum (PyInt acc) (map JInt zs) = Ret (PyInt (acc + foldr Z.add 0 zs)).
Proof.
  revert acc. induction zs as [|z zs IH]; intros acc; cbn [map py_sum foldr].
  - by rewrite Z.add_0_r.
  - cbn [number as_num py_add rbind]. rewrite IH. do 2 f_equal. lia.
Qed.

Lemma running_volume_sum k prev_close events s s' :
  yesterday_close s !! k = Some prev_close ->
  for_each events process_event s = (Ret tt, s') ->
  py_sum (default (PyInt 0) (running_volume s !! k)) (volumes_for k events)
    = Ret (default (PyInt 0) (running_volume s' !! k)).
Proof.
  revert s. induction events as [|event events IH]; intros s Hprev.
  - by intros [= <-].
  - rewrite for_each_cons, volumes_for_cons.
    destruct (process_event event s) as [[[]|e] s1] eqn:Hev; [|done].
    intros Hrest.
    assert (yesterday_close s1 !! k = Some prev_close) as Hprev1.
    { rewrite (step_yesterday_close s s1); [done | by eapply process_event_step]. }
    specialize (IH s1 Hprev1 Hrest).
    destruct (volume_for k event) as [vol|] eqn:Hvol.
    + destruct (process_event_adds_volume k event vol prev_close s s1 Hvol Hprev Hev)
        as (v & V & Hv & HV & Hk1).
      cbn [py_sum]. rewrite Hv. cbn [rbind]. rewrite HV. cbn [rbind].
      by rewrite Hk1 in IH.
    + by rewrite <- (process_event_other_volume k event s _ s1 Hvol Hev).
Qed.

Lemma volume_for_bar k event ticker close_price vol :
  is_bar event ticker close_price vol ->
  key_of ticker = Ret k ->
  volume_for k event = Some vol.
Proof.
  intros (Hev & HT & _ & Hv) Hkey. unfold volume_for.
  rewrite Hev. cbn [eq_str String.eqb Ascii.eqb Bool.eqb].
  rewrite HT, Hv, Hkey. by rewrite bool_decide_eq_true_2.
Qed.

(** C5: over any events processed without an exception, the running
    volume of a ticker with a reference price is its earlier value plus
    the volumes of the ticker's bars, added in order (for integer
    volumes: the integer sum); and a further bar of the ticker is tested
    against the sum through that bar, not against the bar's own volume
    (its record is written before its line is printed, and is stored
    also when the print raises). *)
Theorem running_volume_is_cumulative s k prev_close events s' :
  yesterday_close s !! k = Some prev_close ->
  for_each events process_event s = (Ret tt, s') ->
  py_sum (default (PyInt 0) (running_volume s !! k)) (volumes_for k events)
    = Ret (default (PyInt 0) (running_volume s' !! k)) /\
  (forall z0 zs,
     default (PyInt 0) (running_volume s !! k) = PyInt z0 ->
     volumes_for k events = map JInt zs ->
     default (PyInt 0) (running_volume s' !! k) = PyInt (z0 + foldr Z.add 0 zs)) /\
  (forall last ticker close_price vol c p pct total,
     is_bar last ticker close_price vol ->
     key_of ticker = Ret k ->
     number close_price = Ret c ->
     number prev_close = Ret p ->
     percent_change c p = Ret pct ->
     py_sum (default (PyInt 0) (running_volume s !! k))
            (volumes_for k (events ++ [last])) = Ret total ->
     process_event last s' =
       if py_ge pct (PyInt 5) && py_ge total (PyInt 2000000) && py_ge c (PyInt 3)
       then match alert_line ticker pct close_price total s' with
            | Ret _ => (Ret tt, record_alert k ticker close_price c pct total s')
            | Raise e => (Raise e, record_gainer k c pct total s')
            end
       else (Ret tt, record_volume k total s')).
Proof.
  intros Hprev Hrun.
  pose proof (running_volume_sum k prev_close events s s' Hprev Hrun) as Hsum.
  split; [exact Hsum|]. split.
  - intros z0 zs Hz0 Hzs. rewrite Hz0, Hzs, py_sum_ints in Hsum. congruence.
  - intros last ticker close_price vol c p pct total Hbar Hkey Hc Hp Hpct Htotal.
    rewrite volumes_for_app, py_sum_app, Hsum in Htotal.
    cbn [volumes_for omap list_omap] in Htotal.
    rewrite (volume_for_bar k last ticker close_price vol Hbar Hkey) in Htotal.
    cbn [rbind py_sum app] in Htotal.
    destruct (number vol) as [v|e] eqn:Hv; [|done]. cbn [rbind] in Htotal.
    destruct (py_add _ v) as [V|e] eqn:HV; [|done]. cbn [rbind] in Htotal.
    injection Htotal as ->.
    rewrite (process_event_bar s' last ticker close_price vol k Hbar Hkey).
    rewrite (steps_frame yesterday_close step_yesterday_close s s'), Hprev
      by by eapply for_each_steps.
    by apply (on_known_ticker_returns s' ticker close_price vol k prev_close c p pct v total).
Qed.

(** The first scenario: after the bar of 1,500,000 (and a bar of another
    ticker) the running volume of AAPL is 1,500,000; the bar of 600,000
    is tested against 2,100,000 and alerts. *)
Lemma running_volume_is_cumulative_witness :
  let events := [bar (JStr "AAPL") (JInt 106) (JInt 1500000);
                 bar (JStr "XYZ") (JFloat (dec 25 1)) (JInt 5000000)] in
  let s' := snd (for_each events process_event opening_state) in
  running_volume s' !! KStr "AAPL" = Some (PyInt 1500000) /\
  default (PyInt 0) (running_volume s' !! KStr "AAPL") = PyInt (0 + (1500000 + 0)) /\
  process_event (bar (JStr "AAPL") (JInt 107) (JInt 600000)) s' =
    (Ret tt, record_alert (KStr "AAPL") (JStr "AAPL") (JInt 107) (PyInt 107)
               (PyFloat (fmul (dec 7 2) (round_Z 100))) (PyInt 2100000) s').
Proof.
  intros events s'.
  destruct (running_volume_is_cumulative opening_state (KStr "AAPL") (JInt 100) events s'
              eq_refl eq_refl) as (_ & Hints & Hlast).
  split; [reflexivity|]. split.
  - exact (Hints 0 [1500000] eq_refl eq_refl).
  - exact (Hlast (bar (JStr "AAPL") (JInt 107) (JInt 600000)) (JStr "AAPL") (JInt 107)
             (JInt 600000) (PyInt 107) (PyInt 100) (PyFloat (fmul (dec 7 2) (round_Z 100)))
             (PyInt 2100000) (is_bar_bar _ _ _) eq_refl eq_refl eq_refl eq_refl eq_refl).
Defined.

(** ** The population phase and the gate *)

Lemma for_each_absorb_trace stocks s r s' :
  for_each stocks absorb s = (r, s') -> trace s' = trace s.
Proof.
  apply (for_each_absorb_keeps (fun s0 => trace s0 = trace s)); done.
Qed.

(** C8: on a status other than 200 the population phase sends its one
    request, prints the error and returns, leaving [yesterday_close] as
    it was (empty, at startup); and whenever the population phase
    returns with [yesterday_close] empty, [main] prints the shutdown
    line and returns without touching the stream: what the whole run
    has shown is not stream output. *)
Theorem failed_population_never_streams POLYGON_WS_URL POLYGON_API_KEY w s :
  (forall day response,
     get_last_trading_day (today w) = Ret day ->
     http w = Ret response ->
     status response <> 200 ->
     fetch_yesterday_closes POLYGON_API_KEY w s =
       (Ret tt, say [PrintFetching; HttpGet (request_url POLYGON_API_KEY day);
                     PrintFetchError (status response)] s)) /\
  (forall s1,
     fetch_yesterday_closes POLYGON_API_KEY w s = (Ret tt, s1) ->
     yesterday_close s1 = ∅ ->
     main POLYGON_WS_URL POLYGON_API_KEY w s = (Ret tt, say [PrintShutdown] s1) /\
     exists outs, trace s1 = trace s ++ outs /\
       forallb (fun o => negb (is_stream_output o)) (outs ++ [PrintShutdown]) = true).
Proof.
  split.
  - intros day response Hday Hhttp Hstatus.
    rewrite fetch_run, Hday. cbn zeta. rewrite Hhttp.
    destruct (Z.eqb_spec (status response) 200) as [|_]; [done|].
    cbn [negb]. by rewrite say_app.
  - intros s1 Hfetch Hempty. split.
    + rewrite main_run, Hfetch. by rewrite bool_decide_eq_true_2.
    + clear Hempty. revert Hfetch. rewrite fetch_run.
      destruct (get_last_trading_day (today w)) as [day|e]; [|done]. cbn zeta.
      destruct (http w) as [response|e]; [|done].
      destruct (negb (status response =? 200)).
      { intros [= <-]. rewrite say_app. by eexists. }
      destruct (loads (body response)) as [data|e]; [|done].
      destruct (py_get data "results") as [results|e]; [|done].
      destruct (py_iter (default (JArr []) results)) as [stocks|e]; [|done].
      destruct (for_each stocks absorb _) as [[[]|e] s2] eqn:Hrun; [|done].
      intros [= <-]. apply for_each_absorb_trace in Hrun. cbn [say trace] in *.
      rewrite Hrun, <- app_assoc. by eexists.
Qed.

Lemma failed_population_never_streams_witness :
  main "wss://feed" "key" failing_world init_state =
    (Ret tt,
     say [PrintFetching; HttpGet (request_url "key" "2026-11-03");
          PrintFetchError 500; PrintShutdown] init_state) /\
  yesterday_close (snd (main "wss://feed" "key" failing_world init_state)) = ∅.
Proof.
  destruct (failed_population_never_streams "wss://feed" "key" failing_world init_state)
    as [Hfail Hgate].
  specialize (Hfail "2026-11-03"%string (Response 500 (Malformed "Internal Server Error"))
                eq_refl eq_refl ltac:(done)).
  destruct (Hgate _ Hfail eq_refl) as [Hmain _].
  rewrite Hmain. split; reflexivity.
Defined.

(** ** Calendar arithmetic *)

Lemma is_leap_mod4 y : is_leap y = true -> y mod 4 = 0.
Proof. unfold is_leap. intros [H _]%andb_true_iff. by apply Z.eqb_eq. Qed.

(** A valid date has an ordinal between 1 and [MAXORDINAL]. *)
Lemma toordinal_range d : valid_date d -> 1 <= toordinal d <= MAXORDINAL.
Proof.
  destruct d as [y m dd]. intros (Hy & Hm & Hd).
  unfold toordinal, ymd2ord, days_before_year, days_before_month, days_in_month,
    MAXORDINAL in *.
  cbn [year month day] in *.
  assert (m = 1 \/ m = 2 \/ m = 3 \/ m = 4 \/ m = 5 \/ m = 6 \/ m = 7 \/ m = 8 \/
          m = 9 \/ m = 10 \/ m = 11 \/ m = 12) as Hcases by lia.
  destruct (is_leap y) eqn:Hleap; [apply is_leap_mod4 in Hleap|clear Hleap];
    destruct Hcases as [->|[->|[->|[->|[->|[->|[->|[->|[->|[->|[->| ->]]]]]]]]]]];
    cbn in Hd |- *; Z.div_mod_to_equations; lia.
Qed.

(** The year [400 a + 100 b + 4 c + d + 1], counted in cycles of 400,
    100, 4 and 1 years. *)
Lemma days_before_year_split a b c d :
  0 <= a -> 0 <= b <= 3 -> 0 <= c <= 24 -> 0 <= d <= 3 ->
  days_before_year (400 * a + 100 * b + 4 * c + d + 1) =
    146097 * a + 36524 * b + 1461 * c + 365 * d.
Proof.
  intros Ha Hb Hc Hd. unfold days_before_year.
  replace (400 * a + 100 * b + 4 * c + d + 1 - 1)
    with (400 * a + 100 * b + 4 * c + d) by lia.
  Z.div_mod_to_equations; lia.
Qed.

Lemma is_leap_split a b c d :
  0 <= a -> 0 <= b <= 3 -> 0 <= c <= 24 -> 0 <= d <= 3 ->
  is_leap (400 * a + 100 * b + 4 * c + d + 1) =
    (d =? 3) && (negb (c =? 24) || (b =? 3)).
Proof.
  intros Ha Hb Hc Hd. unfold is_leap.
  repeat match goal with
         | |- context [?x =? ?y] => destruct (Z.eqb_spec x y)
         end; cbn [andb orb negb]; try reflexivity;
    exfalso; Z.div_mod_to_equations; lia.
Qed.

Lemma month_day_ok_all leap : forallb (month_day_ok leap) (seq 0 365) = true.
Proof. destruct leap; vm_compute; reflexivity. Qed.

Lemma month_day_fields y leap n :
  year (month_day y leap n) = y /\
  month (month_day y leap n) = month (month_day 0 leap n) /\
  day (month_day y leap n) = day (month_day 0 leap n).
Proof. unfold month_day. by destruct (n <? _). Qed.

Lemma month_day_spec y n :
  0 <= n < 365 ->
  year (month_day y (is_leap y) n) = y /\
  1 <= month (month_day y (is_leap y) n) <= 12 /\
  1 <= day (month_day y (is_leap y) n)
    <= days_in_month y (month (month_day y (is_leap y) n)) /\
  days_before_month y (month (month_day y (is_leap y) n))
    + day (month_day y (is_leap y) n) = n + 1.
Proof.
  intros Hn.
  destruct (month_day_fields y (is_leap y) n) as (-> & -> & ->). split; [done|].
  pose proof (month_day_ok_all (is_leap y)) as Hall.
  rewrite forallb_forall in Hall.
  specialize (Hall (Z.to_nat n) ltac:(apply in_seq; lia)).
  unfold month_day_ok in Hall. rewrite Z2Nat.id in Hall by lia.
  unfold days_in_month, days_before_month in *.
  destruct (is_leap y); change (is_leap 4) with true in Hall;
    change (is_leap 1) with false in Hall;
    apply andb_true_iff in Hall as [[[[H1 H2]%andb_true_iff H3]%andb_true_iff
                                      H4]%andb_true_iff H5]; lia.
Qed.

(** [fromordinal] inverts [toordinal]. *)
Lemma fromordinal_spec n :
  1 <= n <= MAXORDINAL ->
  valid_date (fromordinal n) /\ toordinal (fromordinal n) = n.
Proof.
  unfold MAXORDINAL. intros Hn. unfold fromordinal, ord2ymd, DI400Y, DI100Y, DI4Y.
  set (n0 := n - 1).
  set (a := n0 / 146097). set (r400 := n0 mod 146097).
  set (b := r400 / 36524). set (r100 := r400 mod 36524).
  set (c := r100 / 1461). set (r4 := r100 mod 1461).
  set (d := r4 / 365). set (r1 := r4 mod 365).
  assert (n0 = 146097 * a + r400 /\ 0 <= r400 < 146097) as [Hn0 Hr400]
    by (subst a r400; split; [apply Z.div_mod; lia | apply Z.mod_pos_bound; lia]).
  assert (r400 = 36524 * b + r100 /\ 0 <= r100 < 36524) as [Hr400' Hr100]
    by (subst b r100; split; [apply Z.div_mod; lia | apply Z.mod_pos_bound; lia]).
  assert (r100 = 1461 * c + r4 /\ 0 <= r4 < 1461) as [Hr100' Hr4]
    by (subst c r4; split; [apply Z.div_mod; lia | apply Z.mod_pos_bound; lia]).
  assert (r4 = 365 * d + r1 /\ 0 <= r1 < 365) as [Hr4' Hr1]
    by (subst d r1; split; [apply Z.div_mod; lia | apply Z.mod_pos_bound; lia]).
  clearbody a r400 b r100 c r4 d r1. subst n0.
  assert (0 <= a <= 24 /\ 0 <= b <= 4 /\ 0 <= c <= 24 /\ 0 <= d <= 4)
    as (Ha & Hb & Hc & Hd) by lia.
  destruct (Z.eqb_spec d 4) as [Hd4|Hd4]; [|destruct (Z.eqb_spec b 4) as [Hb4|Hb4]];
    cbn [orb].
  - (* the last day of a four-year cycle *)
    replace (a * 400 + 1 + b * 100 + c * 4 + d - 1)
      with (400 * a + 100 * b + 4 * c + 3 + 1) by lia.
    assert (0 <= b <= 3 /\ 0 <= c <= 23) as [Hb3 Hc23] by lia.
    unfold valid_date, toordinal, ymd2ord, days_before_month, days_in_month.
    cbn [year month day].
    rewrite is_leap_split, days_before_year_split by lia.
    destruct (Z.eqb_spec c 24); [lia|]. cbn. lia.
  - (* the last day of a four-hundred-year cycle *)
    replace (a * 400 + 1 + b * 100 + c * 4 + d - 1)
      with (400 * a + 100 * 3 + 4 * 24 + 3 + 1) by lia.
    unfold valid_date, toordinal, ymd2ord, days_before_month, days_in_month.
    cbn [year month day].
    rewrite is_leap_split, days_before_year_split by lia. cbn. lia.
  - replace (a * 400 + 1 + b * 100 + c * 4 + d)
      with (400 * a + 100 * b + 4 * c + d + 1) by lia.
    set (y := 400 * a + 100 * b + 4 * c + d + 1).
    assert ((d =? 3) && (negb (c =? 24) || (b =? 3)) = is_leap y) as ->
      by (subst y; by rewrite is_leap_split by lia).
    destruct (month_day_spec y r1 Hr1) as (Hy & Hm & Hday & Hsum).
    unfold valid_date, toordinal, ymd2ord. rewrite Hy.
    split; [split; [subst y; lia | done]|].
    rewrite <- Z.add_assoc, Hsum. subst y. rewrite days_before_year_split by lia. lia.
Qed.

(** *** Reading an ISO date back *)

Lemma digit_value_digit n : digit_value (digit n) = Some (n mod 10).
Proof.
  unfold digit_value, digit.
  pose proof (Z.mod_pos_bound n 10 ltac:(lia)) as Hn.
  rewrite nat_ascii_embedding by lia.
  rewrite Nat2Z.inj_add, Z2Nat.id by lia.
  destruct (Z.leb_spec 48 (Z.of_nat 48 + n mod 10)); [|lia].
  destruct (Z.leb_spec (Z.of_nat 48 + n mod 10) 57); [|lia].
  cbn [andb]. f_equal. lia.
Qed.

Lemma read_digits2 n rest :
  0 <= n <= 99 -> read_digits 2 0 (digits2 n rest) = Some (n, rest).
Proof.
  intros Hn. unfold digits2. cbn [read_digits].
  rewrite !digit_value_digit. do 2 f_equal. Z.div_mod_to_equations; lia.
Qed.

Lemma read_digits4 n rest :
  0 <= n <= 9999 -> read_digits 4 0 (digits4 n rest) = Some (n, rest).
Proof.
  intros Hn. unfold digits4, digits2. cbn [read_digits].
  rewrite !digit_value_digit. do 2 f_equal. Z.div_mod_to_equations; lia.
Qed.

Lemma days_in_month_le y m : days_in_month y m <= 31.
Proof.
  unfold days_in_month, DAYS_IN_MONTH.
  destruct ((m =? 2) && is_leap y); [lia|].
  destruct m as [|[[[[]|[]|]|[[]|[]|]|]|[[[]|[]|]|[[]|[]|]|]|]|]; lia.
Qed.

(** From the year 1000 on, a valid date is written in the ISO form and
    read back from it. *)
Lemma parse_strftime_Ymd d :
  valid_date d -> 1000 <= year d -> parse_Ymd (strftime_Ymd d) = Some d.
Proof.
  destruct d as [y m dd]. intros (Hy & Hm & Hd) H1000. cbn [year month day] in *.
  pose proof (days_in_month_le y m).
  unfold parse_Ymd, strftime_Ymd, digits_year. cbn [year month day].
  destruct (Z.ltb_spec y 10); [lia|]. destruct (Z.ltb_spec y 100); [lia|].
  destruct (Z.ltb_spec y 1000); [lia|].
  rewrite read_digits4 by lia. rewrite read_digits2 by lia. by rewrite read_digits2 by lia.
Qed.

(** Before the year 1000 the year has fewer than four digits, and the
    text is not of the form YYYY-MM-DD. *)
Lemma parse_strftime_early d :
  valid_date d -> year d < 1000 -> parse_Ymd (strftime_Ymd d) = None.
Proof.
  destruct d as [y m dd]. intros (Hy & Hm & Hd) Hearly. cbn [year month day] in *.
  assert (digit_value "-" = None) as Hhyphen by reflexivity.
  unfold parse_Ymd, strftime_Ymd, digits_year, digits2. cbn [year month day].
  destruct (Z.ltb_spec y 10); [|destruct (Z.ltb_spec y 100); [|destruct (Z.ltb_spec y 1000); [|lia]]];
    cbn [read_digits]; rewrite ?digit_value_digit; cbn [read_digits];
    by rewrite Hhyphen.
Qed.

(** ** The last trading day *)




(** ** Every way an event can go *)

Lemma eq_str_true ev s : eq_str ev s = true -> ev = Some (JStr s).
Proof.
  destruct ev as [[]|]; try done. cbn. by intros ->%String.eqb_eq.
Qed.

(** Every way an event can go. *)
Lemma process_event_cases event s r s' :
  process_event event s = (r, s') ->
  s' = s \/
  exists ticker close_price vol k prev_close c p pct v V,
    is_bar event ticker close_price vol /\
    key_of ticker = Ret k /\
    yesterday_close s !! k = Some prev_close /\
    number close_price = Ret c /\
    number prev_close = Ret p /\
    percent_change c p = Ret pct /\
    number vol = Ret v /\
    py_add (default (PyInt 0) (running_volume s !! k)) v = Ret V /\
    bar_result k ticker close_price c pct V s = (r, s').
Proof.
  unfold process_event.
  destruct (py_get event "ev") as [ev|e] eqn:Hev;
    [rewrite run_lift_ret | rewrite run_lift_raise; intros [= <- <-]; by left].
  destruct (eq_str ev "AM") eqn:Ham; [|intros [= <- <-]; by left].
  apply eq_str_true in Ham as ->.
  destruct (py_getitem event "T") as [ticker|e] eqn:HT;
    [rewrite run_lift_ret | rewrite run_lift_raise; intros [= <- <-]; by left].
  destruct (py_getitem event "c") as [close_price|e] eqn:Hc;
    [rewrite run_lift_ret | rewrite run_lift_raise; intros [= <- <-]; by left].
  destruct (py_getitem event "v") as [vol|e] eqn:Hv;
    [rewrite run_lift_ret | rewrite run_lift_raise; intros [= <- <-]; by left].
  destruct (key_of ticker) as [k|e] eqn:Hkey;
    [rewrite run_lift_ret | rewrite run_lift_raise; intros [= <- <-]; by left].
  rewrite run_bind. cbn [get_state].
  destruct (yesterday_close s !! k) as [prev_close|] eqn:Hprev; [|intros [= <- <-]; by left].
  intros [(e & _ & ->)|(c & p & pct & v & V & ? & ? & ? & ? & ? & ?)]%on_known_ticker_cases;
    [by left|].
  right. exists ticker, close_price, vol, k, prev_close, c, p, pct, v, V.
  by repeat split.
Qed.

(** The quotient is a [float], and so is the percent change. *)
Lemma percent_change_float c p pct :
  percent_change c p = Ret pct -> exists f, pct = PyFloat f.
Proof.
  unfold percent_change.
  destruct (py_sub c p) as [d|e]; [|done]. cbn [rbind].
  assert (forall q, py_truediv d p = Ret q -> exists f, q = PyFloat f) as Hq.
  { intros q. destruct d as [x|x], p as [y|y]; unfold py_truediv.
    - destruct (y =? 0); [done|]. destruct (fdiv _ _); intros [= <-]; by eexists.
    - destruct (to_float (PyInt x)) as [fx|e]; [|done]. cbn [to_float rbind].
      destruct (is_fzero y); intros [= <-]; by eexists.
    - cbn [to_float rbind]. destruct (float_of_int y) as [fy|e]; [|done]. cbn [rbind].
      destruct (is_fzero fy); intros [= <-]; by eexists.
    - cbn [to_float rbind]. destruct (is_fzero y); intros [= <-]; by eexists. }
  destruct (py_truediv d p) as [q|e]; [|done]. cbn [rbind].
  destruct (Hq q eq_refl) as [f ->]. rewrite times_100. intros [= <-]. by eexists.
Qed.

Lemma int_str_raise z e : int_str z = Raise e -> e = ValueError.
Proof. unfold int_str. destruct (_ <? _); congruence. Qed.

(** The line of an alert whose percent change is a [float] fails only
    on an [int] with too many digits or on the encoding of the output. *)
Lemma alert_line_raise ticker f close_price V s e :
  alert_line ticker (PyFloat f) close_price V s = Raise e ->
  e = ValueError \/ e = UnicodeEncodeError.
Proof.
  unfold alert_line, alert_text, format_fixed. cbn [to_float rbind].
  destruct (format_value ticker) as [[]|e1] eqn:Ht; cbn [rbind].
  - destruct (format_value close_price) as [[]|e2] eqn:Hc; cbn [rbind].
    + destruct (format_grouped V) as [[]|e3] eqn:HV; cbn [rbind].
      * destruct (stdout_unicode s); [done|]. intros [= <-]. by right.
      * intros [= <-]. left. destruct V; [by eapply int_str_raise | done].
    + intros [= <-]. left. destruct close_price; try done. by eapply int_str_raise.
  - intros [= <-]. left. destruct ticker; try done. by eapply int_str_raise.
Qed.

(** An event that raises has written nothing, unless it is a qualifying
    bar whose line could not be printed: its volume and its record are
    then stored. *)
Lemma process_event_raise event s e s' :
  process_event event s = (Raise e, s') ->
  s' = s \/
  exists ticker close_price k c pct V,
    qualifies pct V c = true /\
    alert_line ticker pct close_price V s = Raise e /\
    (e = ValueError \/ e = UnicodeEncodeError) /\
    s' = record_gainer k c pct V s.
Proof.
  intros [->|(ticker & cp & vol & k & prev & c & p & pct & v & V &
              _ & _ & _ & _ & _ & Hpct & _ & _ & Hres)]%process_event_cases;
    [by left|].
  apply bar_result_cases in Hres
    as [(_ & [=] & _)|[(_ & _ & [=] & _)|(Hq & e' & Hline & [= <-] & ->)]].
  right. exists ticker, cp, k, c, pct, V. repeat split; try done.
  destruct (percent_change_float c p pct Hpct) as [f ->].
  by eapply alert_line_raise.
Qed.

(** X1: when the loop over the events of a message raises, the events
    before the failing one have been processed, those after it never
    are, and the failing event itself has written nothing, with one
    exception: a bar that qualifies and whose alert line cannot be
    built or written has stored its volume and its record before the
    print raised [ValueError] or [UnicodeEncodeError]. *)
Theorem failing_event_leaves events s e s' :
  for_each events process_event s = (Raise e, s') ->
  exists before bad after s1,
    events = before ++ bad :: after /\
    for_each before process_event s = (Ret tt, s1) /\
    process_event bad s1 = (Raise e, s') /\
    (s' = s1 \/
     exists ticker close_price k c pct V,
       qualifies pct V c = true /\
       alert_line ticker pct close_price V s1 = Raise e /\
       (e = ValueError \/ e = UnicodeEncodeError) /\
       s' = record_gainer k c pct V s1).
Proof.
  revert s. induction events as [|event events IH]; intros s; [done|].
  rewrite for_each_cons.
  destruct (process_event event s) as [[[]|e1] s1] eqn:Hev.
  - intros (before & bad & after & s2 & -> & Hbefore & Hbad & Hwritten)%IH.
    exists (event :: before), bad, after, s2. split; [done|].
    split; [by rewrite for_each_cons, Hev | done].
  - intros [= <- <-]. exists [], event, events, s.
    split; [done|]. split; [done|]. split; [done|].
    by apply (process_event_raise event).
Qed.

(** On an output that writes ASCII the bar at 107 of the first scenario
    stores its record and raises out of the print; the bar behind it is
    not processed. *)
Lemma failing_event_leaves_witness :
  exists before bad after s1,
    [bar (JStr "AAPL") (JInt 107) (JInt 600000);
     bar (JStr "AAPL") (JInt 108) (JInt 600000)] = before ++ bad :: after /\
    for_each before process_event ascii_aapl_state = (Ret tt, s1) /\
    process_event bad s1 =
      (Raise UnicodeEncodeError,
       record_gainer (KStr "AAPL") (PyInt 107) (PyFloat (fmul (dec 7 2) (round_Z 100)))
         (PyInt 2100000) ascii_aapl_state) /\
    (record_gainer (KStr "AAPL") (PyInt 107) (PyFloat (fmul (dec 7 2) (round_Z 100)))
       (PyInt 2100000) ascii_aapl_state = s1 \/
     exists ticker close_price k c pct V,
       qualifies pct V c = true /\
       alert_line ticker pct close_price V s1 = Raise UnicodeEncodeError /\
       (UnicodeEncodeError = ValueError \/ UnicodeEncodeError = UnicodeEncodeError) /\
       record_gainer (KStr "AAPL") (PyInt 107) (PyFloat (fmul (dec 7 2) (round_Z 100)))
         (PyInt 2100000) ascii_aapl_state = record_gainer k c pct V s1).
Proof.
  apply (failing_event_leaves
           [bar (JStr "AAPL") (JInt 107) (JInt 600000);
            bar (JStr "AAPL") (JInt 108) (JInt 600000)] ascii_aapl_state UnicodeEncodeError).
  vm_compute. reflexivity.
Defined.

(** X2: an event whose "ev" is missing or is not "AM" is passed over,
    whatever else it holds or lacks; a message of such events changes
    nothing and raises nothing. *)
Theorem other_events_are_ignored events s :
  Forall ignored events ->
  process_message (WellFormed (JArr events)) s = (Ret tt, s).
Proof.
  intros Hall. unfold process_message.
  cbn [loads]. rewrite run_lift_ret. cbn [py_iter]. rewrite run_lift_ret.
  induction Hall as [|event events (kvs & -> & Hev) _ IH]; [done|].
  rewrite for_each_cons. unfold process_event at 1. cbn [py_get].
  by rewrite run_lift_ret, Hev.
Qed.

Lemma other_events_are_ignored_witness :
  process_message
    (WellFormed (JArr [JObj [("ev", JStr "status"); ("message", JStr "authenticated")];
                       JObj [("T", JStr "AAPL"); ("c", JInt 500)];
                       JObj [("ev", JStr "A"); ("T", JStr "AAPL")]]))
    aapl_state = (Ret tt, aapl_state).
Proof.
  apply other_events_are_ignored.
  repeat (apply Forall_cons; split; [eexists; split; [reflexivity|reflexivity]|]).
  apply Forall_nil. done.
Defined.

(** X3: what a message that parses, but not to an array of objects, does:
    a number, a boolean and null are not iterable; a string yields its
    characters and an object its keys, which have no [get]; empty ones
    are passed over. *)
Theorem message_shapes j s :
  process_message (WellFormed j) s =
    match j with
    | JArr events => for_each events process_event s
    | JNull | JBool _ | JInt _ | JFloat _ => (Raise TypeError, s)
    | JStr EmptyString | JObj [] => (Ret tt, s)
    | JStr _ | JObj _ => (Raise AttributeError, s)
    end
  /\ (forall event, is_dict event = false ->
        process_event event s = (Raise AttributeError, s)).
Proof.
  split.
  - unfold process_message. cbn [loads]. rewrite run_lift_ret.
    destruct j as [| | | |[|c str]|events|[|[k v] kvs]]; try done.
  - intros event Hdict. by destruct event.
Qed.

(** ** The population phase, result by result *)

Lemma absorb_entry stock k c s :
  stock_entry stock = Some (k, c) ->
  absorb stock s = (Ret tt, record_close k c s).
Proof.
  unfold stock_entry, absorb.
  destruct (py_getitem stock "c") as [c'|]; [|done].
  destruct (py_getitem stock "T") as [t|]; [|done].
  destruct (key_of t) as [k'|] eqn:Hk; [|done].
  intros [= -> ->]. by rewrite !run_lift_ret, Hk, run_lift_ret.
Qed.

Lemma absorb_bad stock s :
  stock_entry stock = None ->
  exists e, absorb stock s = (Raise e, s) /\
    (e = KeyError "c" \/ e = KeyError "T" \/ e = TypeError).
Proof.
  unfold stock_entry, absorb.
  destruct (py_getitem stock "c") as [c|e] eqn:Hc.
  - rewrite run_lift_ret.
    destruct (py_getitem stock "T") as [t|e] eqn:HT.
    + rewrite run_lift_ret. destruct (key_of t) as [k|e] eqn:Hk; [done|].
      intros _. exists e. rewrite run_lift_raise. split; [done|].
      right; right. destruct t; try discriminate Hk; by injection Hk.
    + intros _. exists e. rewrite run_lift_raise. split; [done|].
      destruct stock; try (injection HT as <-; auto). cbn in HT.
      destruct (obj_lookup "T" kvs); [done|]. injection HT as <-. auto.
  - intros _. exists e. rewrite run_lift_raise. split; [done|].
    destruct stock; try (injection Hc as <-; auto). cbn in Hc.
    destruct (obj_lookup "c" kvs); [done|]. injection Hc as <-. auto.
Qed.

Lemma for_each_absorb_entries stocks entries s :
  Forall2 (fun stock kc => stock_entry stock = Some kc) stocks entries ->
  for_each stocks absorb s =
    (Ret tt, with_closes (store_all entries (yesterday_close s)) s).
Proof.
  intros Hall. revert s.
  induction Hall as [|stock [k c] stocks entries Hentry _ IH]; intros s.
  - by destruct s.
  - rewrite for_each_cons, (absorb_entry stock k c s Hentry). by rewrite IH.
Qed.

Lemma store_all_cons k c entries m :
  store_all ((k, c) :: entries) m = store_all entries (<[k := c]> m).
Proof. reflexivity. Qed.

Lemma store_all_app entries1 entries2 m :
  store_all (entries1 ++ entries2) m = store_all entries2 (store_all entries1 m).
Proof. apply foldl_app. Qed.

Lemma store_all_absent entries m k :
  k ∉ entries.*1 -> store_all entries m !! k = m !! k.
Proof.
  revert m. induction entries as [|[k' c] entries IH]; intros m; [done|].
  cbn [fmap list_fmap fst]. intros [Hne Hnotin]%not_elem_of_cons.
  rewrite store_all_cons, IH by done. by apply lookup_insert_ne.
Qed.

Lemma store_all_last before k c after m :
  k ∉ after.*1 ->
  store_all (before ++ (k, c) :: after) m !! k = Some c.
Proof.
  intros Hnotin. rewrite store_all_app, store_all_cons.
  rewrite store_all_absent by done. apply lookup_insert_eq.
Qed.

Lemma store_all_dom entries m k :
  is_Some (m !! k) -> is_Some (store_all entries m !! k).
Proof.
  revert m. induction entries as [|[k' c] entries IH]; intros m Hk; [done|].
  rewrite store_all_cons. apply IH. apply lookup_insert_is_Some'. by right.
Qed.

Lemma for_each_nil_absorb s : for_each [] absorb s = (Ret tt, s).
Proof. reflexivity. Qed.

Lemma for_each_absorb_app stocks1 stocks2 s :
  for_each (stocks1 ++ stocks2) absorb s =
  match for_each stocks1 absorb s with
  | (Ret _, s1) => for_each stocks2 absorb s1
  | (Raise e, s1) => (Raise e, s1)
  end.
Proof. apply for_each_app. Qed.

(** X4: on a reply with status 200 whose results all carry "T" and "c",
    the population phase stores every result in order, so that of two
    results with the same symbol the later one stays; symbols that do
    not occur keep what they had; the other two dictionaries are not
    touched, and the count printed is the size of the store. *)
Theorem population_last_wins POLYGON_API_KEY w s day response kvs stocks entries :
  get_last_trading_day (today w) = Ret day ->
  http w = Ret response ->
  status response = 200 ->
  body response = WellFormed (JObj kvs) ->
  obj_lookup "results" kvs = Some (JArr stocks) ->
  Forall2 (fun stock kc => stock_entry stock = Some kc) stocks entries ->
  let closes := store_all entries (yesterday_close s) in
  fetch_yesterday_closes POLYGON_API_KEY w s =
    (Ret tt, say [PrintFetching; HttpGet (request_url POLYGON_API_KEY day);
                  PrintFetched (size closes)] (with_closes closes s)) /\
  (forall k, k ∉ entries.*1 -> closes !! k = yesterday_close s !! k) /\
  (forall before k c after,
     entries = before ++ (k, c) :: after -> k ∉ after.*1 -> closes !! k = Some c).
Proof.
  intros Hday Hhttp Hstatus Hbody Hresults Hentries closes.
  split; [|split].
  - rewrite fetch_run, Hday. cbn zeta. rewrite Hhttp, Hstatus, Hbody.
    cbn [negb Z.eqb Pos.eqb loads py_get]. rewrite Hresults. cbn [default from_option id py_iter].
    rewrite (for_each_absorb_entries stocks entries _ Hentries).
    unfold say, with_closes. cbn [yesterday_close running_volume gainers trace].
    by rewrite <- app_assoc.
  - intros k Hk. by apply store_all_absent.
  - intros before k c after -> Hk. by apply store_all_last.
Qed.

(** Two results for AAPL: the second close stays. *)
Lemma population_last_wins_witness :
  let data := JObj [("results", JArr [JObj [("T", JStr "AAPL"); ("c", JInt 100)];
                                      JObj [("T", JStr "MSFT"); ("c", JInt 400)];
                                      JObj [("T", JStr "AAPL"); ("c", JInt 101)]])] in
  let s' := snd (fetch_yesterday_closes "key" (ok_world (Date 2026 11 4) data []) init_state) in
  yesterday_close s' !! KStr "AAPL" = Some (JInt 101) /\
  trace s' = [PrintFetching; HttpGet (request_url "key" "2026-11-03"); PrintFetched 2].
Proof.
  intros data s'.
  destruct (population_last_wins "key" (ok_world (Date 2026 11 4) data []) init_state
              "2026-11-03" (Response 200 (WellFormed data)) _ _
              [(KStr "AAPL", JInt 100); (KStr "MSFT", JInt 400); (KStr "AAPL", JInt 101)]
              eq_refl eq_refl eq_refl eq_refl eq_refl)
    as (Hrun & _ & Hlast).
  - repeat constructor.
  - subst s'. rewrite Hrun. split; [|reflexivity].
    apply (Hlast [(KStr "AAPL", JInt 100); (KStr "MSFT", JInt 400)] (KStr "AAPL") (JInt 101) []);
      [reflexivity | apply not_elem_of_nil].
Defined.

(** X5: a reply with status 200 whose body is an object without
    "results" is no failure of the population phase: nothing is stored,
    and the count of the store is printed; from the empty store the run
    then prints the shutdown line and ends without using the stream. *)
Theorem population_without_results POLYGON_WS_URL POLYGON_API_KEY w s day response kvs :
  get_last_trading_day (today w) = Ret day ->
  http w = Ret response ->
  status response = 200 ->
  body response = WellFormed (JObj kvs) ->
  obj_lookup "results" kvs = None ->
  fetch_yesterday_closes POLYGON_API_KEY w s =
    (Ret tt, say [PrintFetching; HttpGet (request_url POLYGON_API_KEY day);
                  PrintFetched (size (yesterday_close s))] s) /\
  (yesterday_close s = ∅ ->
   main POLYGON_WS_URL POLYGON_API_KEY w s =
     (Ret tt, say [PrintFetching; HttpGet (request_url POLYGON_API_KEY day);
                   PrintFetched 0; PrintShutdown] s)).
Proof.
  intros Hday Hhttp Hstatus Hbody Hresults.
  assert (fetch_yesterday_closes POLYGON_API_KEY w s =
    (Ret tt, say [PrintFetching; HttpGet (request_url POLYGON_API_KEY day);
                  PrintFetched (size (yesterday_close s))] s)) as Hfetch.
  { rewrite fetch_run, Hday. cbn zeta. rewrite Hhttp, Hstatus, Hbody.
    cbn [negb Z.eqb Pos.eqb loads py_get]. rewrite Hresults. cbn [default from_option id py_iter].
    rewrite for_each_nil_absorb. by rewrite say_app. }
  split; [exact Hfetch|].
  intros Hempty. rewrite main_run, Hfetch. cbn [say yesterday_close].
  rewrite bool_decide_eq_true_2 by done. rewrite say_app, Hempty. reflexivity.
Qed.

Lemma population_without_results_witness :
  main "wss://feed" "key"
    (ok_world (Date 2026 11 4) (JObj [("status", JStr "NOT_AUTHORIZED")]) [good_message])
    init_state =
  (Ret tt, say [PrintFetching; HttpGet (request_url "key" "2026-11-03");
                PrintFetched 0; PrintShutdown] init_state).
Proof.
  apply (population_without_results "wss://feed" "key"
           (ok_world (Date 2026 11 4) (JObj [("status", JStr "NOT_AUTHORIZED")]) [good_message])
           init_state "2026-11-03"
           (Response 200 (WellFormed (JObj [("status", JStr "NOT_AUTHORIZED")])))
           [("status", JStr "NOT_AUTHORIZED")]);
    reflexivity.
Defined.

(** X6: a result that lacks "c" or "T", or whose symbol cannot be a
    key, raises out of the population phase and out of [main]: nothing
    catches it, the results before it stay stored, those after it are
    never read, and the stream is not used. *)
Theorem bad_result_aborts_startup
    POLYGON_WS_URL POLYGON_API_KEY w s day response kvs before bad after entries :
  get_last_trading_day (today w) = Ret day ->
  http w = Ret response ->
  status response = 200 ->
  body response = WellFormed (JObj kvs) ->
  obj_lookup "results" kvs = Some (JArr (before ++ bad :: after)) ->
  Forall2 (fun stock kc => stock_entry stock = Some kc) before entries ->
  stock_entry bad = None ->
  exists e,
    (e = KeyError "c" \/ e = KeyError "T" \/ e = TypeError) /\
    fetch_yesterday_closes POLYGON_API_KEY w s =
      (Raise e, say [PrintFetching; HttpGet (request_url POLYGON_API_KEY day)]
                  (with_closes (store_all entries (yesterday_close s)) s)) /\
    main POLYGON_WS_URL POLYGON_API_KEY w s =
      (Raise e, say [PrintFetching; HttpGet (request_url POLYGON_API_KEY day)]
                  (with_closes (store_all entries (yesterday_close s)) s)).
Proof.
  intros Hday Hhttp Hstatus Hbody Hresults Hentries Hbad.
  set (s1 := say [PrintFetching; HttpGet (request_url POLYGON_API_KEY day)] s).
  destruct (absorb_bad bad
              (with_closes (store_all entries (yesterday_close s1)) s1) Hbad)
    as (e & Hrun & He).
  exists e. split; [exact He|].
  assert (fetch_yesterday_closes POLYGON_API_KEY w s =
            (Raise e, say [PrintFetching; HttpGet (request_url POLYGON_API_KEY day)]
                        (with_closes (store_all entries (yesterday_close s)) s)))
    as Hfetch.
  { rewrite fetch_run, Hday. cbn zeta. rewrite Hhttp, Hstatus, Hbody.
    cbn [negb Z.eqb Pos.eqb loads py_get]. rewrite Hresults.
    cbn [default from_option id py_iter].
    rewrite for_each_absorb_app, (for_each_absorb_entries before entries _ Hentries).
    fold s1. rewrite for_each_cons, Hrun. reflexivity. }
  split; [exact Hfetch|]. by rewrite main_run, Hfetch.
Qed.

Lemma bad_result_aborts_startup_witness :
  let data := JObj [("results", JArr [JObj [("T", JStr "AAPL"); ("c", JInt 100)];
                                      JObj [("T", JStr "MSFT")];
                                      JObj [("T", JStr "XYZ"); ("c", JInt 2)]])] in
  exists e,
    (e = KeyError "c" \/ e = KeyError "T" \/ e = TypeError) /\
    main "wss://feed" "key" (ok_world (Date 2026 11 4) data [good_message]) init_state =
      (Raise e, say [PrintFetching; HttpGet (request_url "key" "2026-11-03")]
                  (with_closes {[ KStr "AAPL" := JInt 100 ]} init_state)).
Proof.
  intros data.
  destruct (bad_result_aborts_startup "wss://feed" "key"
              (ok_world (Date 2026 11 4) data [good_message]) init_state "2026-11-03"
              (Response 200 (WellFormed data)) _
              [JObj [("T", JStr "AAPL"); ("c", JInt 100)]]
              (JObj [("T", JStr "MSFT")])
              [JObj [("T", JStr "XYZ"); ("c", JInt 2)]]
              [(KStr "AAPL", JInt 100)]
              eq_refl eq_refl eq_refl eq_refl eq_refl)
    as (e & He & _ & Hmain).
  - repeat constructor.
  - reflexivity.
  - exists e. split; [exact He | exact Hmain].
Defined.

(** X7: whatever the reply, and whether it returns or raises, the
    population phase leaves [running_volume] and [gainers] as they were
    and removes no reference price. *)
Theorem population_only_adds_closes POLYGON_API_KEY w s :
  let s' := snd (fetch_yesterday_closes POLYGON_API_KEY w s) in
  running_volume s' = running_volume s /\
  gainers s' = gainers s /\
  dom (yesterday_close s) ⊆ dom (yesterday_close s').
Proof.
  apply (fetch_keeps (fun s' => running_volume s' = running_volume s /\
                                gainers s' = gainers s /\
                                dom (yesterday_close s) ⊆ dom (yesterday_close s'))).
  - intros k c s0 (Hrv & Hg & Hdom). split; [done|]. split; [done|].
    cbn [record_close yesterday_close]. rewrite dom_insert_L. set_solver.
  - done.
  - done.
Qed.

(** ** Properties kept by a whole run *)

Section RunInvariant.

Variable P : state -> Prop.
Hypothesis P_event : forall event s, P s -> P (snd (process_event event s)).
Hypothesis P_say : forall outs s, forallb (fun o => negb (is_alert o)) outs = true ->
                                  P s -> P (say outs s).
Hypothesis P_close : forall k c s, P s -> P (record_close k c s).
Variables POLYGON_WS_URL POLYGON_API_KEY : string.

Lemma for_each_keeps events s : P s -> P (snd (for_each events process_event s)).
Proof using P_event.
  revert s. induction events as [|event events IH]; intros s HP; [done|].
  rewrite for_each_cons. specialize (P_event event s HP).
  destruct (process_event event s) as [[[]|e] s1]; [by apply IH | done].
Qed.

Lemma process_message_keeps msg s : P s -> P (snd (process_message msg s)).
Proof using P_event.
  intros HP. unfold process_message.
  destruct (loads msg) as [data|e]; [rewrite run_lift_ret | by rewrite run_lift_raise].
  destruct (py_iter data) as [events|e]; [rewrite run_lift_ret | by rewrite run_lift_raise].
  by apply for_each_keeps.
Qed.

Lemma receive_keeps frames fin s : P s -> P (snd (receive frames fin s)).
Proof using P_event.
  revert s. induction frames as [|msg frames IH]; intros s HP.
  - by destruct fin.
  - rewrite receive_cons. pose proof (process_message_keeps msg s HP) as Hmsg.
    destruct (process_message msg s) as [[[]|e] s1]; [by apply IH | done].
Qed.

Lemma stream_keeps w s :
  P s -> P (snd (stream POLYGON_WS_URL POLYGON_API_KEY w s)).
Proof using P_event P_say.
  intros HP. rewrite stream_run.
  destruct (ws_connect w) as [[]|e]; [|by apply P_say].
  pose proof (receive_keeps (ws_frames w) (ws_closing w)
                (say (handshake POLYGON_WS_URL POLYGON_API_KEY) s)
                (P_say (handshake POLYGON_WS_URL POLYGON_API_KEY) s eq_refl HP)) as Hrecv.
  destruct (receive _ _ _) as [[[]|e] s1]; [done|].
  apply P_say; [|done]. unfold handler_line.
  by destruct (is_connection_closed_error e).
Qed.

Lemma population_keeps w s :
  P s -> P (snd (fetch_yesterday_closes POLYGON_API_KEY w s)).
Proof using P_say P_close.
  intros HP. rewrite fetch_run.
  destruct (get_last_trading_day (today w)) as [day|e]; [|by apply P_say].
  cbn zeta.
  set (s1 := say [PrintFetching; HttpGet (request_url POLYGON_API_KEY day)] s).
  assert (P s1) as HP1 by by apply P_say.
  destruct (http w) as [response|e]; [|done].
  destruct (negb (status response =? 200)); [by apply P_say|].
  destruct (loads (body response)) as [data|e]; [|done].
  destruct (py_get data "results") as [results|e]; [|done].
  destruct (py_iter (default (JArr []) results)) as [stocks|e]; [|done].
  destruct (for_each stocks absorb s1) as [[[]|e] s2] eqn:Hrun.
  - apply P_say; [done|]. by eapply (for_each_absorb_keeps P P_close).
  - by eapply (for_each_absorb_keeps P P_close).
Qed.

Lemma main_keeps w s :
  P s -> P (snd (main POLYGON_WS_URL POLYGON_API_KEY w s)).
Proof using P_event P_say P_close.
  intros HP. rewrite main_run. pose proof (population_keeps w s HP) as Hfetch.
  destruct (fetch_yesterday_closes POLYGON_API_KEY w s) as [[[]|e] s1]; [|done].
  destruct (bool_decide (yesterday_close s1 = ∅)); [by apply P_say | by apply stream_keeps].
Qed.

End RunInvariant.

Lemma number_as_num v n : number v = Ret n -> as_num v = Some n.
Proof. unfold number. destruct (as_num v); congruence. Qed.

Lemma alerts_for_quiet k outs :
  forallb (fun o => negb (is_alert o)) outs = true -> alerts_for k outs = [].
Proof.
  induction outs as [|o outs IH]; [done|].
  cbn [forallb]. intros [Ho Houts]%andb_true_iff.
  unfold alerts_for in *. cbn [List.filter]. rewrite IH by done.
  by destruct o.
Qed.

(** X8: no dictionary ever loses a key: over a whole run, whatever is
    received and however the run ends, every ticker that had a reference
    price, a running volume or an alert still has one. *)
Theorem dictionaries_only_grow POLYGON_WS_URL POLYGON_API_KEY w s :
  let s' := snd (main POLYGON_WS_URL POLYGON_API_KEY w s) in
  dom (yesterday_close s) ⊆ dom (yesterday_close s') /\
  dom (running_volume s) ⊆ dom (running_volume s') /\
  dom (gainers s) ⊆ dom (gainers s').
Proof.
  apply (main_keeps (fun s' => dom (yesterday_close s) ⊆ dom (yesterday_close s') /\
                               dom (running_volume s) ⊆ dom (running_volume s') /\
                               dom (gainers s) ⊆ dom (gainers s'))).
  - intros event s0 (Hyc & Hrv & Hg).
    destruct (process_event event s0) as [r s1] eqn:Hrun. cbn [snd].
    apply process_event_step in Hrun.
    destruct Hrun; unfold record_alert, record_volume, record_gainer;
      cbn [yesterday_close running_volume gainers]; rewrite ?dom_insert_L; set_solver.
  - done.
  - intros k c s0 (Hyc & Hrv & Hg). unfold record_close.
    cbn [yesterday_close running_volume gainers]. rewrite dom_insert_L. set_solver.
  - done.
Qed.

Lemma say_mirrors outs s :
  forallb (fun o => negb (is_alert o)) outs = true -> mirrors s -> mirrors (say outs s).
Proof.
  intros Hquiet Hm k. unfold say. cbn [gainers trace].
  rewrite alerts_for_app, (alerts_for_quiet k outs Hquiet), app_nil_r. apply Hm.
Qed.

(** An event keeps the alert store in step with the printed alerts,
    unless the print of its alert fails. *)
Lemma process_event_mirrors event s r s' :
  mirrors s ->
  process_event event s = (r, s') ->
  r <> Raise ValueError -> r <> Raise UnicodeEncodeError ->
  mirrors s'.
Proof.
  intros Hm Hrun Hvalue Hunicode.
  apply process_event_cases in Hrun
    as [->|(ticker & cp & vol & k & prev & c & p & pct & v & V &
            _ & Hkey & _ & Hc & _ & Hpct & _ & _ & Hres)];
    [done|].
  apply bar_result_cases in Hres
    as [(_ & _ & ->)|[(_ & _ & _ & ->)|(_ & e & Hline & -> & _)]].
  - exact Hm.
  - intros k'. unfold record_alert. cbn [gainers trace].
    rewrite alerts_for_app. cbn [alerts_for List.filter is_alert_for]. rewrite Hkey.
    case_bool_decide as Hk.
    + subst k'. rewrite lookup_insert_eq, last_snoc. cbn [mbind option_bind alert_record].
      by rewrite (number_as_num _ _ Hc).
    + rewrite lookup_insert_ne by done. rewrite app_nil_r. apply Hm.
  - destruct (percent_change_float c p pct Hpct) as [f ->].
    destruct (alert_line_raise _ _ _ _ _ _ Hline) as [->| ->]; congruence.
Qed.

Lemma for_each_mirrors events s r s' :
  mirrors s ->
  for_each events process_event s = (r, s') ->
  r <> Raise ValueError -> r <> Raise UnicodeEncodeError ->
  mirrors s'.
Proof.
  revert s. induction events as [|event events IH]; intros s Hm.
  - by intros [= <- <-].
  - rewrite for_each_cons.
    destruct (process_event event s) as [[[]|e] s1] eqn:Hev.
    + apply IH. by apply (process_event_mirrors event s (Ret tt) s1).
    + intros [= <- <-]. by apply (process_event_mirrors event s).
Qed.

Lemma receive_mirrors frames fin s r s' :
  mirrors s ->
  receive frames fin s = (r, s') ->
  r <> Raise ValueError -> r <> Raise UnicodeEncodeError ->
  mirrors s'.
Proof.
  revert s. induction frames as [|msg frames IH]; intros s Hm.
  - by destruct fin; intros [= <- <-].
  - rewrite receive_cons. unfold process_message.
    destruct (loads msg) as [data|e];
      [rewrite run_lift_ret | rewrite run_lift_raise; by intros [= <- <-]].
    destruct (py_iter data) as [events|e];
      [rewrite run_lift_ret | rewrite run_lift_raise; by intros [= <- <-]].
    destruct (for_each events process_event s) as [[[]|e] s1] eqn:Hev.
    + apply IH. by apply (for_each_mirrors events s (Ret tt) s1).
    + intros [= <- <-]. by apply (for_each_mirrors events s).
Qed.

(** X9: the alert store mirrors the printed alerts as long as no alert
    line has failed to print.  If [gainers] holds, for every ticker,
    what the last alert printed for it announced, it still does after
    any received messages, unless they ended in the [ValueError] or the
    [UnicodeEncodeError] of an alert line; and it does at the end of a
    whole run whose output shows no such exception. *)
Theorem gainers_mirror_last_alerts POLYGON_WS_URL POLYGON_API_KEY w s :
  mirrors s ->
  (forall frames fin r s',
     receive frames fin s = (r, s') ->
     r <> Raise ValueError -> r <> Raise UnicodeEncodeError ->
     mirrors s') /\
  (forallb (fun o => negb (print_failed o))
     (trace (snd (main POLYGON_WS_URL POLYGON_API_KEY w s))) = true ->
   mirrors (snd (main POLYGON_WS_URL POLYGON_API_KEY w s))).
Proof.
  intros Hm. split; [intros frames fin r s'; by apply receive_mirrors|].
  rewrite main_run.
  pose proof (population_keeps mirrors say_mirrors ltac:(done) POLYGON_API_KEY w s Hm)
    as Hfetch.
  destruct (fetch_yesterday_closes POLYGON_API_KEY w s) as [[[]|e] s1]; [|done].
  cbn [snd] in Hfetch.
  destruct (bool_decide (yesterday_close s1 = ∅)); [intros _; by apply say_mirrors|].
  rewrite stream_run.
  destruct (ws_connect w) as [[]|e]; [|intros _; by apply say_mirrors].
  destruct (receive (ws_frames w) (ws_closing w)
              (say (handshake POLYGON_WS_URL POLYGON_API_KEY) s1)) as [r s2] eqn:Hrecv.
  assert (r <> Raise ValueError -> r <> Raise UnicodeEncodeError -> mirrors s2) as Hs2.
  { apply (receive_mirrors (ws_frames w) (ws_closing w)
             (say (handshake POLYGON_WS_URL POLYGON_API_KEY) s1)); [|exact Hrecv].
    by apply say_mirrors. }
  destruct r as [[]|e]; cbn [snd]; [intros _; by apply Hs2|].
  unfold say at 1. cbn [trace]. rewrite forallb_app. cbn [forallb].
  intros [_ Hlast%andb_true_iff]%andb_true_iff. destruct Hlast as [Hlast _].
  apply say_mirrors; [by destruct e|].
  apply Hs2; intros [= ->]; done.
Qed.

Lemma gainers_mirror_last_alerts_witness :
  mirrors init_state /\
  mirrors (snd (main "wss://feed" "key" scenario_world init_state)) /\
  last (alerts_for (KStr "AAPL")
          (trace (snd (main "wss://feed" "key" scenario_world init_state))))
    = Some (PrintAlert (JStr "AAPL") (PyFloat (fmul (dec 7 2) (round_Z 100)))
              (JInt 107) (PyInt 2100000)).
Proof.
  assert (mirrors init_state) as Hinit by (intros k; apply lookup_empty).
  split; [exact Hinit|]. split; [|vm_compute; reflexivity].
  apply (proj2 (gainers_mirror_last_alerts "wss://feed" "key" scenario_world init_state Hinit)).
  vm_compute. reflexivity.
Defined.

Lemma process_event_alerts_ok event s :
  forallb alert_ok (trace s) = true ->
  forallb alert_ok (trace (snd (process_event event s))) = true.
Proof.
  intros Hok. destruct (process_event event s) as [r s1] eqn:Hrun. cbn [snd].
  apply process_event_cases in Hrun
    as [->|(ticker & cp & vol & k & prev & c & p & pct & v & V &
            _ & _ & _ & Hc & _ & _ & _ & _ & Hres)];
    [done|].
  apply bar_result_cases in Hres
    as [(_ & _ & ->)|[(Hq & _ & _ & ->)|(_ & e & _ & _ & ->)]]; [exact Hok| |exact Hok].
  unfold record_alert. cbn [trace]. rewrite forallb_app, Hok. cbn [forallb alert_ok andb].
  rewrite (number_as_num _ _ Hc).
  destruct (qualifies_true _ _ _ Hq) as (-> & -> & ->). done.
Qed.

(** X10: every alert printed during a run names a percent change of at
    least 5, a cumulative volume of at least 2,000,000 and a close of at
    least 3, also the alerts that a later one has since overwritten in
    [gainers]. *)
Theorem printed_alerts_meet_thresholds POLYGON_WS_URL POLYGON_API_KEY w s :
  forallb alert_ok (trace s) = true ->
  forallb alert_ok (trace (snd (main POLYGON_WS_URL POLYGON_API_KEY w s))) = true.
Proof.
  apply (main_keeps (fun s => forallb alert_ok (trace s) = true)).
  - apply process_event_alerts_ok.
  - intros outs s0 Hquiet Hok. unfold say. cbn [trace]. rewrite forallb_app, Hok.
    cbn [andb]. clear -Hquiet. induction outs as [|o outs IH]; [done|].
    cbn [forallb] in *. apply andb_true_iff in Hquiet as [Ho Houts].
    rewrite IH by done. by destruct o.
  - done.
Qed.

Lemma printed_alerts_meet_thresholds_witness :
  forallb alert_ok (trace (snd (main "wss://feed" "key" scenario_world init_state))) = true /\
  List.filter is_alert (trace (snd (main "wss://feed" "key" scenario_world init_state)))
    = [PrintAlert (JStr "AAPL") (PyFloat (fmul (dec 7 2) (round_Z 100)))
         (JInt 107) (PyInt 2100000)].
Proof.
  split; [|vm_compute; reflexivity].
  exact (printed_alerts_meet_thresholds "wss://feed" "key" scenario_world init_state eq_refl).
Defined.

(** ** How the stream and the run end *)

Lemma receive_closing frames fin s :
  receive frames fin s =
  match receive frames ClosedOK s with
  | (Ret _, s1) =>
      match fin with
      | ClosedOK => (Ret tt, s1)
      | ClosedError => (Raise ConnectionClosedError, s1)
      end
  | (Raise e, s1) => (Raise e, s1)
  end.
Proof.
  rewrite <- (app_nil_r frames) at 1. rewrite receive_app.
  destruct (receive frames ClosedOK s) as [[[]|e] s1]; [|done]. by destruct fin.
Qed.

(** X11: when every received message is processed without an exception,
    [stream] returns the state they produced: after an orderly close it
    prints nothing more, after an abrupt close it prints the line of the
    lost connection; in both cases it does not raise. *)
Theorem stream_ends_with_the_connection POLYGON_WS_URL POLYGON_API_KEY w s s1 :
  ws_connect w = Ret tt ->
  receive (ws_frames w) ClosedOK (say (handshake POLYGON_WS_URL POLYGON_API_KEY) s)
    = (Ret tt, s1) ->
  stream POLYGON_WS_URL POLYGON_API_KEY w s =
    (Ret tt,
     match ws_closing w with
     | ClosedOK => s1
     | ClosedError => say [PrintConnectionLost ConnectionClosedError] s1
     end).
Proof.
  intros Hconn Hrecv. rewrite stream_run, Hconn, receive_closing, Hrecv.
  by destruct (ws_closing w).
Qed.

Lemma stream_ends_with_the_connection_witness :
  stream "wss://feed" "key" (stream_world [good_message] ClosedError) aapl_state =
    (Ret tt,
     say [PrintConnectionLost ConnectionClosedError]
       (record_alert (KStr "AAPL") (JStr "AAPL") (JInt 107) (PyInt 107)
          (PyFloat (fmul (dec 7 2) (round_Z 100))) (PyInt 2100000)
          (say (handshake "wss://feed" "key") aapl_state))).
Proof.
  apply (stream_ends_with_the_connection "wss://feed" "key"
           (stream_world [good_message] ClosedError) aapl_state).
  - reflexivity.
  - vm_compute. reflexivity.
Defined.

(** X12: a connection that cannot be opened raises out of [stream] and out
    of [main]: the attempt is outside the handlers of the loop; nothing
    is sent and no message is read. *)
Theorem failed_connection_escapes POLYGON_WS_URL POLYGON_API_KEY w s e :
  ws_connect w = Raise e ->
  stream POLYGON_WS_URL POLYGON_API_KEY w s =
    (Raise e, say [WsConnect (WS_URL POLYGON_WS_URL)] s) /\
  (forall s1,
     fetch_yesterday_closes POLYGON_API_KEY w s = (Ret tt, s1) ->
     yesterday_close s1 <> ∅ ->
     main POLYGON_WS_URL POLYGON_API_KEY w s =
       (Raise e, say [WsConnect (WS_URL POLYGON_WS_URL)] s1)).
Proof.
  intros Hconn.
  assert (forall s0, stream POLYGON_WS_URL POLYGON_API_KEY w s0 =
                       (Raise e, say [WsConnect (WS_URL POLYGON_WS_URL)] s0)) as Hstream
    by (intros s0; by rewrite stream_run, Hconn).
  split; [apply Hstream|].
  intros s1 Hfetch Hfull. rewrite main_run, Hfetch.
  rewrite bool_decide_eq_false_2 by done. apply Hstream.
Qed.

Lemma failed_connection_escapes_witness :
  let data := JObj [("results", JArr [JObj [("T", JStr "AAPL"); ("c", JInt 100)]])] in
  fst (main "wss://feed" "key" (unreachable_world data) init_state) = Raise ClientError /\
  List.filter is_stream_output
    (trace (snd (main "wss://feed" "key" (unreachable_world data) init_state)))
    = [WsConnect "wss://feed"].
Proof.
  intros data.
  destruct (failed_connection_escapes "wss://feed" "key" (unreachable_world data)
              init_state ClientError eq_refl) as [_ Hmain].
  rewrite (Hmain (snd (fetch_yesterday_closes "key" (unreachable_world data) init_state))
             eq_refl ltac:(vm_compute; discriminate)).
  split; vm_compute; reflexivity.
Defined.

Lemma receive_appends frames fin s :
  exists outs, trace (snd (receive frames fin s)) = trace s ++ outs.
Proof.
  apply (receive_keeps (fun s' => exists outs, trace s' = trace s ++ outs)).
  - intros event s0 [outs Houts].
    destruct (process_event event s0) as [r s1] eqn:Hrun. cbn [snd].
    apply process_event_step in Hrun.
    destruct Hrun; unfold record_alert, record_volume, record_gainer; cbn [trace];
      try by exists outs.
    rewrite Houts, <- app_assoc. by eexists.
  - exists []. by rewrite app_nil_r.
Qed.

(** X13: once the population phase has returned and the connection opens,
    [main] returns normally whatever the stream delivers: no exception of
    the loop escapes it; and with a store that is not empty it has sent
    the authentication and the subscription, in this order, before
    anything else on the stream. *)
Theorem main_survives_the_stream POLYGON_WS_URL POLYGON_API_KEY w s s1 :
  fetch_yesterday_closes POLYGON_API_KEY w s = (Ret tt, s1) ->
  ws_connect w = Ret tt ->
  fst (main POLYGON_WS_URL POLYGON_API_KEY w s) = Ret tt /\
  (yesterday_close s1 <> ∅ ->
   exists rest,
     trace (snd (main POLYGON_WS_URL POLYGON_API_KEY w s)) =
       trace s1 ++ handshake POLYGON_WS_URL POLYGON_API_KEY ++ rest).
Proof.
  intros Hfetch Hconn. rewrite main_run, Hfetch.
  destruct (bool_decide (yesterday_close s1 = ∅)) eqn:Hempty.
  - split; [done|]. intros Hfull. by apply bool_decide_eq_true in Hempty.
  - split; [by apply stream_never_raises_after_connect|].
    intros _. rewrite stream_run, Hconn.
    destruct (receive_appends (ws_frames w) (ws_closing w)
                (say (handshake POLYGON_WS_URL POLYGON_API_KEY) s1)) as [outs Houts].
    destruct (receive _ _ _) as [[[]|e] s2]; cbn [snd say trace] in *;
      rewrite Houts, <- ?app_assoc; by eexists.
Qed.

Lemma main_survives_the_stream_witness :
  fst (main "wss://feed" "key" scenario_world init_state) = Ret tt /\
  exists rest,
    trace (snd (main "wss://feed" "key" scenario_world init_state)) =
      [PrintFetching; HttpGet (request_url "key" "2026-11-03"); PrintFetched 2]
        ++ handshake "wss://feed" "key" ++ rest.
Proof.
  destruct (main_survives_the_stream "wss://feed" "key" scenario_world init_state
              (snd (fetch_yesterday_closes "key" scenario_world init_state))
              eq_refl eq_refl) as [Hret Htrace].
  split; [exact Hret|]. apply Htrace. vm_compute. discriminate.
Defined.

(** ** The last trading day is a weekday *)

(** X14: the day that [get_last_trading_day] names is never a Saturday or
    a Sunday, and lies one to three days before the given date. *)
Theorem last_trading_day_is_a_weekday today :
  valid_date today ->
  1 < toordinal today ->
  exists last_day,
    get_last_trading_day today = Ret (strftime_Ymd last_day) /\
    0 <= weekday last_day <= 4 /\
    1 <= toordinal today - toordinal last_day <= 3.
Proof.
  intros Hvalid Hmin.
  pose proof (toordinal_range today Hvalid) as Hrange.
  set (offset := if weekday today =? 6 then 2 else if weekday today =? 0 then 3 else 1).
  assert (1 <= toordinal today - offset <= MAXORDINAL /\ 1 <= offset <= 3 /\
          0 <= (toordinal today - offset + 6) mod 7 <= 4) as (Hlast & Hoffset & Hweek).
  { subst offset. unfold weekday in *.
    destruct (Z.eqb_spec ((toordinal today + 6) mod 7) 6);
      [|destruct (Z.eqb_spec ((toordinal today + 6) mod 7) 0)];
      Z.div_mod_to_equations; lia. }
  destruct (fromordinal_spec _ Hlast) as [_ Hord].
  exists (fromordinal (toordinal today - offset)). split; [|split].
  - unfold get_last_trading_day, sub_days. fold offset.
    destruct (Z.ltb_spec 0 (toordinal today - offset)); [|lia].
    destruct (Z.leb_spec (toordinal today - offset) MAXORDINAL); [|lia].
    reflexivity.
  - unfold weekday. by rewrite Hord.
  - rewrite Hord. lia.
Qed.

(** Saturday 7 November 2026: the last trading day is Friday the 6th. *)
Lemma last_trading_day_is_a_weekday_witness :
  exists last_day,
    get_last_trading_day (Date 2026 11 7) = Ret (strftime_Ymd last_day) /\
    0 <= weekday last_day <= 4 /\
    1 <= toordinal (Date 2026 11 7) - toordinal last_day <= 3.
Proof.
  apply (last_trading_day_is_a_weekday (Date 2026 11 7)).
  - repeat split; vm_compute; congruence.
  - reflexivity.
Defined.

Lemma last_trading_day_exists today :
  valid_date today -> 1 < toordinal today ->
  exists day, get_last_trading_day today = Ret day.
Proof.
  intros Hvalid Hmin. pose proof (toordinal_range today Hvalid) as Hrange.
  unfold get_last_trading_day, sub_days.
  set (offset := if weekday today =? 6 then 2 else if weekday today =? 0 then 3 else 1).
  assert (1 <= toordinal today - offset <= MAXORDINAL) as Hlast.
  { subst offset. unfold weekday in *.
    destruct (Z.eqb_spec ((toordinal today + 6) mod 7) 6);
      [|destruct (Z.eqb_spec ((toordinal today + 6) mod 7) 0)];
      Z.div_mod_to_equations; lia. }
  destruct (Z.ltb_spec 0 (toordinal today - offset)); [|lia].
  destruct (Z.leb_spec (toordinal today - offset) MAXORDINAL); [|lia].
  by eexists.
Qed.

(** X15: [get_last_trading_day] raises only on the first day of the
    calendar, 0001-01-01, from which three days cannot be subtracted;
    the population phase then raises [OverflowError] before it sends its
    request, and so does [main]. *)
Theorem first_day_overflows POLYGON_WS_URL POLYGON_API_KEY w s :
  valid_date (today w) ->
  (raised (get_last_trading_day (today w)) = true <-> toordinal (today w) = 1) /\
  (toordinal (today w) = 1 ->
   main POLYGON_WS_URL POLYGON_API_KEY w s = (Raise OverflowError, say [PrintFetching] s)).
Proof.
  intros Hvalid. pose proof (toordinal_range _ Hvalid) as Hrange.
  assert (toordinal (today w) = 1 ->
          get_last_trading_day (today w) = Raise OverflowError) as Hfirst.
  { intros H1. unfold get_last_trading_day, sub_days, weekday. by rewrite H1. }
  split; [split|].
  - intros Hraised.
    destruct (Z.eq_dec (toordinal (today w)) 1) as [|Hne]; [done|].
    destruct (last_trading_day_exists (today w) Hvalid ltac:(lia)) as [day Hday].
    by rewrite Hday in Hraised.
  - intros H1. by rewrite (Hfirst H1).
  - intros H1. by rewrite main_run, fetch_run, (Hfirst H1).
Qed.

Lemma first_day_overflows_witness :
  main "wss://feed" "key"
    (World (Date 1 1 1) (Ret (Response 200 (Malformed ""))) (Ret tt) [] ClosedOK) init_state
  = (Raise OverflowError, say [PrintFetching] init_state).
Proof.
  refine (proj2 (first_day_overflows "wss://feed" "key"
            (World (Date 1 1 1) (Ret (Response 200 (Malformed ""))) (Ret tt) [] ClosedOK)
            init_state _) eq_refl).
  repeat split; vm_compute; congruence.
Defined.

(** ** Bars of different tickers *)

(** A bar reads the state only through its ticker's reference price and
    running volume, and through the encoding of the output. *)
Lemma bar_reads_its_ticker s s0 event ticker close_price vol k :
  is_bar event ticker close_price vol ->
  key_of ticker = Ret k ->
  yesterday_close s0 = yesterday_close s ->
  running_volume s0 !! k = running_volume s !! k ->
  stdout_unicode s0 = stdout_unicode s ->
  forall s',
  process_event event s = (Ret tt, s') ->
  (s' = s /\ process_event event s0 = (Ret tt, s0)) \/
  exists c pct V,
    s' = bar_update k ticker close_price c pct V s /\
    process_event event s0 = (Ret tt, bar_update k ticker close_price c pct V s0).
Proof.
  intros Hbar Hkey Hyc Hrv Hout s'.
  rewrite !(process_event_bar _ event ticker close_price vol k Hbar Hkey), Hyc.
  destruct (yesterday_close s !! k) as [prev_close|].
  - intros [(e & [=] & _)|(c & p & pct & v & V & Hc & Hp & Hpct & Hv & HV & Hres)]%on_known_ticker_cases.
    right. exists c, pct, V.
    rewrite <- Hrv in HV.
    rewrite (on_known_ticker_returns s0 ticker close_price vol k prev_close c p pct v V)
      by done.
    unfold bar_result, bar_update, alert_line in *. rewrite Hout.
    destruct (qualifies pct V c); [|by injection Hres as <-].
    destruct (rbind _ _) as [[]|e]; [|done]. by injection Hres as <-.
  - intros [= <-]. by left.
Qed.

Lemma bar_update_fields k ticker close_price c pct V s :
  yesterday_close (bar_update k ticker close_price c pct V s) = yesterday_close s /\
  stdout_unicode (bar_update k ticker close_price c pct V s) = stdout_unicode s /\
  (forall k', k' <> k ->
     running_volume (bar_update k ticker close_price c pct V s) !! k'
       = running_volume s !! k').
Proof.
  unfold bar_update, record_alert, record_volume.
  destruct (qualifies pct V c); cbn [yesterday_close running_volume stdout_unicode];
    (split; [done|]); (split; [done|]); intros k' Hne; by apply lookup_insert_ne.
Qed.

Lemma bar_update_commute k1 t1 cp1 c1 pct1 V1 k2 t2 cp2 c2 pct2 V2 s :
  k1 <> k2 ->
  let s12 := bar_update k2 t2 cp2 c2 pct2 V2 (bar_update k1 t1 cp1 c1 pct1 V1 s) in
  let s21 := bar_update k1 t1 cp1 c1 pct1 V1 (bar_update k2 t2 cp2 c2 pct2 V2 s) in
  yesterday_close s12 = yesterday_close s21 /\
  running_volume s12 = running_volume s21 /\
  gainers s12 = gainers s21.
Proof.
  intros Hne. unfold bar_update, record_alert, record_volume.
  destruct (qualifies pct1 V1 c1), (qualifies pct2 V2 c2);
    cbn [yesterday_close running_volume gainers];
    repeat split; try done; by apply insert_insert_ne.
Qed.

(** X16: bars of different tickers do not interfere: when two bars of
    different tickers are processed in either order without an
    exception, the three dictionaries end up the same. *)
Theorem different_tickers_commute s e1 t1 cp1 v1 k1 e2 t2 cp2 v2 k2 s12 s21 :
  is_bar e1 t1 cp1 v1 -> key_of t1 = Ret k1 ->
  is_bar e2 t2 cp2 v2 -> key_of t2 = Ret k2 ->
  k1 <> k2 ->
  for_each [e1; e2] process_event s = (Ret tt, s12) ->
  for_each [e2; e1] process_event s = (Ret tt, s21) ->
  yesterday_close s12 = yesterday_close s21 /\
  running_volume s12 = running_volume s21 /\
  gainers s12 = gainers s21.
Proof.
  intros Hbar1 Hkey1 Hbar2 Hkey2 Hne.
  rewrite !for_each_cons.
  destruct (process_event e1 s) as [[[]|?] s1] eqn:H1; [|done].
  destruct (process_event e2 s) as [[[]|?] s2] eqn:H2; [|by intros _ [=]].
  rewrite !for_each_cons.
  destruct (process_event e2 s1) as [[[]|?] s12'] eqn:H12; [|done].
  destruct (process_event e1 s2) as [[[]|?] s21'] eqn:H21; [|by intros _ [=]].
  intros [= <-] [= <-].
  (* the first bar, at [s] and after the second *)
  assert (yesterday_close s2 = yesterday_close s /\
          stdout_unicode s2 = stdout_unicode s /\
          running_volume s2 !! k1 = running_volume s !! k1) as (Hyc2 & Hout2 & Hrv2).
  { destruct (bar_reads_its_ticker s s e2 t2 cp2 v2 k2 Hbar2 Hkey2 eq_refl eq_refl eq_refl
                s2 H2) as [[-> _]|(c & pct & V & -> & _)]; [done|].
    destruct (bar_update_fields k2 t2 cp2 c pct V s) as (? & ? & Hrv).
    split; [done|]. split; [done|]. by apply Hrv. }
  assert (yesterday_close s1 = yesterday_close s /\
          stdout_unicode s1 = stdout_unicode s /\
          running_volume s1 !! k2 = running_volume s !! k2) as (Hyc1 & Hout1 & Hrv1).
  { destruct (bar_reads_its_ticker s s e1 t1 cp1 v1 k1 Hbar1 Hkey1 eq_refl eq_refl eq_refl
                s1 H1) as [[-> _]|(c & pct & V & -> & _)]; [done|].
    destruct (bar_update_fields k1 t1 cp1 c pct V s) as (? & ? & Hrv).
    split; [done|]. split; [done|]. by apply Hrv. }
  destruct (bar_reads_its_ticker s s2 e1 t1 cp1 v1 k1 Hbar1 Hkey1 Hyc2 Hrv2 Hout2 s1 H1)
    as [[Hs1 Hrun21]|(c1 & pct1 & V1 & Hs1 & Hrun21)];
    destruct (bar_reads_its_ticker s s1 e2 t2 cp2 v2 k2 Hbar2 Hkey2 Hyc1 Hrv1 Hout1 s2 H2)
    as [[Hs2 Hrun12]|(c2 & pct2 & V2 & Hs2 & Hrun12)];
    rewrite Hrun12 in H12; rewrite Hrun21 in H21;
    injection H12 as <-; injection H21 as <-; rewrite ?Hs1, ?Hs2; try done.
  by apply bar_update_commute.
Qed.

Lemma different_tickers_commute_witness :
  let aapl := bar (JStr "AAPL") (JInt 107) (JInt 2600000) in
  let xyz := bar (JStr "XYZ") (JFloat (dec 25 1)) (JInt 5000000) in
  running_volume (snd (for_each [aapl; xyz] process_event opening_state))
    = running_volume (snd (for_each [xyz; aapl] process_event opening_state)) /\
  gainers (snd (for_each [aapl; xyz] process_event opening_state))
    = gainers (snd (for_each [xyz; aapl] process_event opening_state)).
Proof.
  intros aapl xyz.
  destruct (different_tickers_commute opening_state
              aapl (JStr "AAPL") (JInt 107) (JInt 2600000) (KStr "AAPL")
              xyz (JStr "XYZ") (JFloat (dec 25 1)) (JInt 5000000) (KStr "XYZ")
              (snd (for_each [aapl; xyz] process_event opening_state))
              (snd (for_each [xyz; aapl] process_event opening_state))
              (is_bar_bar _ _ _) eq_refl (is_bar_bar _ _ _) eq_refl
              ltac:(discriminate) eq_refl eq_refl) as (_ & Hrv & Hg).
  exact (conj Hrv Hg).
Defined.

(** ** A bar that does not close above the reference price *)

Lemma dy_compare_scale m1 e1 m2 e2 e0 :
  e0 <= e1 -> e0 <= e2 ->
  dy_compare m1 e1 m2 e2 = (m1 * 2 ^ (e1 - e0) ?= m2 * 2 ^ (e2 - e0)).
Proof.
  intros H1 H2. unfold dy_compare. cbn zeta.
  set (e := Z.min e1 e2).
  assert (e0 <= e /\ e <= e1 /\ e <= e2) as (He0 & He1 & He2) by (subst e; lia).
  replace (e1 - e0) with ((e1 - e) + (e - e0)) by lia.
  replace (e2 - e0) with ((e2 - e) + (e - e0)) by lia.
  rewrite !Z.pow_add_r, !Z.mul_assoc by lia.
  apply Zmult_compare_compat_r. apply Z.lt_gt, Z.pow_pos_nonneg; lia.
Qed.

Lemma dy_compare_eq_l m1 e1 m2 e2 m3 e3 :
  dy_compare m1 e1 m2 e2 = Eq ->
  dy_compare m1 e1 m3 e3 = dy_compare m2 e2 m3 e3.
Proof.
  set (e0 := Z.min e1 (Z.min e2 e3)).
  rewrite (dy_compare_scale m1 e1 m2 e2 e0), (dy_compare_scale m1 e1 m3 e3 e0),
    (dy_compare_scale m2 e2 m3 e3 e0) by (subst e0; lia).
  by intros ->%Z.compare_eq.
Qed.

Lemma dy_compare_eq_r m1 e1 m2 e2 m3 e3 :
  dy_compare m1 e1 m2 e2 = Eq ->
  dy_compare m3 e3 m1 e1 = dy_compare m3 e3 m2 e2.
Proof.
  set (e0 := Z.min e1 (Z.min e2 e3)).
  rewrite (dy_compare_scale m1 e1 m2 e2 e0), (dy_compare_scale m3 e3 m1 e1 e0),
    (dy_compare_scale m3 e3 m2 e2 e0) by (subst e0; lia).
  by intros ->%Z.compare_eq.
Qed.

(** A number that is exact as a [float] compares as the [float] does. *)
Lemma x_compare_eq_l a m e y :
  x_compare a (XDy m e) = Some Eq -> x_compare a y = x_compare (XDy m e) y.
Proof.
  destruct a as [|[]|m1 e1]; try done.
  cbn [x_compare]. intros [= Heq]. destruct y as [| |m3 e3]; try done.
  cbn [x_compare]. by rewrite (dy_compare_eq_l _ _ _ _ m3 e3 Heq).
Qed.

Lemma x_compare_eq_r a m e y :
  x_compare a (XDy m e) = Some Eq -> x_compare y a = x_compare y (XDy m e).
Proof.
  destruct a as [|[]|m1 e1]; try done.
  cbn [x_compare]. intros [= Heq]. destruct y as [| |m3 e3]; try done.
  cbn [x_compare]. by rewrite (dy_compare_eq_r _ _ _ _ m3 e3 Heq).
Qed.

Lemma shl_align_value mx ex ez :
  ez <= ex -> Zpos (fst (shl_align mx ex ez)) = Zpos mx * 2 ^ (ex - ez).
Proof.
  intros Hle. unfold shl_align.
  destruct (ez - ex) as [|d|d] eqn:Hd; cbn [fst].
  - replace (ex - ez) with 0 by lia. lia.
  - lia.
  - replace (ex - ez) with (Zpos d) by lia.
    change (Pos.iter xO mx d) with (shift_pos d mx).
    rewrite shift_pos_correct. change (Z.pow_pos 2 d) with (2 ^ Zpos d). lia.
Qed.

Lemma signed_value (s : bool) m k :
  cond_Zopp s (Zpos m * k) = (if s then Zneg m else Zpos m) * k.
Proof. destruct s; cbn [cond_Zopp]; lia. Qed.

Lemma dy_compare_zero_neg m e : m < 0 -> dy_compare 0 0 m e = Gt.
Proof.
  intros Hm. unfold dy_compare. cbn zeta. apply Z.compare_gt_iff.
  assert (0 < 2 ^ (e - Z.min 0 e)) by (apply Z.pow_pos_nonneg; lia). nia.
Qed.

(** The difference of two doubles is not above zero when the first is
    not above the second. *)
Lemma fsub_not_positive x y :
  py_le (PyFloat x) (PyFloat y) = true -> not_positive (fsub x y).
Proof.
  unfold py_le, py_compare, fsub. cbn [num_val].
  destruct x as [sx|sx| |sx mx ex], y as [sy|sy| |sy my ey];
    cbn [float_val x_compare SFsub not_positive negb]; try done.
  - by destruct sx, sy.
  - by destruct sy.
  - destruct sy; [|done]. by rewrite dy_compare_zero_neg.
  - by destruct sx.
  - by destruct sx, sy.
  - by destruct sx.
  - destruct sx; [done|]. by rewrite dy_compare_pos_zero.
  - by destruct sy.
  - set (ez := Z.min ex ey).
    rewrite (dy_compare_scale _ ex _ ey ez) by (subst ez; lia).
    rewrite !shl_align_value, !signed_value by (subst ez; lia).
    set (d := _ * _ - _ * _).
    intros Hle. assert (d <= 0) as Hd.
    { subst d. destruct (Z.compare_spec
        ((if sx then Z.neg mx else Z.pos mx) * 2 ^ (ex - ez))
        ((if sy then Z.neg my else Z.pos my) * 2 ^ (ey - ez))); try done; lia. }
    destruct d as [|d|d]; cbn [binary_normalize not_positive]; [done|lia|].
    pose proof (binary_round_sign true d ez) as Hs.
    by destruct (binary_round prec emax true d ez).
Qed.

Lemma sign_not_positive f : sign_or_nan true f -> not_positive f.
Proof. by destruct f. Qed.

Lemma fdiv_not_positive x y :
  not_positive x -> sign_or_nan false y -> not_positive (fdiv x y).
Proof.
  intros Hx Hy.
  destruct x as [sx|sx| |sx mx ex] eqn:Ex; cbn [not_positive] in Hx.
  - unfold fdiv. by destruct y.
  - subst sx. apply sign_not_positive. by apply (fdiv_sign true false).
  - unfold fdiv. by destruct y.
  - subst sx. apply sign_not_positive. by apply (fdiv_sign true false).
Qed.

Lemma fmul_not_positive x y :
  not_positive x -> sign_or_nan false y -> not_positive (fmul x y).
Proof.
  intros Hx Hy.
  destruct x as [sx|sx| |sx mx ex] eqn:Ex; cbn [not_positive] in Hx.
  - unfold fmul. by destruct y.
  - subst sx. apply sign_not_positive. by apply (fmul_sign true false).
  - unfold fmul. by destruct y.
  - subst sx. apply sign_not_positive. by apply (fmul_sign true false).
Qed.

Lemma sf_of_Z_not_positive z : z <= 0 -> not_positive (sf_of_Z z).
Proof. destruct z; cbn [sf_of_Z not_positive]; [done|lia|done]. Qed.

Lemma py_ge_not_positive f z :
  not_positive f -> 0 < z -> py_ge (PyFloat f) (PyInt z) = false.
Proof.
  intros Hf Hz. destruct f as [s|s| |s m e]; cbn [not_positive] in Hf.
  - unfold py_ge, py_compare. cbn [num_val float_val x_compare].
    by rewrite dy_compare_neg_pos by lia.
  - subst s. by apply py_ge_sign.
  - by apply py_ge_sign.
  - subst s. by apply py_ge_sign.
Qed.

(** The double of a reference price that is above zero. *)
Lemma to_float_positive p f :
  py_le p (PyInt 0) = false ->
  to_float p = Ret f ->
  sign_or_nan false f.
Proof.
  destruct p as [z|g]; cbn [to_float].
  - unfold py_le at 1, py_compare. cbn [num_val x_compare]. rewrite dy_compare_int.
    intros Hpos ->%float_of_int_ret. apply round_Z_positive.
    destruct (Z.compare_spec z 0); try done; lia.
  - intros Hpos [= <-]. revert Hpos. unfold py_le, py_compare.
    destruct g as [s|s| |s m e]; cbn [sign_or_nan num_val float_val x_compare].
    + by compute.
    + by destruct s.
    + done.
    + destruct s; [|done]. by rewrite dy_compare_neg_zero by lia.
Qed.

(** The doubles of two numbers that are exact as [float]s compare as
    the numbers do. *)
Lemma to_float_le c p fc fp :
  exact_as_float c -> exact_as_float p ->
  py_le c p = true ->
  to_float c = Ret fc -> to_float p = Ret fp ->
  py_le (PyFloat fc) (PyFloat fp) = true.
Proof.
  intros Hc Hp Hle Hfc Hfp. revert Hle. unfold py_le, py_compare. cbn [num_val].
  assert (x_compare (float_val fc) (float_val fp) = x_compare (num_val c) (num_val p))
    as ->; [|done].
  destruct c as [zc|gc], p as [zp|gp]; cbn [to_float] in Hfc, Hfp;
    cbn [exact_as_float] in Hc, Hp; cbn [num_val].
  - apply float_of_int_ret in Hfc as ->. apply float_of_int_ret in Hfp as ->.
    by rewrite (x_compare_eq_l _ _ _ _ Hc), (x_compare_eq_r _ _ _ _ Hp).
  - apply float_of_int_ret in Hfc as ->. injection Hfp as <-.
    by rewrite (x_compare_eq_l _ _ _ _ Hc).
  - injection Hfc as <-. apply float_of_int_ret in Hfp as ->.
    by rewrite (x_compare_eq_r _ _ _ _ Hp).
  - injection Hfc as <-. by injection Hfp as <-.
Qed.

Lemma times_100_not_positive q pct :
  not_positive q ->
  py_mul (PyFloat q) (PyInt 100) = Ret pct ->
  exists f, pct = PyFloat f /\ not_positive f.
Proof.
  intros Hq. rewrite times_100. intros [= <-]. eexists. split; [done|].
  apply fmul_not_positive; [done | apply round_Z_100_sign].
Qed.

Lemma percent_change_float_no_gain c p pct :
  (forall x y, c = PyInt x -> p = PyInt y -> False) ->
  exact_as_float c -> exact_as_float p ->
  py_le c p = true ->
  py_le p (PyInt 0) = false ->
  percent_change c p = Ret pct ->
  exists f, pct = PyFloat f /\ not_positive f.
Proof.
  intros Hfloat Hc Hp Hle Hpos. unfold percent_change.
  rewrite py_sub_float by done. unfold float_op.
  destruct (to_float c) as [fc|] eqn:Hfc; [|done].
  destruct (to_float p) as [fp|] eqn:Hfp; [|done].
  cbn [rbind]. rewrite py_truediv_float by (intros ? ? [=]).
  cbn [to_float rbind]. rewrite Hfp. cbn [rbind].
  destruct (is_fzero fp); [done|]. cbn [rbind].
  apply times_100_not_positive, fdiv_not_positive.
  - by apply fsub_not_positive, (to_float_le c p).
  - by apply (to_float_positive p).
Qed.

(** The percent change of a close that is not above a reference price
    above zero is not above zero. *)
Lemma percent_change_no_gain c p pct :
  subtracts_exactly c p ->
  py_le c p = true ->
  py_le p (PyInt 0) = false ->
  percent_change c p = Ret pct ->
  exists f, pct = PyFloat f /\ not_positive f.
Proof.
  intros Hexact Hle Hpos.
  destruct c as [zc|gc], p as [zp|gp];
    [|destruct Hexact as [Hc Hp]; by apply percent_change_float_no_gain..].
  unfold percent_change. cbn [py_sub rbind py_truediv].
  revert Hle Hpos. unfold py_le, py_compare. cbn [num_val x_compare].
  rewrite !dy_compare_int. intros Hle Hpos.
  assert (zc - zp <= 0 /\ 0 < zp) as [Hd Hp].
  { destruct (Z.compare_spec zc zp), (Z.compare_spec zp 0); try done; lia. }
  destruct (Z.eqb_spec zp 0); [lia|].
  pose proof (fdiv_not_positive (sf_of_Z (zc - zp)) (sf_of_Z zp)
                (sf_of_Z_not_positive _ Hd) (sf_of_Z_positive _ Hp)) as Hq.
  destruct (fdiv (sf_of_Z (zc - zp)) (sf_of_Z zp)) as [sq|sq| |sq mq eq];
    cbn [rbind]; try done; by apply times_100_not_positive.
Qed.

(** A close that is not above the reference price never qualifies. *)
Lemma no_gain_never_qualifies c p pct V :
  subtracts_exactly c p ->
  py_le c p = true ->
  percent_change c p = Ret pct ->
  qualifies pct V c = false.
Proof.
  intros Hexact Hle Hpct.
  destruct (py_le p (PyInt 0)) eqn:Hpos;
    [by apply (nonpositive_never_qualifies c p)|].
  destruct (percent_change_no_gain c p pct Hexact Hle Hpos Hpct) as (f & -> & Hf).
  unfold qualifies, MIN_PCT_CHANGE. by rewrite py_ge_not_positive.
Qed.

(** *** Integers below 2^53 are exact as doubles *)

Lemma digits2_pos_size p : digits2_pos p = Pos.size p.
Proof. induction p as [p IH|p IH|]; cbn [digits2_pos Pos.size]; by rewrite ?IH. Qed.

Lemma digits2_pos_bound p : Z.pos p < 2 ^ 53 -> Z.pos (digits2_pos p) <= 53.
Proof.
  intros Hp. rewrite digits2_pos_size.
  pose proof (Pos.size_le p) as Hsize.
  apply Pos2Z.pos_le_pos in Hsize. rewrite Pos2Z.inj_pow in Hsize.
  destruct (Z.le_gt_cases (Z.pos (Pos.size p)) 53) as [|Hgt]; [done|].
  assert (2 ^ 54 <= 2 ^ Z.pos (Pos.size p)) by (apply Z.pow_le_mono_r; lia).
  change (Z.pos p~0) with (2 * Z.pos p) in Hsize. lia.
Qed.

(** A mantissa of 53 bits in the range of normal exponents is not
    rounded. *)
Lemma binary_round_aux_exact s m e :
  Z.pos (digits2_pos m) = prec ->
  emin prec emax <= e <= emax - prec ->
  binary_round_aux prec emax s (Z.pos m) e loc_Exact = S754_finite s m e.
Proof.
  intros Hd He. unfold binary_round_aux, shr_fexp, shr. cbn [Zdigits2].
  assert (fexp prec emax (Z.pos (digits2_pos m) + e) - e = 0) as ->.
  { unfold fexp, emin, prec, emax in *. lia. }
  cbn [shr_record_of_loc shr_m loc_of_shr_record round_nearest_even Zdigits2].
  assert (fexp prec emax (Z.pos (digits2_pos m) + e) - e = 0) as ->.
  { unfold fexp, emin, prec, emax in *. lia. }
  cbn [shr_m]. destruct (Z.leb_spec e (emax - prec)); [done|lia].
Qed.

Lemma round_Z_exact z : Z.abs z < 2 ^ 53 -> exact_as_float (PyInt z).
Proof.
  intros Hz. cbn [exact_as_float]. unfold round_Z.
  assert (forall (s : bool) m, Z.pos m < 2 ^ 53 ->
            x_compare (float_val (binary_round prec emax s m 0))
              (XDy (if s then Z.neg m else Z.pos m) 0) = Some Eq) as Hround.
  { intros s m Hm. pose proof (digits2_pos_bound m Hm) as Hd.
    unfold binary_round, shl_align.
    destruct (fexp prec emax (Z.pos (digits2_pos m) + 0) - 0) as [|k|k] eqn:Hk.
    - rewrite binary_round_aux_exact;
        [|unfold fexp, emin, prec, emax in *; lia..].
      cbn [float_val x_compare]. f_equal.
      rewrite (dy_compare_scale _ 0 _ 0 0) by lia. apply Z.compare_refl.
    - unfold fexp, emin, prec, emax in *. lia.
    - rewrite binary_round_aux_exact;
        [|rewrite ?digits2_pos_iter_xO; unfold fexp, emin, prec, emax in *; lia..].
      cbn [float_val x_compare]. f_equal.
      assert (fexp prec emax (Z.pos (digits2_pos m) + 0) = Z.neg k) as -> by lia.
      rewrite (dy_compare_scale _ (Z.neg k) _ 0 (Z.neg k)) by lia.
      replace (Z.neg k - Z.neg k) with 0 by lia.
      replace (0 - Z.neg k) with (Z.pos k) by lia.
      change (Pos.iter xO m k) with (shift_pos k m).
      pose proof (shift_pos_correct k m) as Hshift.
      change (Z.pow_pos 2 k) with (2 ^ Z.pos k) in Hshift.
      apply Z.compare_eq_iff. destruct s; lia. }
  destruct z as [|m|m]; cbn [binary_normalize].
  - by compute.
  - apply (Hround false). lia.
  - apply (Hround true). lia.
Qed.

(** X17: a bar that closes at or below the reference price of its ticker
    never raises an alert, however large its volume: nothing is written
    to [gainers] and nothing is printed.  Two [int] prices are
    subtracted as integers; otherwise an [int] price is converted to a
    [float] first, and is taken to be exact as one, as every integer
    below 2^53 in magnitude is: see [round_Z_exact]. *)
Theorem no_alert_without_a_gain s event ticker close_price vol k prev_close c p :
  is_bar event ticker close_price vol ->
  key_of ticker = Ret k ->
  yesterday_close s !! k = Some prev_close ->
  number close_price = Ret c ->
  number prev_close = Ret p ->
  subtracts_exactly c p ->
  py_le c p = true ->
  gainers (snd (process_event event s)) = gainers s /\
  trace (snd (process_event event s)) = trace s.
Proof.
  intros Hbar Hkey Hprev Hc Hp Hexact Hle.
  rewrite (process_event_bar s event ticker close_price vol k Hbar Hkey), Hprev.
  destruct (on_known_ticker ticker close_price vol k prev_close s) as [r s'] eqn:Hrun.
  apply on_known_ticker_cases in Hrun
    as [(e & _ & ->)|(c' & p' & pct & v & V & Hc' & Hp' & Hpct & _ & _ & Hres)];
    [done|].
  assert (c' = c) as -> by congruence. assert (p' = p) as -> by congruence.
  unfold bar_result in Hres.
  rewrite (no_gain_never_qualifies c p pct V Hexact Hle Hpct) in Hres.
  by injection Hres as <- <-.
Qed.

(** AAPL closed at 100; a bar at 99.5 with 9,000,000 shares stores its
    volume and raises no alert. *)
Lemma no_alert_without_a_gain_witness :
  gainers (snd (process_event falling_bar aapl_state)) = gainers aapl_state /\
  trace (snd (process_event falling_bar aapl_state)) = trace aapl_state.
Proof.
  apply (no_alert_without_a_gain aapl_state falling_bar (JStr "AAPL")
           (JFloat (dec 995 1)) (JInt 9000000) (KStr "AAPL") (JInt 100)
           (PyFloat (dec 995 1)) (PyInt 100)).
  - apply is_bar_bar.
  - reflexivity.
  - reflexivity.
  - reflexivity.
  - reflexivity.
  - split; [exact I | by apply round_Z_exact].
  - vm_compute. reflexivity.
Defined.
